(** * Presence, room broadcast and notification fan-out of the chat server

    A shallow embedding of the socket handlers and of the notification
    fan-out of the server (its Express and socket.io entry file): the two
    in-memory registries [connectedUsers] and [roomParticipants], the
    [recentMessages] de-duplication window with its eviction timers, the
    persist-then-broadcast path of [send_message], and the three notification
    bursts (manual, lecture update, pinned message).

    Modelling conventions.
    - A JavaScript string is the list of its UTF-16 code units, so [length]
      is the source's [.length] and [take 50] is [.substring(0, 50)].
    - A JavaScript value received in a payload is a [jsval]; numbers are the
      integers, nested objects and arrays inside payload fields are outside
      the model.
    - [toLowerCase] and the printing of a number are not defined here: the
      model is given over whatever the runtime computes for them
      ([Builtins]), and only the examples at the end fix them, on ASCII
      strings and small integers.
    - A [Map] iterated with [forEach] is an insertion-ordered association
      list ([jsmap]); a [Map] or [Set] only ever probed by key is a [gmap] or
      a [gset].
    - A handler is a computation in the monad [M]: it threads the server
      state, appends to the log of outputs (socket emissions and [db.run]
      requests) and may throw, which aborts the rest of the handler and keeps
      the effects already performed.
    - [db.run] is asynchronous: the handler only logs the request together
      with the closure that the driver calls back; [run_callback] is that
      closure applied to the driver's answer. *)

From Stdlib Require Import ZArith Ascii String DecimalString.
From stdpp Require Import base decidable option numbers list gmap.

Local Open Scope Z_scope.

(** ** JavaScript strings and values *)

Definition jsstring := list N.

(** An ASCII literal of the source as code units. *)
Definition js (s : string) : jsstring := N_of_ascii <$> list_ascii_of_string s.

(** ** The built-ins taken as they are

    Two built-ins of the runtime have no definition of their own here:
    [String.prototype.toLowerCase], which follows the case mappings of
    Unicode, and the conversion of a number to a string ([String(n)], a
    number in a template literal, [n.toString()]), which prints the shortest
    decimal that reads back as the number. The server is modelled over
    whatever the two compute, and every general statement holds for all
    of them. *)
Class Builtins := {
  lower : jsstring → jsstring;
  numeral : Z → jsstring
}.

(** What the two compute on the inputs of the examples: on a string of
    ASCII code units [toLowerCase] folds the letters [A] to [Z] and keeps the
    rest, and an integer below 2^53 in absolute value prints as its decimal
    numeral. The examples use no other input. *)
Definition lower_ascii (s : jsstring) : jsstring :=
  (λ c, if bool_decide (65 ≤ c ≤ 90)%N then (c + 32)%N else c) <$> s.

Definition decimal (n : Z) : jsstring := js (NilZero.string_of_int (Z.to_int n)).

Definition example_builtins : Builtins :=
  {| lower := lower_ascii; numeral := decimal |}.

Inductive jsval :=
| VUndefined
| VNull
| VBool (b : bool)
| VNum (n : Z)
| VStr (s : jsstring).

Global Instance jsval_eq_dec : EqDecision jsval.
Proof. solve_decision. Defined.

Global Instance jsval_countable : Countable jsval.
Proof.
  refine (inj_countable'
    (λ v, match v with
          | VUndefined => inl (inl ())
          | VNull => inl (inr ())
          | VBool b => inr (inl b)
          | VNum n => inr (inr (inl n))
          | VStr s => inr (inr (inr s))
          end)
    (λ x, match x with
          | inl (inl _) => VUndefined
          | inl (inr _) => VNull
          | inr (inl b) => VBool b
          | inr (inr (inl n)) => VNum n
          | inr (inr (inr s)) => VStr s
          end) _).
  by intros [].
Defined.

(** ToBoolean: what [if (v)], [!v], [a && b] and [a || b] test. *)
Definition truthy (v : jsval) : bool :=
  match v with
  | VUndefined | VNull => false
  | VBool b => b
  | VNum n => negb (n =? 0)
  | VStr s => negb (bool_decide (s = []))
  end.

(** [a || b] *)
Definition js_or (a b : jsval) : jsval := if truthy a then a else b.

Section Server.
Context {builtins : Builtins}.

(** [String(v)] *)
Definition to_String (v : jsval) : jsstring :=
  match v with
  | VUndefined => js "undefined"
  | VNull => js "null"
  | VBool true => js "true"
  | VBool false => js "false"
  | VNum n => numeral n
  | VStr s => s
  end.

(** [typeof v === 'string' || typeof v === 'number'] *)
Definition is_string_or_number (v : jsval) : bool :=
  match v with
  | VNum _ | VStr _ => true
  | _ => false
  end.

(** ** Insertion-ordered maps

    [Map.prototype.set] on a present key replaces the value where the key
    stands, on an absent key appends; [forEach] visits in that order. *)

Section JsMap.
Context {K V : Type} `{EqDecision K}.

Definition jsmap := list (K * V).

Fixpoint jm_get (k : K) (m : jsmap) : option V :=
  match m with
  | [] => None
  | (k', v) :: m' => if decide (k = k') then Some v else jm_get k m'
  end.

Definition jm_has (k : K) (m : jsmap) : bool :=
  match jm_get k m with Some _ => true | None => false end.

Fixpoint jm_set (k : K) (v : V) (m : jsmap) : jsmap :=
  match m with
  | [] => [(k, v)]
  | (k', v') :: m' =>
      if decide (k = k') then (k, v) :: m' else (k', v') :: jm_set k v m'
  end.

Fixpoint jm_delete (k : K) (m : jsmap) : jsmap :=
  match m with
  | [] => []
  | (k', v') :: m' =>
      if decide (k = k') then jm_delete k m' else (k', v') :: jm_delete k m'
  end.

Definition jm_keys (m : jsmap) : list K := m.*1.
End JsMap.

Global Arguments jsmap : clear implicits.

(** ** Server state *)

Definition socket_id := jsstring.

(** An entry of [connectedUsers]: [{ id, name, role, studyType }]. *)
Record user_data := UserData {
  u_id : jsval;
  u_name : jsval;
  u_role : jsval;
  u_studyType : jsval
}.

(** An entry of a room's participant map: [{ userId, userName, role }]. *)
Record participant := Participant {
  p_userId : jsval;
  p_userName : jsval;
  p_role : jsval
}.

Global Instance user_data_eq_dec : EqDecision user_data.
Proof. solve_decision. Defined.
Global Instance participant_eq_dec : EqDecision participant.
Proof. solve_decision. Defined.

Record state := State {
  (** [const connectedUsers = new Map()]: socket id to identity *)
  connectedUsers : jsmap socket_id user_data;
  (** [const roomParticipants = new Map()]: room name to the room's own map *)
  roomParticipants : jsmap jsstring (gmap socket_id participant);
  (** [const recentMessages = new Map()]: tempId to the time it was seen *)
  recentMessages : gmap jsval Z;
  (** timeouts set and not yet run: the time they are due and the tempId
      their callback deletes *)
  timers : list (Z * jsval);
  (** the transport's subscriptions ([socket.join] / [socket.leave]) *)
  subscriptions : gset (socket_id * jsstring)
}.

Definition initial_state : state :=
  State [] [] ∅ [] ∅.

(** ** Outputs: socket emissions and database requests *)

(** [io.to(room)] (a socket id is a room of its own) and [io] itself. *)
Inductive target :=
| ToRoom (room : jsstring)
| ToAll.

(** The payload of [send_message] and, from it, [messageToSend]. *)
Record message_data := MessageData {
  md_room : jsval;
  md_sender_id : jsval;
  md_sender_name : jsval;
  md_content : jsval;
  md_type : jsval;
  md_file_path : jsval;
  md_tempId : jsval;
  md_role : jsval;
  md_avatar : jsval;
  md_studyType : jsval
}.

Record chat_message := ChatMessage {
  m_id : Z;
  m_sender_id : jsval;
  m_sender_name : jsval;
  m_content : jsval;
  m_type : jsval;
  m_file_path : jsval;
  m_tempId : jsval;
  m_role : jsval;
  m_avatar : jsval;
  m_studyType : jsval
}.

(** [sysMessage] of the pin route. *)
Record system_message := SystemMessage {
  sm_id : Z;
  sm_room : jsstring;
  sm_sender_id : Z;
  sm_sender_name : jsstring;
  sm_content : jsval;
  sm_file_path : jsstring;
  sm_type : jsstring
}.

Inductive message_payload :=
| Chat (m : chat_message)
| System (m : system_message).

(** The [data] field of a [new_notification]. *)
Inductive notification_data :=
| manual_alert (senderId : jsval)
| pinned_message (messageId : Z) (room : jsstring)
| lecture_update (lectureId : jsval).

Record notification := Notification {
  n_id : Z;
  n_title : jsstring;
  n_body : jsval;
  n_data : notification_data
}.

Inductive event :=
| active_student_count (room : jsstring) (count : nat)
| receive_message (m : message_payload)
| dashboard_update (roomId : jsstring) (m : message_payload)
| new_notification (n : notification)
| message_pin_updated (messageId : jsval) (isPinned : jsval) (room : jsstring).

(** The row an [INSERT] writes. A column the statement does not list is
    [VNull]. *)
Inductive db_row :=
| MessagesRow (room : jsstring)
    (sender_id sender_name content type file_path : jsval)
| NotificationsRow (user_id : jsval) (title : jsstring) (message : jsval)
    (sender_id sender_name : jsval).

(** The closure handed to [db.run], with what it captured. *)
Inductive db_callback :=
| send_message_saved (room : jsstring) (messageData : message_data)
| manual_notification_saved (targetSocketId : socket_id)
    (title : jsstring) (body : jsval) (professor_id : jsval)
| pin_notification_saved (socketId : socket_id)
    (title body : jsstring) (messageId : Z) (room : jsstring)
| lecture_notification_saved (socketId : socket_id)
    (title body : jsstring) (lectureId : jsval)
| system_message_saved (room : jsstring) (content : jsval) (pinnedMsgIdStr : jsstring).

Inductive output :=
| Emit (to : target) (e : event)
| DbRun (row : db_row) (cb : db_callback).

(** What the driver passes to the closure: [err], or [this.lastID]. *)
Inductive db_result :=
| DbError
| DbOk (lastID : Z).

Global Instance target_eq_dec : EqDecision target.
Proof. solve_decision. Defined.
Global Instance message_data_eq_dec : EqDecision message_data.
Proof. solve_decision. Defined.
Global Instance chat_message_eq_dec : EqDecision chat_message.
Proof. solve_decision. Defined.
Global Instance system_message_eq_dec : EqDecision system_message.
Proof. solve_decision. Defined.
Global Instance message_payload_eq_dec : EqDecision message_payload.
Proof. solve_decision. Defined.
Global Instance notification_data_eq_dec : EqDecision notification_data.
Proof. solve_decision. Defined.
Global Instance notification_eq_dec : EqDecision notification.
Proof. solve_decision. Defined.
Global Instance event_eq_dec : EqDecision event.
Proof. solve_decision. Defined.
Global Instance db_row_eq_dec : EqDecision db_row.
Proof. solve_decision. Defined.
Global Instance db_callback_eq_dec : EqDecision db_callback.
Proof. solve_decision. Defined.
Global Instance output_eq_dec : EqDecision output.
Proof. solve_decision. Defined.

(** ** The handler monad *)

Inductive outcome (A : Type) :=
| Done (a : A)
| Thrown.
Global Arguments Done {A} a.
Global Arguments Thrown {A}.

Definition M (A : Type) : Type := state → outcome A * state * list output.

Global Instance M_ret : MRet M := λ A a s, (Done a, s, []).

Global Instance M_bind : MBind M := λ A B f m s,
  match m s with
  | (Done a, s', o) =>
      match f a s' with
      | (r, s'', o') => (r, s'', o ++ o')
      end
  | (Thrown, s', o) => (Thrown, s', o)
  end.

Definition get_state : M state := λ s, (Done s, s, []).
Definition modify (f : state → state) : M unit := λ s, (Done (), f s, []).
Definition tell (o : output) : M unit := λ s, (Done (), s, [o]).
Definition throw {A} : M A := λ s, (Thrown, s, []).

Definition from_option {A} (o : option A) : M A :=
  match o with Some a => mret a | None => throw end.

Definition emit (to : target) (e : event) : M unit := tell (Emit to e).
Definition db_run (row : db_row) (cb : db_callback) : M unit :=
  tell (DbRun row cb).

(** The state and the outputs a computation leaves behind. *)
Definition final_state {A} (m : M A) (s : state) : state := (m s).1.2.
Definition outputs {A} (m : M A) (s : state) : list output := (m s).2.
Definition throws {A} (m : M A) (s : state) : bool :=
  match (m s).1.1 with Thrown => true | Done _ => false end.

(** [map.forEach((v, k) => ...)] with a local accumulator: in insertion
    order, and a throw leaves the loop. *)
Fixpoint foldM {A K V} (f : A → V → K → M A) (a : A) (m : jsmap K V) : M A :=
  match m with
  | [] => mret a
  | (k, v) :: m' => a' ← f a v k; foldM f a' m'
  end.

Definition forEach {K V} (f : V → K → M unit) (m : jsmap K V) : M unit :=
  foldM (λ _ v k, f v k) () m.

(** Field updates of the state. *)
Definition set_connectedUsers (f : jsmap socket_id user_data → jsmap socket_id user_data)
    (s : state) : state :=
  State (f (connectedUsers s)) (roomParticipants s) (recentMessages s)
        (timers s) (subscriptions s).

Definition set_roomParticipants
    (f : jsmap jsstring (gmap socket_id participant) →
         jsmap jsstring (gmap socket_id participant))
    (s : state) : state :=
  State (connectedUsers s) (f (roomParticipants s)) (recentMessages s)
        (timers s) (subscriptions s).

Definition set_recentMessages (f : gmap jsval Z → gmap jsval Z)
    (s : state) : state :=
  State (connectedUsers s) (roomParticipants s) (f (recentMessages s))
        (timers s) (subscriptions s).

Definition set_timers (f : list (Z * jsval) → list (Z * jsval))
    (s : state) : state :=
  State (connectedUsers s) (roomParticipants s) (recentMessages s)
        (f (timers s)) (subscriptions s).

Definition set_subscriptions
    (f : gset (socket_id * jsstring) → gset (socket_id * jsstring))
    (s : state) : state :=
  State (connectedUsers s) (roomParticipants s) (recentMessages s)
        (timers s) (f (subscriptions s)).

(** ** Presence: registration, rooms, disconnect *)

Definition is_student (p : participant) : Prop := p_role p = VStr (js "student").

Global Instance is_student_dec p : Decision (is_student p).
Proof. unfold is_student. apply _. Defined.

(** [Array.from(participants.values()).filter(p => p.role === 'student').length] *)
Definition studentCount (participants : gmap socket_id participant) : nat :=
  length (filter is_student (map_to_list participants).*2).

Definition emitActiveStudentCount (room : jsstring) : M unit :=
  s ← get_state;
  match jm_get room (roomParticipants s) with
  | None => emit (ToRoom room) (active_student_count room 0)
  | Some participants =>
      emit (ToRoom room) (active_student_count room (studentCount participants))
  end.

(** [socket.on('register_user', ...)] *)
Definition register_user (sid : socket_id) (userData : user_data) : M unit :=
  let normalizedData :=
    UserData (u_id userData) (u_name userData) (u_role userData)
             (js_or (u_studyType userData) (VStr (js "morning"))) in
  modify (set_connectedUsers (jm_set sid normalizedData)).

(** [socket.on('disconnect', ...)]. The transport has left all its rooms
    when the event is raised. Each room's map is the object stored under the
    room's name, so deleting from it is an update in place of that entry. *)
Definition disconnect (sid : socket_id) : M unit :=
  modify (set_subscriptions (filter (λ sr, sr.1 ≠ sid)));;
  modify (set_connectedUsers (jm_delete sid));;
  s ← get_state;
  forEach (λ participants room,
    if decide (is_Some (participants !! sid)) then
      modify (set_roomParticipants (jm_set room (delete sid participants)));;
      emitActiveStudentCount room
    else mret ()) (roomParticipants s).

(** The payload of [join_room]: a bare value, or an object of which the
    fields read are given ([VUndefined] when absent). *)
Inductive join_data :=
| JoinPrim (v : jsval)
| JoinObj (roomId room userId userName role : jsval).

(** [isPrimitive ? data : (data.roomId || data.room)]; reading a property of
    [undefined] or [null] is a TypeError ([None]), of a boolean gives
    [undefined]. *)
Definition join_identifier (data : join_data) : option jsval :=
  match data with
  | JoinPrim v =>
      if is_string_or_number v then Some v
      else match v with
           | VUndefined | VNull => None
           | _ => Some VUndefined
           end
  | JoinObj roomId room _ _ _ => Some (js_or roomId room)
  end.

(** [typeof data === 'object' ? data.f : null] *)
Definition join_field (f : jsval → jsval → jsval → jsval) (data : join_data) : jsval :=
  match data with
  | JoinPrim _ => VNull
  | JoinObj _ _ userId userName role => f userId userName role
  end.

(** [!roomId || roomId === 'undefined' || roomId === 'null'] *)
Definition invalid_roomId (roomId : jsstring) : bool :=
  bool_decide (roomId = []) || bool_decide (roomId = js "undefined")
  || bool_decide (roomId = js "null").

(** [socket.on('join_room', ...)] *)
Definition join_room (sid : socket_id) (data : join_data) : M unit :=
  roomId0 ← from_option (join_identifier data);
  let roomId := to_String roomId0 in
  let userId := join_field (λ u _ _, u) data in
  let userName := join_field (λ _ n _, n) data in
  let role := join_field (λ _ _ r, r) data in
  if invalid_roomId roomId then mret ()
  else
    modify (set_subscriptions (λ subs, {[ (sid, roomId) ]} ∪ subs));;
    if truthy userId && truthy userName && truthy role then
      s ← get_state;
      (if jm_has roomId (roomParticipants s) then mret ()
       else modify (set_roomParticipants (jm_set roomId ∅)));;
      s ← get_state;
      match jm_get roomId (roomParticipants s) with
      | Some participants =>
          modify (set_roomParticipants
            (jm_set roomId (<[sid := Participant userId userName role]> participants)))
      | None => throw
      end;;
      emitActiveStudentCount roomId
    else mret ().

(** [socket.on('leave_room', ({ roomId }) => ...)]. Room names are stored as
    strings only, so a [roomId] of another type names no subscription and no
    entry of [roomParticipants]. *)
Definition leave_room (sid : socket_id) (roomId : jsval) : M unit :=
  match roomId with
  | VStr room =>
      modify (set_subscriptions (λ subs, subs ∖ {[ (sid, room) ]}));;
      s ← get_state;
      match jm_get room (roomParticipants s) with
      | Some participants =>
          modify (set_roomParticipants (jm_set room (delete sid participants)));;
          emitActiveStudentCount room
      | None => mret ()
      end
  | _ => mret ()
  end.

(** ** Messages: the de-duplication window, persist, then broadcast *)

(** [setTimeout(() => recentMessages.delete(tempId), 10000)] at time [now] *)
Definition setTimeout_delete (now : Z) (tempId : jsval) : M unit :=
  modify (set_timers (λ ts, ts ++ [(now + 10000, tempId)])).

(** [socket.on('send_message', ...)], up to the call of [db.run]; [now] is
    what [Date.now()] returns. *)
Definition send_message (now : Z) (messageData : message_data) : M unit :=
  let room := to_String (md_room messageData) in
  let tempId := md_tempId messageData in
  s ← get_state;
  let duplicate :=
    truthy tempId &&
    match recentMessages s !! tempId with
    | Some lastSeen => bool_decide (now - lastSeen < 5000)
    | None => false
    end in
  if duplicate then mret ()
  else
    (if truthy tempId then
       modify (set_recentMessages (<[tempId := now]>));;
       setTimeout_delete now tempId
     else mret ());;
    db_run (MessagesRow room (md_sender_id messageData)
              (md_sender_name messageData) (md_content messageData)
              (js_or (md_type messageData) (VStr (js "text")))
              (md_file_path messageData))
           (send_message_saved room messageData).

Definition messageToSend (messageId : Z) (messageData : message_data) : chat_message :=
  {| m_id := messageId;
     m_sender_id := md_sender_id messageData;
     m_sender_name := md_sender_name messageData;
     m_content := md_content messageData;
     m_type := js_or (md_type messageData) (VStr (js "text"));
     m_file_path := md_file_path messageData;
     m_tempId := md_tempId messageData;
     m_role := js_or (md_role messageData) (VStr (js "student"));
     m_avatar := js_or (md_avatar messageData) VNull;
     m_studyType := js_or (md_studyType messageData) (VStr (js "evening")) |}.

(** The timers that are due at [now] run: each deletes its tempId. *)
Definition run_timers (now : Z) : M unit :=
  s ← get_state;
  let due := filter (λ t, t.1 ≤ now) (timers s) in
  modify (set_timers (filter (λ t, ¬ t.1 ≤ now)));;
  modify (set_recentMessages (λ rm, foldr (λ t, delete t.2) rm due)).

(** ** Notification fan-out *)

(** [(v || 'morning').toLowerCase()]; on a value that is no string
    [toLowerCase] is not a function. *)
Definition toLowerCase (v : jsval) : M jsstring :=
  match v with
  | VStr s => mret (lower s)
  | _ => throw
  end.

Definition normalized_studyType (v : jsval) : M jsstring :=
  toLowerCase (js_or v (VStr (js "morning"))).

Record notification_request := NotificationRequest {
  nr_professor_id : jsval;
  nr_professor_name : jsval;
  nr_message : jsval
}.

Definition manual_title (professor_name : jsval) : jsstring :=
  [55357; 56546; 32; 1573; 1588; 1593; 1575; 1585; 32; 1605; 1606; 32]%N
  ++ to_String professor_name.

(** [socket.on('send_notification', ...)] *)
Definition send_notification (sid : socket_id) (data : notification_request) : M unit :=
  let professor_id := nr_professor_id data in
  s ← get_state;
  let senderData := jm_get sid (connectedUsers s) in
  senderStudyType ← normalized_studyType
    (match senderData with Some d => u_studyType d | None => VUndefined end);
  let notificationTitle := manual_title (nr_professor_name data) in
  let notificationBody := nr_message data in
  forEach (λ userData targetSocketId,
    userStudy ← normalized_studyType (u_studyType userData);
    if bool_decide (userStudy = senderStudyType)
       && bool_decide (u_id userData ≠ professor_id) then
      db_run (NotificationsRow (u_id userData) notificationTitle notificationBody
                professor_id (nr_professor_name data))
             (manual_notification_saved targetSocketId notificationTitle
                notificationBody professor_id)
    else mret ()) (connectedUsers s).

(** The lecture-update burst of [PUT /api/lectures/:id], from the point where
    the changes are known: [lecture_studyType] and [editingUserId] are
    [lecture.studyType] and [lecture.created_by]. *)
Definition lecture_update_notify (id : jsval) (lecture_studyType editingUserId : jsval)
    (notificationTitle notificationBody : jsstring) : M unit :=
  let targetStudyType := js_or lecture_studyType (VStr (js "morning")) in
  s ← get_state;
  targetSockets ← foldM (λ (acc : list socket_id) userData socketId,
    userStudyType ← normalized_studyType (u_studyType userData);
    target ← normalized_studyType targetStudyType;
    if bool_decide (userStudyType = target)
       && bool_decide (u_id userData ≠ editingUserId)
    then mret (acc ++ [socketId]) else mret acc) [] (connectedUsers s);
  forEach (λ userData socketId,
    userStudyType ← normalized_studyType (u_studyType userData);
    target ← normalized_studyType targetStudyType;
    if bool_decide (userStudyType = target)
       && bool_decide (u_id userData ≠ editingUserId) then
      db_run (NotificationsRow (u_id userData) notificationTitle
                (VStr notificationBody) VNull VNull)
             (lecture_notification_saved socketId notificationTitle
                notificationBody id)
    else mret ()) (connectedUsers s).

(** The row [db.get] returns in [PUT /api/messages/:id/pin]: the message
    joined with its room and its sender. The columns [sender_name] and
    [content] hold what the client of [send_message] sent, so they may be
    [NULL]; the room of a stored message is a string, [send_message] and the
    pin route being the writers of the table. *)
Record message_row := MessageRow {
  r_id : Z;
  r_room : jsstring;
  r_sender_name : jsval;
  r_content : jsval;
  r_roomStudyType : jsval;
  r_senderStudyType : jsval;
  r_roomName : jsval
}.

(** [content.length > 50 ? content.substring(0, 50) + '...' : content].
    Reading [length] of [null] or [undefined] is a TypeError ([None]); a
    number or a boolean has no [length], and [undefined > 50] is false. *)
Definition messagePreview (content : jsval) : option jsval :=
  match content with
  | VUndefined | VNull => None
  | VStr c =>
      Some (VStr (if bool_decide (50 < length c)%nat
                  then take 50 c ++ js "..." else c))
  | _ => Some content
  end.

(** [`من ${message.sender_name}: ${messagePreview}`] *)
Definition pin_notificationBody (message : message_row) : option jsstring :=
  preview ← messagePreview (r_content message);
  Some ([1605; 1606; 32]%N ++ to_String (r_sender_name message) ++ js ": "
        ++ to_String preview).

Definition pin_notificationTitle (message : message_row) : jsstring :=
  [55357; 56524; 32; 1585; 1587; 1575; 1604; 1577; 32; 1605; 1579; 1576;
   1578; 1577; 32; 1601; 1610; 32]%N
  ++ to_String (js_or (js_or (r_roomName message) (VStr (r_room message)))
                      (VStr [1583; 1585; 1583; 1588; 1577]%N)).

Definition systemSenderName : jsstring := [1575; 1604; 1606; 1592; 1575; 1605]%N.

(** The loop over [connectedUsers] of the pin route, with its local
    [notifiedUserIds]. *)
Definition pin_notify (message : message_row) (notificationBody : jsstring) :
    M (gset jsval) :=
  let targetStudyType :=
    js_or (js_or (r_roomStudyType message) (r_senderStudyType message))
          (VStr (js "morning")) in
  let notificationTitle := pin_notificationTitle message in
  s ← get_state;
  foldM (λ (notifiedUserIds : gset jsval) userData socketId,
    userStudyType ← normalized_studyType (u_studyType userData);
    targetStudy ← normalized_studyType targetStudyType;
    if bool_decide (userStudyType = targetStudy)
       && bool_decide (u_id userData ∉ notifiedUserIds) then
      db_run (NotificationsRow (u_id userData) notificationTitle
                (VStr notificationBody) VNull VNull)
             (pin_notification_saved socketId notificationTitle
                notificationBody (r_id message) (r_room message));;
      mret ({[ u_id userData ]} ∪ notifiedUserIds)
    else mret notifiedUserIds) ∅ (connectedUsers s).

(** [PUT /api/messages/:id/pin], the callback of the [UPDATE] once it has
    succeeded: [id] is the route parameter, [is_pinned] the body's field.
    The notification body is made before the loop, so a message without
    content makes the callback throw before anything is written. *)
Definition pin_updated (id is_pinned : jsval) (message : message_row) : M unit :=
  (if truthy is_pinned then
     notificationBody ← from_option (pin_notificationBody message);
     _ ← pin_notify message notificationBody;
     let pinnedMsgIdStr := to_String (VNum (r_id message)) in
     db_run (MessagesRow (r_room message) (VNum (-1)) (VStr systemSenderName)
               (r_content message) (VStr (js "system")) (VStr pinnedMsgIdStr))
            (system_message_saved (r_room message) (r_content message) pinnedMsgIdStr)
   else mret ());;
  emit (ToRoom (r_room message)) (message_pin_updated id is_pinned (r_room message)).

(** ** The closures of [db.run] *)

Definition run_callback (cb : db_callback) (res : db_result) : M unit :=
  match cb, res with
  | send_message_saved room messageData, DbOk messageId =>
      let m := Chat (messageToSend messageId messageData) in
      emit (ToRoom room) (receive_message m);;
      emit ToAll (dashboard_update room m)
  | manual_notification_saved targetSocketId title body professor_id, DbOk notificationId =>
      emit (ToRoom targetSocketId)
        (new_notification (Notification notificationId title body (manual_alert professor_id)))
  | pin_notification_saved socketId title body messageId room, DbOk notificationId =>
      emit (ToRoom socketId)
        (new_notification
           (Notification notificationId title (VStr body) (pinned_message messageId room)))
  | lecture_notification_saved socketId title body lectureId, DbOk notificationId =>
      emit (ToRoom socketId)
        (new_notification
           (Notification notificationId title (VStr body) (lecture_update lectureId)))
  | system_message_saved room content pinnedMsgIdStr, DbOk lastID =>
      let sysMessage :=
        System (SystemMessage lastID room (-1) systemSenderName content
                  pinnedMsgIdStr (js "system")) in
      emit (ToRoom room) (receive_message sysMessage);;
      emit ToAll (dashboard_update room sysMessage)
  | _, DbError => mret ()
  end.

(** ** The server as a transition system *)

(** What drives the server: a socket event, the clock reaching the due time
    of timers, the database driver calling a closure back, and the two HTTP
    routes at the point where they enter the fan-out. *)
Inductive input :=
| on_register_user (sid : socket_id) (userData : user_data)
| on_disconnect (sid : socket_id)
| on_join_room (sid : socket_id) (data : join_data)
| on_leave_room (sid : socket_id) (roomId : jsval)
| on_send_message (now : Z) (messageData : message_data)
| on_send_notification (sid : socket_id) (data : notification_request)
| on_timers (now : Z)
| on_db_done (cb : db_callback) (res : db_result)
| on_pin_updated (id is_pinned : jsval) (message : message_row)
| on_lecture_updated (id lecture_studyType editingUserId : jsval)
    (notificationTitle notificationBody : jsstring).

Definition handle (i : input) : M unit :=
  match i with
  | on_register_user sid userData => register_user sid userData
  | on_disconnect sid => disconnect sid
  | on_join_room sid data => join_room sid data
  | on_leave_room sid roomId => leave_room sid roomId
  | on_send_message now messageData => send_message now messageData
  | on_send_notification sid data => send_notification sid data
  | on_timers now => run_timers now
  | on_db_done cb res => run_callback cb res
  | on_pin_updated id is_pinned message => pin_updated id is_pinned message
  | on_lecture_updated id st ed title body =>
      lecture_update_notify id st ed title body
  end.

(** The state after a history of inputs, oldest first. *)
Definition run (inputs : list input) (s : state) : state :=
  foldl (λ s i, final_state (handle i) s) s inputs.

(** All that the server wrote while it ran a history. *)
Fixpoint trace (inputs : list input) (s : state) : list output :=
  match inputs with
  | [] => []
  | i :: inputs' =>
      outputs (handle i) s ++ trace inputs' (final_state (handle i) s)
  end.

(** The participants of a room; a room never joined has none. *)
Definition participantsOf (room : jsstring) (s : state) : gmap socket_id participant :=
  default ∅ (jm_get room (roomParticipants s)).

(** ** Vocabulary of the statements *)

(** A send is accepted when it reaches [db.run]: the one output of the
    handler is the request to persist the message. It is rejected when the
    handler returns having done nothing at all. *)
Definition accepted (now : Z) (messageData : message_data) (s : state) : Prop :=
  ∃ row, outputs (send_message now messageData) s
         = [DbRun row (send_message_saved (to_String (md_room messageData)) messageData)].

Definition rejected (now : Z) (messageData : message_data) (s : state) : Prop :=
  send_message now messageData s = (Done (), s, []).

(** The test of the window: the send carries a token, the window holds the
    token, and the time it holds is less than 5 seconds before [now]. *)
Definition duplicate (now : Z) (messageData : message_data) (s : state) : Prop :=
  truthy (md_tempId messageData) = true
  ∧ ∃ lastSeen, recentMessages s !! md_tempId messageData = Some lastSeen
                ∧ now - lastSeen < 5000.

(** The parameters of the [INSERT] of [send_message]. *)
Definition inserted_row (messageData : message_data) : db_row :=
  MessagesRow (to_String (md_room messageData)) (md_sender_id messageData)
    (md_sender_name messageData) (md_content messageData)
    (js_or (md_type messageData) (VStr (js "text"))) (md_file_path messageData).

Definition is_emit (o : output) : Prop :=
  match o with Emit _ _ => True | DbRun _ _ => False end.

(** The two broadcasts of a chat message. *)
Definition is_chat_broadcast (o : output) : Prop :=
  match o with
  | Emit _ (receive_message (Chat _)) | Emit _ (dashboard_update _ (Chat _)) => True
  | _ => False
  end.

(** A computation all of whose outputs satisfy [Q]. *)
Definition writes {A} (Q : output → Prop) (m : M A) : Prop :=
  ∀ s, Forall Q (outputs m s).

Definition is_db_run (o : output) : Prop :=
  match o with DbRun _ _ => True | Emit _ _ => False end.

(** The identifier of a join is missing when the payload has none to read,
    or when what is read is [undefined], [null] or one of the strings
    "undefined" and "null". *)
Definition missing_identifier (data : join_data) : Prop :=
  match join_identifier data with
  | None => True
  | Some v =>
      v = VUndefined ∨ v = VNull ∨ v = VStr (js "undefined") ∨ v = VStr (js "null")
  end.

(** [userId && userName && role] *)
Definition full_identity (data : join_data) : bool :=
  truthy (join_field (λ u _ _, u) data)
  && truthy (join_field (λ _ n _, n) data)
  && truthy (join_field (λ _ _ r, r) data).

Definition join_participant (data : join_data) : participant :=
  Participant (join_field (λ u _ _, u) data) (join_field (λ _ n _, n) data)
              (join_field (λ _ _ r, r) data).

Definition md_example (tempId : jsval) : message_data :=
  MessageData (VStr (js "R1")) (VNum 7) (VStr (js "X")) (VStr (js "hello"))
    VUndefined VUndefined tempId VUndefined VUndefined VUndefined.

Definition s_sent_t1 : state :=
  final_state (send_message 1000 (md_example (VStr (js "t1")))) initial_state.

Definition join_ann (role : string) : join_data :=
  JoinObj (VNum 5) VUndefined (VNum 1) (VStr (js "ann")) (VStr (js role)).

(** The active count of a room: the number of its participants whose role
    is student. *)
Definition activeCount (room : jsstring) (s : state) : nat :=
  size (filter (λ kv : socket_id * participant, is_student kv.2) (participantsOf room s)).

Definition is_count (o : output) : Prop :=
  match o with
  | Emit _ (active_student_count _ _) => True
  | _ => False
  end.

(** *** Membership as the events tell it

    The reading of the events that the specification gives, to which the
    tracker of the code is compared; it looks at the events only, never at
    the state of the server. A room is named by the string form of the
    identifier an event carries. A join with full identity, whose identifier
    is not missing, makes the connection a participant of the room it names;
    a leave ends the participation in the room it names; a disconnect ends
    every participation of the connection. *)
Definition joined_step (room : jsstring) (ps : gmap socket_id participant)
    (i : input) : gmap socket_id participant :=
  match i with
  | on_join_room sid data =>
      match join_identifier data with
      | Some v =>
          if negb (invalid_roomId (to_String v)) && full_identity data
             && bool_decide (to_String v = room)
          then <[sid := join_participant data]> ps else ps
      | None => ps
      end
  | on_leave_room sid roomId =>
      if bool_decide (to_String roomId = room) then delete sid ps else ps
  | on_disconnect sid => delete sid ps
  | _ => ps
  end.

(** The participants a room has after a history of events, by the events. *)
Definition currently_joined (history : list input) (room : jsstring) :
    gmap socket_id participant :=
  foldl (joined_step room) ∅ history.

(** Those of them whose role is student. *)
Definition students (ps : gmap socket_id participant) : nat :=
  size (filter (λ kv : socket_id * participant, is_student kv.2) ps).

(** An input that, if it is a leave, names its room by a string. *)
Definition leaves_by_name (i : input) : Prop :=
  match i with
  | on_leave_room _ (VStr _) => True
  | on_leave_room _ _ => False
  | _ => True
  end.

Global Instance leaves_by_name_dec i : Decision (leaves_by_name i).
Proof. destruct i as [| | |? []| | | | | |]; simpl; apply _. Defined.

(** The counts published while a history ran, with the room they went to. *)
Definition published (outs : list output) : list (jsstring * nat) :=
  omap (λ o, match o with
             | Emit (ToRoom room) (active_student_count _ count) => Some (room, count)
             | _ => None
             end) outs.

(** A computation that does not touch the room tracker and whose outputs
    all satisfy [Q]. *)
Definition quiet {A} (Q : output → Prop) (m : M A) : Prop :=
  ∀ s, roomParticipants (final_state m s) = roomParticipants s
       ∧ Forall Q (outputs m s).

(** The rooms are well formed when no name occurs twice in the tracker. *)
Definition rooms_wf (s : state) : Prop := NoDup (jm_keys (roomParticipants s)).

(** What the loop of [disconnect] makes of the tracker, and what it
    publishes: every room's map loses the connection, and a room that held it
    is recounted. *)
Definition remove_everywhere (sid : socket_id)
    (rp : jsmap jsstring (gmap socket_id participant)) :
    jsmap jsstring (gmap socket_id participant) :=
  (λ rps, (rps.1, delete sid rps.2)) <$> rp.

Definition recounts (sid : socket_id)
    (rp : jsmap jsstring (gmap socket_id participant)) : list output :=
  rps ← rp;
  if decide (is_Some (rps.2 !! sid))
  then [Emit (ToRoom rps.1)
          (active_student_count rps.1 (studentCount (delete sid rps.2)))]
  else [].

(** Every participant of every room is a registered connection. *)
Definition consistent (s : state) : Prop :=
  Forall (λ rps : jsstring * gmap socket_id participant,
            map_Forall (λ sid _, is_Some (jm_get sid (connectedUsers s))) rps.2)
         (roomParticipants s).

(** The same, for every connection but one. *)
Definition consistent_but (sid0 : socket_id) (s : state) : Prop :=
  Forall (λ rps : jsstring * gmap socket_id participant,
            map_Forall (λ sid _, sid ≠ sid0 →
                                 is_Some (jm_get sid (connectedUsers s))) rps.2)
         (roomParticipants s).

Global Instance consistent_dec s : Decision (consistent s).
Proof. unfold consistent. apply _. Defined.

Global Instance consistent_but_dec sid0 s : Decision (consistent_but sid0 s).
Proof. unfold consistent_but. apply _. Defined.

Definition user_bob : user_data :=
  UserData (VNum 2) (VStr (js "bob")) (VStr (js "student")) VUndefined.

(** A connection joins a room with its identity and never registers; another
    one registers and disconnects. *)
Definition history_unregistered_joiner : list input :=
  [ on_join_room (js "A") (join_ann "student");
    on_register_user (js "B") user_bob;
    on_disconnect (js "B") ].

(** Two registered connections in one room. *)
Definition history_two_in_room : list input :=
  [ on_register_user (js "A") (UserData (VNum 1) (VStr (js "ann")) (VStr (js "student")) VUndefined);
    on_register_user (js "B") user_bob;
    on_join_room (js "A") (join_ann "student");
    on_join_room (js "B")
      (JoinObj (VNum 5) VUndefined (VNum 2) (VStr (js "bob")) (VStr (js "student"))) ].

(** The scenario of the specification: two connections of the morning
    cohort, and a pinned message of room "R1". *)
Definition s_morning_pair : state :=
  run [ on_register_user (js "A") (UserData (VNum 1) (VStr (js "ann")) (VStr (js "representative")) (VStr (js "morning")));
        on_register_user (js "B") (UserData (VNum 2) (VStr (js "bob")) (VStr (js "student")) (VStr (js "morning"))) ]
      initial_state.

Definition exam_message : message_row :=
  MessageRow 41 (js "R1") (VStr (js "X")) (VStr (js "Exam moved to Monday"))
             (VStr (js "morning")) VNull (VStr (js "R1")).

(** A message stored by a [send_message] that carried no content. *)
Definition blank_message : message_row :=
  MessageRow 42 (js "R1") (VStr (js "X")) VNull
             (VStr (js "morning")) VNull (VStr (js "R1")).

(** What a notification row tells of the text it stores, and a closure of
    the text it will deliver: [Q_row] holds of a request to store [body] and
    deliver [body]. *)
Definition carries_body (body : jsstring) (o : output) : Prop :=
  match o with
  | DbRun (NotificationsRow _ _ message _ _) cb =>
      message = VStr body
      ∧ ∀ notificationId s, ∃ socketId n,
          run_callback cb (DbOk notificationId) s
          = (Done (), s, [Emit (ToRoom socketId) (new_notification n)])
          ∧ n_body n = VStr body
  | _ => True
  end.

(** ** Vocabulary of the fan-out statements *)

(** The cohort a [studyType] stands for: [(v || 'morning').toLowerCase()],
    where it is defined. *)
Definition cohort (v : jsval) : option jsstring :=
  match js_or v (VStr (js "morning")) with
  | VStr c => Some (lower c)
  | _ => None
  end.

(** Every registered [studyType] is a string. *)
Definition strings_registry (s : state) : Prop :=
  Forall (λ e : socket_id * user_data, is_Some (cohort (u_studyType e.2)))
         (connectedUsers s).

Global Instance strings_registry_dec s : Decision (strings_registry s).
Proof. unfold strings_registry. apply _. Defined.

(** The connections of cohort [c] whose user satisfies [P], in the order of
    the registry. *)
Definition audience (c : jsstring) (P : user_data → Prop) `{∀ u, Decision (P u)}
    (s : state) : list (socket_id * user_data) :=
  filter (λ e, cohort (u_studyType e.2) = Some c ∧ P e.2) (connectedUsers s).

(** The sockets a closure emits [new_notification] to once its row is
    stored. *)
Definition notified (cb : db_callback) : list socket_id :=
  omap (λ o, match o with
             | Emit (ToRoom socketId) (new_notification _) => Some socketId
             | _ => None
             end)
       (outputs (run_callback cb (DbOk 0)) initial_state).

(** The notification requests among outputs: a pair [(userId, socketId)]
    for each row asked to be stored for [userId] whose closure then notifies
    [socketId]. *)
Definition requests (outs : list output) : list (jsval * socket_id) :=
  o ← outs;
  match o with
  | DbRun (NotificationsRow user_id _ _ _ _) cb => (λ sid, (user_id, sid)) <$> notified cb
  | _ => []
  end.

Definition request_of (e : socket_id * user_data) : jsval * socket_id :=
  (u_id e.2, e.1).

(** The rows asked to be stored for a user. *)
Definition rows_for (userId : jsval) (reqs : list (jsval * socket_id)) : nat :=
  length (filter (λ r, r.1 = userId) reqs).

(** One stored row per user and a live event on each of the user's
    connections, for an audience and the requests made for it. *)
Definition one_row_all_devices (aud : list (socket_id * user_data))
    (reqs : list (jsval * socket_id)) : Prop :=
  Forall (λ e, rows_for (u_id e.2) reqs = 1%nat ∧ request_of e ∈ reqs) aud.

Global Instance one_row_all_devices_dec aud reqs : Decision (one_row_all_devices aud reqs).
Proof. unfold one_row_all_devices. apply _. Defined.

(** The entries that are the first of their user, given the users already
    [seen]. *)
Fixpoint first_per_user (seen : gset jsval) (l : list (socket_id * user_data)) :
    list (socket_id * user_data) :=
  match l with
  | [] => []
  | e :: l' =>
      if decide (u_id e.2 ∈ seen) then first_per_user seen l'
      else e :: first_per_user ({[ u_id e.2 ]} ∪ seen) l'
  end.

(** A sender, and one user of the sender's cohort on two devices. *)
Definition s_two_devices : state :=
  run [ on_register_user (js "P") (UserData (VNum 1) (VStr (js "prof")) (VStr (js "representative")) (VStr (js "morning")));
        on_register_user (js "D1") (UserData (VNum 7) (VStr (js "dana")) (VStr (js "student")) (VStr (js "Morning")));
        on_register_user (js "D2") (UserData (VNum 7) (VStr (js "dana")) (VStr (js "student")) VUndefined) ]
      initial_state.

Definition alert : notification_request :=
  NotificationRequest (VNum 1) (VStr (js "prof")) (VStr (js "quiz at noon")).

(** [senderData?.studyType] *)
Definition sender_studyType (sid : socket_id) (s : state) : jsval :=
  match jm_get sid (connectedUsers s) with
  | Some d => u_studyType d
  | None => VUndefined
  end.

(** What one turn of a fan-out loop writes for the entry [e]: the request
    [mk e] when [e] is of cohort [c] and satisfies [P]. *)
Definition select (c : jsstring) (P : user_data → Prop) `{∀ u, Decision (P u)}
    (mk : socket_id * user_data → output) (e : socket_id * user_data) : list output :=
  if decide (cohort (u_studyType e.2) = Some c ∧ P e.2) then [mk e] else [].

Definition manual_request (data : notification_request) (e : socket_id * user_data) : output :=
  DbRun (NotificationsRow (u_id e.2) (manual_title (nr_professor_name data))
           (nr_message data) (nr_professor_id data) (nr_professor_name data))
        (manual_notification_saved e.1 (manual_title (nr_professor_name data))
           (nr_message data) (nr_professor_id data)).

Definition lecture_request (id : jsval) (title body : jsstring)
    (e : socket_id * user_data) : output :=
  DbRun (NotificationsRow (u_id e.2) title (VStr body) VNull VNull)
        (lecture_notification_saved e.1 title body id).

Definition pin_request (message : message_row) (body : jsstring)
    (e : socket_id * user_data) : output :=
  DbRun (NotificationsRow (u_id e.2) (pin_notificationTitle message)
           (VStr body) VNull VNull)
        (pin_notification_saved e.1 (pin_notificationTitle message)
           body (r_id message) (r_room message)).

(** One turn of the loop of the pin route, the users [seen] having been
    notified: what becomes of [notifiedUserIds], and what is written. *)
Definition pin_seen (c : jsstring) (seen : gset jsval) (e : socket_id * user_data) :
    gset jsval :=
  if decide (cohort (u_studyType e.2) = Some c ∧ u_id e.2 ∉ seen)
  then {[ u_id e.2 ]} ∪ seen else seen.

Definition pin_select (c : jsstring) (message : message_row) (body : jsstring)
    (seen : gset jsval) (e : socket_id * user_data) : list output :=
  if decide (cohort (u_studyType e.2) = Some c ∧ u_id e.2 ∉ seen)
  then [pin_request message body e] else [].

(** The user ids of a list of connections. *)
Definition user_ids (l : list (socket_id * user_data)) : list jsval :=
  (λ e, u_id e.2) <$> l.

(** What a loop with a local accumulator writes: turn by turn, [h] of the
    accumulator and the entry, the accumulator stepping by [g]. *)
Fixpoint fold_outputs {A E} (g : A → E → A) (h : A → E → list output)
    (a : A) (l : list E) : list output :=
  match l with
  | [] => []
  | e :: l' => h a e ++ fold_outputs g h (g a e) l'
  end.

(** ** Vocabulary of the further properties *)

(** A computation whose final state is always related by [R] to the state
    it started from. *)
Definition steps {A} (R : relation state) (m : M A) : Prop :=
  ∀ s, R s (final_state m s).

(** The states that agree on a projection. *)
Definition same {B} (proj : state → B) : relation state :=
  λ s s', proj s = proj s'.

(** The room names of the tracker only grow, at the end. *)
Definition rooms_grow : relation state :=
  λ s s', jm_keys (roomParticipants s) `prefix_of` jm_keys (roomParticipants s').

(** Every record of the window has a timer pending that is due 10 seconds
    after the time recorded. *)
Definition timers_cover (s : state) : Prop :=
  map_Forall (λ tempId lastSeen, (lastSeen + 10000, tempId) ∈ timers s)
             (recentMessages s).

(** The registry holds one entry per connection, each with a truthy study
    type. *)
Definition registry_wf (s : state) : Prop :=
  NoDup (jm_keys (connectedUsers s))
  ∧ Forall (λ e : socket_id * user_data, truthy (u_studyType e.2) = true)
           (connectedUsers s).

(** Every participant of a room is subscribed to the room. *)
Definition participants_subscribed (s : state) : Prop :=
  ∀ room sid, is_Some (participantsOf room s !! sid) →
              (sid, room) ∈ subscriptions s.

(** A send without a token: [tempId] is falsy. *)
Definition tokenless (i : input) : Prop :=
  match i with
  | on_send_message _ messageData => truthy (md_tempId messageData) = false
  | _ => False
  end.

Global Instance tokenless_dec i : Decision (tokenless i).
Proof. destruct i; simpl; apply _. Defined.

(** A history in which one connection registers twice and another
    registers and leaves. *)
Definition history_reregister : list input :=
  [ on_register_user (js "A") (UserData (VNum 1) (VStr (js "ann")) (VStr (js "student")) VUndefined);
    on_register_user (js "B") user_bob;
    on_register_user (js "A") (UserData (VNum 1) (VStr (js "ann")) (VStr (js "student")) (VStr (js "Evening")));
    on_disconnect (js "B") ].

Definition is_notification_row (o : output) : Prop :=
  match o with
  | DbRun (NotificationsRow _ _ _ _ _) _ => True
  | _ => False
  end.

(** A registry in which the third connection registered a number as its
    study type. *)
Definition s_malformed : state :=
  run [ on_register_user (js "P") (UserData (VNum 1) (VStr (js "prof")) (VStr (js "representative")) (VStr (js "morning")));
        on_register_user (js "X") (UserData (VNum 7) (VStr (js "dana")) (VStr (js "student")) VUndefined);
        on_register_user (js "B") (UserData (VNum 8) (VStr (js "bo")) (VStr (js "student")) (VNum 5));
        on_register_user (js "C") (UserData (VNum 9) (VStr (js "cy")) (VStr (js "student")) (VStr (js "morning"))) ]
      initial_state.

(** ** The HTTP routes that read the registry or emit to rooms

    A route is modelled as a function of what the database answers to the
    queries it makes, in the order it makes them; its outputs are the
    response, the queries, the files it unlinks and the events it emits.
    Response bodies are not modelled, only the status. *)

Record room_payload := RoomPayload {
  rp_id : Z;
  rp_name : jsval;
  rp_icon : jsval;
  rp_description : jsval;
  rp_created_by : jsval;
  rp_studyType : jsval
}.

(** A row of [stories], as [db.get] returns it. *)
Record story_row := StoryRow {
  st_id : jsval;
  st_title : jsval;
  st_content : jsval;
  st_type : jsval;
  st_studyType : jsval;
  st_created_by : jsval;
  st_professor_name : jsval
}.

(** A row of [messages], of which the delete routes read the room, the
    sender and the file path. *)
Record stored_message := StoredMessage {
  sto_room : jsstring;
  sto_sender_id : jsval;
  sto_file_path : jsval
}.

Inductive route_event :=
| room_created (room : room_payload)
| new_story (story : story_row)
| story_notification (notificationId : Z) (title : jsstring) (body storyId : jsval)
| message_deleted (id : jsstring)
| messages_bulk_deleted (ids : list jsstring).

Inductive route_query :=
| InsertRoom (name icon description created_by studyType : jsval)
| InsertStoryNotification (user_id : jsval) (title : jsstring)
    (body created_by professor_name : jsval) (socketId : socket_id)
| DeleteMessage (id : jsstring)
| SelectRooms (ids : list jsval) (sender : option jsval)
| DeleteMessages (ids : list jsval) (sender : option jsval).

Inductive route_output :=
| Respond (status : Z)
| RouteEmit (to : target) (e : route_event)
| RouteDb (q : route_query)
| Unlink (file_path : jsstring).

Global Instance room_payload_eq_dec : EqDecision room_payload.
Proof. solve_decision. Defined.
Global Instance story_row_eq_dec : EqDecision story_row.
Proof. solve_decision. Defined.
Global Instance route_event_eq_dec : EqDecision route_event.
Proof. solve_decision. Defined.
Global Instance route_query_eq_dec : EqDecision route_query.
Proof. solve_decision. Defined.
Global Instance route_output_eq_dec : EqDecision route_output.
Proof. solve_decision. Defined.

(** What [db.get] answers: an error, no row, or the row. *)
Inductive fetched (A : Type) :=
| FetchError
| FetchNone
| Fetched (row : A).
Global Arguments FetchError {A}.
Global Arguments FetchNone {A}.
Global Arguments Fetched {A} row.

(** [v.toLowerCase()], where it is a function. *)
Definition toLowerCase_opt (v : jsval) : option jsstring :=
  match v with
  | VStr s => Some (lower s)
  | _ => None
  end.

(** A [forEach] over the registry that pushes the socket ids passing [test]
    to [targetSockets]; [None] when [test] throws. *)
Fixpoint collect_sockets (test : user_data → option bool)
    (l : jsmap socket_id user_data) : option (list socket_id) :=
  match l with
  | [] => Some []
  | (socketId, userData) :: l' =>
      b ← test userData;
      rest ← collect_sockets test l';
      Some (if b : bool then socketId :: rest else rest)
  end.

(** *** [GET /api/students/active-count/:studyType] *)

Definition student_user (u : user_data) : Prop := u_role u = VStr (js "student").

Global Instance student_user_dec u : Decision (student_user u).
Proof. unfold student_user. apply _. Defined.

(** The pair [(activeCount, activeIds)] of the response. *)
Definition active_count_route (studyType : jsstring) (s : state) : nat * list jsval :=
  foldl (λ acc e,
           if bool_decide (student_user e.2)
              && (bool_decide (studyType = [])
                  || bool_decide (u_studyType e.2 = VStr studyType))
           then (S acc.1, acc.2 ++ [u_id e.2]) else acc)
        (0%nat, []) (connectedUsers s).

(** *** [POST /api/rooms] *)

Definition room_created_targets (studyType : jsval) (s : state) : option (list socket_id) :=
  roomStudyType ← toLowerCase_opt (js_or studyType (VStr (js "morning")));
  collect_sockets (λ userData,
    userStudy ← toLowerCase_opt (js_or (u_studyType userData) (VStr []));
    Some (bool_decide (userStudy = roomStudyType))) (connectedUsers s).

Definition post_rooms_route (name icon description created_by role studyType : jsval)
    (inserted : db_result) (s : state) : outcome unit * list route_output :=
  if bool_decide (role ≠ VStr (js "representative")) then (Done (), [Respond 403])
  else
    let icon' := js_or icon (VStr [55357; 56492]%N) in
    let studyType' := js_or studyType (VStr (js "morning")) in
    let insert := RouteDb (InsertRoom name icon' description created_by studyType') in
    match inserted with
    | DbError => (Done (), [insert; Respond 500])
    | DbOk lastID =>
        let room := RoomPayload lastID name icon' description created_by studyType' in
        match room_created_targets studyType s with
        | None => (Thrown, [insert; Respond 200])
        | Some targetSockets =>
            (Done (),
             [insert; Respond 200]
             ++ ((λ socketId, RouteEmit (ToRoom socketId) (room_created room))
                 <$> targetSockets))
        end
    end.

(** *** [POST /api/stories], once the story has been stored and read back *)

Definition story_targets (story : story_row) (s : state) : option (list socket_id) :=
  collect_sockets (λ userData,
    userStudy ← toLowerCase_opt (js_or (u_studyType userData) (VStr (js "morning")));
    storyStudy ← toLowerCase_opt (js_or (st_studyType story) (VStr (js "morning")));
    Some (bool_decide (userStudy = storyStudy))) (connectedUsers s).

Definition story_notificationTitle (story : story_row) : jsstring :=
  if bool_decide (st_type story = VStr (js "urgent")) then
    [9888; 65039; 32; 1602; 1589; 1577; 32; 1593; 1575; 1580; 1604; 1577]%N
  else if bool_decide (st_type story = VStr (js "announcement")) then
    [55357; 56546; 32; 1602; 1589; 1577; 58; 32; 1573; 1593; 1604; 1575; 1606;
     32; 1580; 1583; 1610; 1583]%N
  else if bool_decide (st_type story = VStr (js "event")) then
    [55357; 56517; 32; 1602; 1589; 1577; 58; 32; 1581; 1583; 1579; 32; 1580;
     1583; 1610; 1583]%N
  else [10024; 32; 1602; 1589; 1577; 32; 1580; 1583; 1610; 1583; 1577]%N.

Definition story_notificationBody (story : story_row) : jsval :=
  js_or (js_or (st_title story) (st_content story))
        (VStr [1602; 1589; 1577; 32; 1580; 1583; 1610; 1583; 1577; 32; 1605;
               1606; 32; 1575; 1604; 1605; 1605; 1579; 1604]%N).

Definition story_request (story : story_row) (e : socket_id * user_data) : route_output :=
  RouteDb (InsertStoryNotification (u_id e.2) (story_notificationTitle story)
             (story_notificationBody story) (st_created_by story)
             (st_professor_name story) e.1).

Definition story_created_route (story : story_row) (s : state) :
    outcome unit * list route_output :=
  match story_targets story s with
  | None => (Thrown, [])
  | Some targetSockets =>
      (Done (),
       ((λ socketId, RouteEmit (ToRoom socketId) (new_story story)) <$> targetSockets)
       ++ (socketId ← targetSockets;
           match jm_get socketId (connectedUsers s) with
           | Some userData => [story_request story (socketId, userData)]
           | None => []
           end)
       ++ [Respond 200])
  end.

(** The closure of a story notification's insert. *)
Definition story_notification_saved (story : story_row) (socketId : socket_id)
    (res : db_result) : list route_output :=
  match res with
  | DbOk notificationId =>
      [RouteEmit (ToRoom socketId)
         (story_notification notificationId (story_notificationTitle story)
            (story_notificationBody story) (st_id story))]
  | DbError => []
  end.

(** *** [DELETE /api/messages/:id] (the first of the two routes registered
    under that path, the one Express runs) *)

(** [if (file_path) fs.unlink(path.join(__dirname, file_path), ...)]:
    [path.join] throws on a truthy value that is no string ([None]). *)
Definition unlink_file (file_path : jsval) : option (list route_output) :=
  if truthy file_path then
    match file_path with
    | VStr p => Some [Unlink p]
    | _ => None
    end
  else Some [].

(** [found] is what [db.get] answers, [deleted] whether the [DELETE]
    succeeded. *)
Definition delete_message_route (id : jsstring) (user_id role : jsval)
    (found : fetched stored_message) (deleted : bool) :
    outcome unit * list route_output :=
  match found with
  | FetchError => (Done (), [Respond 500])
  | FetchNone => (Done (), [Respond 404])
  | Fetched message =>
      if bool_decide (role ≠ VStr (js "representative"))
         && bool_decide (sto_sender_id message ≠ user_id)
      then (Done (), [Respond 403])
      else
        match unlink_file (sto_file_path message) with
        | None => (Thrown, [])
        | Some unlinked =>
            (Done (),
             unlinked
             ++ [RouteDb (DeleteMessage id)]
             ++ (if deleted
                 then [RouteEmit (ToRoom (sto_room message)) (message_deleted id);
                       Respond 200]
                 else [Respond 500]))
        end
  end.

(** *** [POST /api/messages/bulk-delete] *)

(** [v.toString()]: [undefined] and [null] have no such method. *)
Definition toString_method (v : jsval) : option jsstring :=
  match v with
  | VUndefined | VNull => None
  | _ => Some (to_String v)
  end.

(** [[...new Set(l)]]: the values of [l] not among [seen], each once, in the
    order of their first occurrence. *)
Fixpoint set_values {A} `{EqDecision A} (seen l : list A) : list A :=
  match l with
  | [] => []
  | x :: l' =>
      if decide (x ∈ seen) then set_values seen l'
      else x :: set_values (x :: seen) l'
  end.

(** [deleteFiles(rows)]: the files unlinked, up to the first row whose
    path makes [path.join] throw. *)
Fixpoint deleteFiles (rows : list (jsstring * jsval)) : outcome unit * list route_output :=
  match rows with
  | [] => (Done (), [])
  | row :: rest =>
      match unlink_file row.2 with
      | None => (Thrown, [])
      | Some unlinked =>
          let '(o, outs) := deleteFiles rest in (o, unlinked ++ outs)
      end
  end.

(** [messageIds] is [None] when the body's field is no array; [selected] is
    what [db.all] answers ([None] for an error), rows of room and file path;
    [deleted] tells whether the [DELETE] succeeded. The two branches of the
    route differ in the sender the queries are restricted to. *)
Definition bulk_delete_route (messageIds : option (list jsval)) (role user_id : jsval)
    (selected : option (list (jsstring * jsval))) (deleted : bool) :
    outcome unit * list route_output :=
  match messageIds with
  | None | Some [] => (Done (), [Respond 400])
  | Some ids =>
      let sender :=
        if bool_decide (role = VStr (js "representative")) then None else Some user_id in
      match selected with
      | None => (Done (), [RouteDb (SelectRooms ids sender); Respond 500])
      | Some rows =>
          match deleteFiles rows with
          | (Thrown, unlinked) => (Thrown, RouteDb (SelectRooms ids sender) :: unlinked)
          | (Done _, unlinked) =>
              let asked :=
                [RouteDb (SelectRooms ids sender)] ++ unlinked
                ++ [RouteDb (DeleteMessages ids sender)] in
              if deleted then
                match set_values [] rows.*1 with
                | [] => (Done (), asked ++ [Respond 200])
                | rooms =>
                    match mapM toString_method ids with
                    | None => (Thrown, asked)
                    | Some strings =>
                        (Done (),
                         asked
                         ++ ((λ room, RouteEmit (ToRoom room) (messages_bulk_deleted strings))
                             <$> rooms)
                         ++ [Respond 200])
                    end
                end
              else (Done (), asked ++ [Respond 500])
          end
      end
  end.

(** *** [PUT /api/lectures/:id]: what changed

    [parseInt] and [Number] are the built-ins, on strings: the integer they
    read, or [None] for [NaN]; a [Number] with a fraction is outside the
    model. A number is accordingly an [option Z], [None] being [NaN]. *)

(** [s.split(':')] for the separator [sep] *)
Fixpoint split_on (sep : N) (s : jsstring) : list jsstring :=
  match s with
  | [] => [[]]
  | c :: s' =>
      if decide (c = sep) then [] :: split_on sep s'
      else match split_on sep s' with
           | part :: parts => (c :: part) :: parts
           | [] => [[c]]
           end
  end.

(** A number in a template literal. *)
Definition print_number (n : option Z) : jsstring :=
  match n with
  | Some z => to_String (VNum z)
  | None => js "NaN"
  end.

(** [hour % 12 || 12] and [hour >= 12 ? 'م' : 'ص'] *)
Definition hour12 (hour : option Z) : Z :=
  match hour with
  | Some h => if Z.rem h 12 =? 0 then 12 else Z.rem h 12
  | None => 12
  end.

Definition ampm (hour : option Z) : jsstring :=
  match hour with
  | Some h => if 12 <=? h then [1605]%N else [1589]%N
  | None => [1589]%N
  end.

(** [Math.floor(durationMinutes / 60)], [durationMinutes % 60] and the text
    made of them. *)
Definition durationText (durationMinutes : option Z) : jsstring :=
  let minute_word := [32; 1583; 1602; 1610; 1602; 1577]%N in
  match durationMinutes with
  | None => js "NaN" ++ minute_word
  | Some d =>
      let hours := d `div` 60 in
      let minutes := Z.rem d 60 in
      if (0 <? hours) && (0 <? minutes) then
        if hours =? 1
        then [1587; 1575; 1593; 1577; 32; 1608; 32]%N
             ++ to_String (VNum minutes) ++ minute_word
        else to_String (VNum hours)
             ++ [32; 1587; 1575; 1593; 1575; 1578; 32; 1608; 32]%N
             ++ to_String (VNum minutes) ++ minute_word
      else if 0 <? hours then
        if hours =? 1
        then [1587; 1575; 1593; 1577; 32; 1608; 1575; 1581; 1583; 1577]%N
        else to_String (VNum hours) ++ [32; 1587; 1575; 1593; 1575; 1578]%N
      else to_String (VNum minutes) ++ minute_word
  end.

(** The columns of the stored lecture that the route compares. *)
Record lecture_times := LectureTimes {
  l_date : jsval;
  l_time_start : jsval;
  l_time_end : jsval;
  l_location : jsval
}.

Section LectureChanges.
Variable parseInt : jsstring → option Z.
Variable Number_ : jsstring → option Z.

(** [convertTo12Hour]; [None] when [time24] is truthy and has no [split]. *)
Definition convertTo12Hour (time24 : jsval) : option jsval :=
  if negb (truthy time24) then Some time24
  else match time24 with
       | VStr s =>
           let timeParts := split_on 58 s in
           let hours := default [] (timeParts !! 0%nat) in
           let minutes :=
             match timeParts !! 1%nat with Some m => VStr m | None => VUndefined end in
           let hour := parseInt hours in
           Some (VStr (to_String (VNum (hour12 hour)) ++ js ":" ++ to_String minutes
                       ++ js " " ++ ampm hour))
       | _ => None
       end.

(** [const [h, m] = time.split(':').map(Number)], then [h * 60 + m]; the
    outer [None] when [time] has no [split]. *)
Definition minutes_of_day (time : jsval) : option (option Z) :=
  match time with
  | VStr s =>
      let parts := Number_ <$> split_on 58 s in
      Some (h ← default None (parts !! 0%nat);
            m ← default None (parts !! 1%nat);
            Some (h * 60 + m))
  | _ => None
  end.

(** The [changes] the route collects; [None] when it throws. *)
Definition lecture_changes (old : lecture_times) (date time_start time_end room_name : jsval) :
    option (list jsstring) :=
  let date_change :=
    if bool_decide (l_date old ≠ date) then
      [ [55357; 56517; 32; 1575; 1604; 1578; 1575; 1585; 1610; 1582; 32; 1578;
         1594; 1610; 1585; 32; 1605; 1606; 32]%N
        ++ to_String (l_date old) ++ [32; 1573; 1604; 1609; 32]%N ++ to_String date ]
    else [] in
  time_change ←
    (if bool_decide (l_time_start old ≠ time_start)
        || bool_decide (l_time_end old ≠ time_end) then
       newStart ← convertTo12Hour time_start;
       _ ← convertTo12Hour time_end;
       start ← minutes_of_day time_start;
       end_ ← minutes_of_day time_end;
       let durationMinutes := e ← end_; b ← start; Some (e - b) in
       Some [ [9200; 32; 1608; 1602; 1578; 32; 1575; 1604; 1605; 1581; 1575; 1590;
               1585; 1577; 32; 1578; 1594; 1610; 1585; 32; 1608; 1571; 1589; 1576;
               1581; 58; 32]%N ++ to_String newStart;
              [9201; 65039; 32; 1605; 1583; 1577; 32; 1575; 1604; 1605; 1581; 1575;
               1590; 1585; 1577; 58; 32]%N ++ durationText durationMinutes ]
     else Some []);
  let location_change :=
    if bool_decide (l_location old ≠ room_name) then
      [ [55357; 56525; 32; 1605; 1603; 1575; 1606; 32; 1575; 1604; 1602; 1575;
         1593; 1577; 32; 1578; 1594; 1610; 1585; 32; 1605; 1606; 32]%N
        ++ to_String (js_or (l_location old)
                            (VStr [1594; 1610; 1585; 32; 1605; 1581; 1583; 1583]%N))
        ++ [32; 1573; 1604; 1609; 32]%N ++ to_String room_name ]
    else [] in
  Some (date_change ++ time_change ++ location_change).

(** [changes.map(change => `• ${change}`).join('\n\n')] *)
Fixpoint join_bullets (changes : list jsstring) : jsstring :=
  match changes with
  | [] => []
  | [change] => [8226; 32]%N ++ change
  | change :: rest => [8226; 32]%N ++ change ++ [10; 10]%N ++ join_bullets rest
  end.

(** The route from the change detection on: nothing when nothing changed,
    else the notification burst. *)
Definition lecture_route_notify (id : jsval) (old : lecture_times)
    (lecture_studyType created_by title date time_start time_end room_name : jsval) :
    M unit :=
  changes ← from_option (lecture_changes old date time_start time_end room_name);
  if bool_decide (changes = []) then mret ()
  else
    lecture_update_notify id lecture_studyType created_by
      ([55357; 56546; 32; 1578; 1581; 1583; 1610; 1579; 58; 32]%N ++ to_String title)
      (join_bullets changes).
End LectureChanges.

(** A reading of decimal digits, for examples: on a non-empty string of
    ASCII digits, where [parseInt] and [Number] agree, their value; [None]
    for anything else. It stands for the two built-ins only on such
    strings. *)
Definition digits_value (s : jsstring) : option Z :=
  if bool_decide (s = []) then None
  else foldl (λ acc c, a ← acc;
                        if bool_decide (48 ≤ c ≤ 57)%N
                        then Some (a * 10 + Z.of_N (c - 48)) else None)
             (Some 0) s.

(** ** Vocabulary of the route properties *)

Definition is_respond (o : route_output) : Prop :=
  match o with Respond _ => True | _ => False end.

Global Instance is_respond_dec o : Decision (is_respond o).
Proof. destruct o; simpl; apply _. Defined.

(** The number of responses among outputs. *)
Definition responses (outs : list route_output) : nat := length (filter is_respond outs).

Definition is_bulk_event_to (room : jsstring) (o : route_output) : Prop :=
  match o with
  | RouteEmit (ToRoom r) (messages_bulk_deleted _) => r = room
  | _ => False
  end.

Global Instance is_bulk_event_to_dec room o : Decision (is_bulk_event_to room o).
Proof. destruct o as [|[r|] []| |]; simpl; apply _. Defined.

(** The connections the active-count route counts. *)
Definition counted (studyType : jsstring) (e : socket_id * user_data) : Prop :=
  student_user e.2 ∧ (studyType = [] ∨ u_studyType e.2 = VStr studyType).

Global Instance counted_dec studyType e : Decision (counted studyType e).
Proof. unfold counted. apply _. Defined.

Definition story_example : story_row :=
  StoryRow (VNum 12) (VStr (js "Exam moved")) (VStr (js "see board")) (VStr (js "urgent"))
           (VStr (js "MORNING")) (VNum 7) (VStr (js "dana")).

(** * Properties *)

(** ** Running the monad *)

Ltac unfold_M :=
  unfold final_state, outputs, throws, emit, db_run, from_option,
    setTimeout_delete, mbind, M_bind, mret, M_ret, get_state, modify, tell,
    throw in *.

Lemma bind_run {A B} (m : M A) (f : A → M B) (s : state) :
  (m ≫= f) s =
  match m s with
  | (Done a, s', o) => let '(r, s'', o') := f a s' in (r, s'', o ++ o')
  | (Thrown, s', o) => (Thrown, s', o)
  end.
Proof. unfold mbind, M_bind. destruct (m s) as [[[a|] s'] o]; reflexivity. Qed.

Lemma bind_modify {B} (f : state → state) (k : unit → M B) (s : state) :
  (modify f ≫= k) s = k () (f s).
Proof. rewrite bind_run. unfold modify. by destruct (k () (f s)) as [[r s''] o']. Qed.

Lemma bind_get_state {B} (k : state → M B) (s : state) :
  (get_state ≫= k) s = k s s.
Proof. rewrite bind_run. unfold get_state. by destruct (k s s) as [[r s''] o']. Qed.

Lemma bind_ret {A B} (a : A) (k : A → M B) (s : state) :
  (mret a ≫= k) s = k a s.
Proof.
  rewrite bind_run. unfold mret, M_ret. by destruct (k a s) as [[r s''] o'].
Qed.

Lemma bind_throw {A B} (k : A → M B) (s : state) :
  (throw ≫= k) s = (Thrown, s, []).
Proof. by rewrite bind_run. Qed.

Lemma bind_tell {B} (o : output) (k : unit → M B) (s : state) :
  (tell o ≫= k) s = let '(r, s', o') := k () s in (r, s', o :: o').
Proof. rewrite bind_run. unfold tell. by destruct (k () s) as [[r s''] o']. Qed.

(** ** Insertion-ordered maps *)

Section JsMapFacts.
Context {K V : Type} `{EqDecision K}.
Implicit Types (m : jsmap K V) (k : K) (v : V).

Lemma jm_get_set_eq m k v : jm_get k (jm_set k v m) = Some v.
Proof.
  induction m as [|[k' v'] m IH]; simpl.
  - by rewrite decide_True.
  - destruct (decide (k = k')) as [->|Hne]; simpl.
    + by rewrite decide_True.
    + by rewrite decide_False.
Qed.

Lemma jm_get_set_ne m k k' v : k ≠ k' → jm_get k' (jm_set k v m) = jm_get k' m.
Proof.
  intros Hne. induction m as [|[k0 v0] m IH]; simpl.
  - rewrite decide_False; [done | congruence].
  - destruct (decide (k = k0)) as [->|Hk]; simpl.
    + rewrite !decide_False; [done | congruence | congruence].
    + by rewrite IH.
Qed.

Lemma jm_set_set m k v v' : jm_set k v' (jm_set k v m) = jm_set k v' m.
Proof.
  induction m as [|[k0 v0] m IH]; simpl.
  - by rewrite decide_True.
  - destruct (decide (k = k0)) as [->|Hk]; simpl.
    + by rewrite decide_True.
    + rewrite decide_False; [by rewrite IH | done].
Qed.

Lemma jm_has_set m k v : jm_has k (jm_set k v m) = true.
Proof. unfold jm_has. by rewrite jm_get_set_eq. Qed.

Lemma jm_keys_set_present m k v :
  is_Some (jm_get k m) → jm_keys (jm_set k v m) = jm_keys m.
Proof.
  unfold jm_keys. induction m as [|[k0 v0] m IH]; csimpl.
  - by intros [? ?].
  - destruct (decide (k = k0)) as [->|Hk]; csimpl; [done|].
    intros Hs. by rewrite IH.
Qed.

Lemma jm_keys_set_absent m k v :
  jm_get k m = None → jm_keys (jm_set k v m) = jm_keys m ++ [k].
Proof.
  unfold jm_keys. induction m as [|[k0 v0] m IH]; csimpl; [done|].
  destruct (decide (k = k0)) as [->|Hk]; csimpl; [done|].
  intros Hs. by rewrite IH.
Qed.

Lemma jm_get_None_keys m k : jm_get k m = None ↔ k ∉ jm_keys m.
Proof.
  unfold jm_keys. induction m as [|[k0 v0] m IH]; csimpl.
  - split; [intros _; apply not_elem_of_nil | done].
  - rewrite not_elem_of_cons. destruct (decide (k = k0)) as [->|Hk].
    + split; [done | intros [? _]; done].
    + rewrite IH. tauto.
Qed.

Lemma jm_get_delete_eq m k : jm_get k (jm_delete k m) = None.
Proof.
  induction m as [|[k0 v0] m IH]; simpl; [done|].
  destruct (decide (k = k0)) as [->|Hk]; simpl; [done|].
  by rewrite decide_False.
Qed.

Lemma jm_get_delete_ne m k k' : k ≠ k' → jm_get k' (jm_delete k m) = jm_get k' m.
Proof.
  intros Hne. induction m as [|[k0 v0] m IH]; simpl; [done|].
  destruct (decide (k = k0)) as [->|Hk]; simpl.
  - rewrite decide_False; [done | congruence].
  - by rewrite IH.
Qed.

Lemma jm_get_Some_elem m k v : jm_get k m = Some v → (k, v) ∈ m.
Proof.
  induction m as [|[k0 v0] m IH]; simpl; [done|].
  destruct (decide (k = k0)) as [->|Hk].
  - intros [= ->]. left.
  - intros Hg. right. by apply IH.
Qed.

Lemma jm_elem_get m k v : NoDup (jm_keys m) → (k, v) ∈ m → jm_get k m = Some v.
Proof.
  unfold jm_keys. induction m as [|[k0 v0] m IH]; csimpl.
  - intros _ Hin. by apply elem_of_nil in Hin.
  - rewrite NoDup_cons. intros [Hnot Hnd] Hin.
    apply elem_of_cons in Hin as [[= -> ->]|Hin].
    + by rewrite decide_True.
    + rewrite decide_False; [by apply IH|].
      intros ->. apply Hnot. apply list_elem_of_fmap. by exists (k0, v).
Qed.

Lemma jm_keys_NoDup_set m k v : NoDup (jm_keys m) → NoDup (jm_keys (jm_set k v m)).
Proof.
  intros Hnd. destruct (jm_get k m) as [v0|] eqn:Hg.
  - rewrite jm_keys_set_present; eauto.
  - rewrite jm_keys_set_absent by done.
    apply NoDup_app. split_and!; [done | | apply NoDup_singleton].
    intros x Hx ->%list_elem_of_singleton. by apply jm_get_None_keys in Hg.
Qed.
End JsMapFacts.

(** ** The de-duplication window *)

Lemma send_message_duplicate s now messageData lastSeen :
  truthy (md_tempId messageData) = true →
  recentMessages s !! md_tempId messageData = Some lastSeen →
  now - lastSeen < 5000 →
  rejected now messageData s.
Proof.
  intros Ht Hl Hlt. unfold rejected, send_message. unfold_M.
  rewrite Ht, Hl. simpl. by rewrite bool_decide_eq_true_2.
Qed.

Lemma send_message_fresh s now messageData :
  truthy (md_tempId messageData) = true →
  match recentMessages s !! md_tempId messageData with
  | Some lastSeen => 5000 ≤ now - lastSeen
  | None => True
  end →
  accepted now messageData s ∧
  final_state (send_message now messageData) s =
    set_timers (λ ts, ts ++ [(now + 10000, md_tempId messageData)])
      (set_recentMessages (<[md_tempId messageData := now]>) s).
Proof.
  intros Ht Hl. unfold accepted, send_message. unfold_M. rewrite Ht.
  destruct (recentMessages s !! md_tempId messageData) as [lastSeen|]; simpl.
  - rewrite bool_decide_eq_false_2 by lia. simpl. eauto.
  - eauto.
Qed.

Lemma send_message_no_token s now messageData :
  truthy (md_tempId messageData) = false →
  accepted now messageData s ∧ final_state (send_message now messageData) s = s.
Proof.
  intros Ht. unfold accepted, send_message. unfold_M. rewrite Ht. simpl.
  split; [eauto | by destruct s].
Qed.

Lemma send_message_cases s now messageData :
  rejected now messageData s ∨ accepted now messageData s.
Proof.
  destruct (truthy (md_tempId messageData)) eqn:Ht.
  - destruct (recentMessages s !! md_tempId messageData) as [lastSeen|] eqn:Hl.
    + destruct (decide (now - lastSeen < 5000)).
      * left. by eapply send_message_duplicate.
      * right. apply send_message_fresh; [done|]. rewrite Hl. lia.
    + right. apply send_message_fresh; [done|]. by rewrite Hl.
  - right. by apply send_message_no_token.
Qed.

Lemma accepted_records_token s now messageData :
  truthy (md_tempId messageData) = true →
  accepted now messageData s →
  recentMessages (final_state (send_message now messageData) s)
    !! md_tempId messageData = Some now.
Proof.
  intros Ht [row Hacc].
  destruct (recentMessages s !! md_tempId messageData) as [lastSeen|] eqn:Hl.
  - destruct (decide (now - lastSeen < 5000)) as [Hlt|Hge].
    + pose proof (send_message_duplicate _ _ _ _ Ht Hl Hlt) as Hrej.
      unfold rejected in Hrej. unfold outputs in Hacc. by rewrite Hrej in Hacc.
    + destruct (send_message_fresh s now messageData Ht) as [_ ->].
      { rewrite Hl. lia. }
      simpl. apply lookup_insert_eq.
  - destruct (send_message_fresh s now messageData Ht) as [_ ->].
    { by rewrite Hl. }
    simpl. apply lookup_insert_eq.
Qed.

(** C1. A send carrying a token that was accepted at [t0] records [t0] under
    the token (the check is a check-and-set), and as long as that record is
    in the window, a send with the same token less than 5 seconds after [t0]
    is rejected: the handler returns with the state as it was and with no
    output, so no row is persisted, no closure is registered with the
    database, and neither [receive_message] nor [dashboard_update] is
    emitted. *)
Theorem duplicate_send_rejected (s : state) (t0 : Z) (md0 : message_data) :
  truthy (md_tempId md0) = true →
  accepted t0 md0 s →
  recentMessages (final_state (send_message t0 md0) s) !! md_tempId md0 = Some t0
  ∧ ∀ (s1 : state) (t1 : Z) (md1 : message_data),
      md_tempId md1 = md_tempId md0 →
      recentMessages s1 !! md_tempId md0 = Some t0 →
      t1 - t0 < 5000 →
      send_message t1 md1 s1 = (Done (), s1, [])
      ∧ (∀ o, o ∈ outputs (send_message t1 md1) s1 → ¬ is_db_run o ∧ ¬ is_emit o).
Proof.
  intros Ht Hacc. split; [by apply accepted_records_token|].
  intros s1 t1 md1 Htok Hrec Hlt.
  assert (rejected t1 md1 s1) as Hrej.
  { eapply send_message_duplicate; rewrite ?Htok; eauto. }
  split; [exact Hrej|].
  intros o. unfold outputs. rewrite Hrej. simpl. by intros ?%elem_of_nil.
Qed.

(** ** Persist, then broadcast *)

Section Writes.
Context (Q : output → Prop).

Lemma writes_ret {A} (a : A) : writes Q (mret a).
Proof. intros s. constructor. Qed.

Lemma writes_throw {A} : writes Q (@throw A).
Proof. intros s. constructor. Qed.

Lemma writes_get_state : writes Q get_state.
Proof. intros s. constructor. Qed.

Lemma writes_modify f : writes Q (modify f).
Proof. intros s. constructor. Qed.

Lemma writes_tell o : Q o → writes Q (tell o).
Proof. intros Ho s. by repeat constructor. Qed.

Lemma writes_bind {A B} (m : M A) (f : A → M B) :
  writes Q m → (∀ a, writes Q (f a)) → writes Q (m ≫= f).
Proof.
  intros Hm Hf s. specialize (Hm s). unfold outputs in *.
  rewrite bind_run. destruct (m s) as [[[a|] s'] o]; simpl in *; [|done].
  specialize (Hf a s'). unfold outputs in Hf.
  destruct (f a s') as [[r s''] o']; simpl in *. by apply Forall_app.
Qed.

Lemma writes_foldM {A K V} (f : A → V → K → M A) (a : A) (m : jsmap K V) :
  (∀ a v k, writes Q (f a v k)) → writes Q (foldM f a m).
Proof.
  intros Hf. revert a. induction m as [|[k v] m IH]; intros a; simpl.
  - apply writes_ret.
  - apply writes_bind; [apply Hf | intros a'; apply IH].
Qed.

Lemma writes_from_option {A} (o : option A) : writes Q (from_option o).
Proof. destruct o; [apply writes_ret | apply writes_throw]. Qed.
End Writes.

Ltac writes_step :=
  first
    [ apply writes_ret | apply writes_throw | apply writes_get_state
    | apply writes_from_option | apply writes_modify
    | apply writes_tell; simpl; tauto
    | apply writes_foldM; intros
    | apply writes_bind; [|intros]
    | match goal with
      | |- writes _ (if ?b then _ else _) => destruct b
      | |- writes _ (match ?x with _ => _ end) => destruct x
      end ].

Ltac solve_writes := repeat writes_step.

(** Of all that drives the server, only the closure of a send's [INSERT],
    called back with the generated id, broadcasts a chat message. *)
Lemma handle_broadcasts (i : input) :
  match i with
  | on_db_done (send_message_saved _ _) (DbOk _) => True
  | _ => writes (λ o, ¬ is_chat_broadcast o) (handle i)
  end.
Proof.
  destruct i as [| | | sid roomId | | | | cb res | |]; simpl.
  - unfold register_user. solve_writes.
  - unfold disconnect, forEach, emitActiveStudentCount, emit. solve_writes.
  - unfold join_room, emitActiveStudentCount, emit. solve_writes.
  - unfold leave_room, emitActiveStudentCount, emit. solve_writes.
  - unfold send_message, setTimeout_delete, db_run. solve_writes.
  - unfold send_notification, normalized_studyType, toLowerCase, forEach, db_run.
    solve_writes.
  - unfold run_timers. solve_writes.
  - destruct cb, res; try exact I; unfold run_callback, emit; solve_writes.
  - unfold pin_updated, pin_notify, normalized_studyType, toLowerCase, db_run, emit.
    solve_writes.
  - unfold lecture_update_notify, normalized_studyType, toLowerCase, forEach, db_run.
    solve_writes.
Qed.

Lemma send_message_run s now messageData :
  (duplicate now messageData s → send_message now messageData s = (Done (), s, []))
  ∧ (¬ duplicate now messageData s →
     (send_message now messageData s).1.1 = Done ()
     ∧ outputs (send_message now messageData) s
       = [DbRun (inserted_row messageData)
                (send_message_saved (to_String (md_room messageData)) messageData)]).
Proof.
  unfold duplicate, send_message, inserted_row. unfold_M.
  destruct (truthy (md_tempId messageData)) eqn:Ht; simpl.
  - destruct (recentMessages s !! md_tempId messageData) as [lastSeen|] eqn:Hl; simpl.
    + destruct (decide (now - lastSeen < 5000)) as [Hlt|Hge].
      * rewrite bool_decide_eq_true_2 by done. split; [done|].
        intros Hn. destruct Hn. eauto.
      * rewrite bool_decide_eq_false_2 by done. simpl. split; [|done].
        intros (_ & lastSeen' & [= <-] & Hlt). done.
    + split; [|done]. by intros (_ & lastSeen' & [=] & _).
  - split; [|done]. by intros ([=] & _).
Qed.

(** C5. A send is persisted exactly when the window does not reject it: the
    handler of a rejected send does nothing, and the handler of any other
    send returns having written one thing only, the request to insert the
    row of this message (its room as a string, sender id, sender name,
    content, type or "text", file path), and nothing to any socket. Nothing
    is broadcast before the database has answered: when it reports an error
    the closure of the insert emits nothing, when it reports the generated
    id the closure emits [receive_message] to the room and
    [dashboard_update] to everyone, both with the message of this send
    under that id and with the [tempId] the client sent; and nothing else
    that drives the server ever broadcasts a chat message. *)
Theorem persist_before_broadcast (s : state) (now : Z) (messageData : message_data) :
  let room := to_String (md_room messageData) in
  let cb := send_message_saved room messageData in
  (duplicate now messageData s → send_message now messageData s = (Done (), s, []))
  ∧ (¬ duplicate now messageData s →
     (send_message now messageData s).1.1 = Done ()
     ∧ outputs (send_message now messageData) s
       = [DbRun (MessagesRow room (md_sender_id messageData)
                   (md_sender_name messageData) (md_content messageData)
                   (js_or (md_type messageData) (VStr (js "text")))
                   (md_file_path messageData)) cb])
  ∧ (∀ s', run_callback cb DbError s' = (Done (), s', []))
  ∧ (∀ s' messageId,
       let m := messageToSend messageId messageData in
       run_callback cb (DbOk messageId) s'
       = (Done (), s',
          [Emit (ToRoom room) (receive_message (Chat m));
           Emit ToAll (dashboard_update room (Chat m))])
       ∧ m_id m = messageId ∧ m_tempId m = md_tempId messageData
       ∧ m_sender_id m = md_sender_id messageData
       ∧ m_sender_name m = md_sender_name messageData
       ∧ m_content m = md_content messageData
       ∧ m_file_path m = md_file_path messageData)
  ∧ (∀ i s0 o, o ∈ outputs (handle i) s0 → is_chat_broadcast o →
       ∃ room' messageData' messageId,
         i = on_db_done (send_message_saved room' messageData') (DbOk messageId)
         ∧ (o = Emit (ToRoom room')
                  (receive_message (Chat (messageToSend messageId messageData')))
            ∨ o = Emit ToAll
                    (dashboard_update room'
                       (Chat (messageToSend messageId messageData'))))).
Proof.
  intros room cb. split_and!.
  - apply send_message_run.
  - apply send_message_run.
  - done.
  - done.
  - intros i s0 o Hin Hb. pose proof (handle_broadcasts i) as Hw.
    assert (∀ Hq : writes (λ o, ¬ is_chat_broadcast o) (handle i), False) as Habs.
    { intros Hq. by apply (proj1 (Forall_forall _ _) (Hq s0) o Hin). }
    destruct i as [| | | | | | | cb' res | |]; try (by destruct (Habs Hw)).
    destruct cb' as [room' messageData'| | | |], res as [|lastID];
      try (by destruct (Habs Hw)).
    exists room', messageData', lastID. split; [done|].
    simpl in Hin. unfold outputs, run_callback in Hin. unfold_M. simpl in Hin.
    apply elem_of_cons in Hin as [->|Hin]; [by left|].
    apply list_elem_of_singleton in Hin as ->. by right.
Qed.

(** ** Joining a room *)

Lemma join_room_throw sid data s :
  join_identifier data = None → join_room sid data s = (Thrown, s, []).
Proof. intros Hid. unfold join_room. unfold_M. by rewrite Hid. Qed.

Lemma join_room_invalid sid data v s :
  join_identifier data = Some v → invalid_roomId (to_String v) = true →
  join_room sid data s = (Done (), s, []).
Proof. intros Hid Hinv. unfold join_room. unfold_M. by rewrite Hid, Hinv. Qed.

Lemma join_room_anonymous sid data v s :
  join_identifier data = Some v → invalid_roomId (to_String v) = false →
  full_identity data = false →
  join_room sid data s =
    (Done (), set_subscriptions (λ subs, {[ (sid, to_String v) ]} ∪ subs) s, []).
Proof.
  intros Hid Hinv Hfull. unfold join_room. unfold_M. rewrite Hid, Hinv.
  unfold full_identity in Hfull. by rewrite Hfull.
Qed.

Lemma join_room_full sid data v s :
  join_identifier data = Some v → invalid_roomId (to_String v) = false →
  full_identity data = true →
  let roomId := to_String v in
  let participants := <[sid := join_participant data]> (participantsOf roomId s) in
  join_room sid data s =
    (Done (),
     set_roomParticipants (jm_set roomId participants)
       (set_subscriptions (λ subs, {[ (sid, roomId) ]} ∪ subs) s),
     [Emit (ToRoom roomId) (active_student_count roomId (studentCount participants))]).
Proof.
  intros Hid Hinv Hfull roomId participants.
  unfold join_room, emitActiveStudentCount. unfold_M. rewrite Hid, Hinv.
  unfold full_identity in Hfull. rewrite Hfull.
  subst participants. unfold participantsOf, jm_has. fold roomId.
  destruct s as [cu rp rm ts subs]. simpl.
  destruct (jm_get roomId rp) as [ps|] eqn:Hg; simpl.
  - rewrite Hg. simpl. rewrite jm_get_set_eq. done.
  - rewrite jm_get_set_eq. simpl. rewrite jm_get_set_eq.
    unfold set_roomParticipants, set_subscriptions. simpl.
    by rewrite jm_set_set.
Qed.

Lemma missing_identifier_invalid data v :
  missing_identifier data → join_identifier data = Some v →
  invalid_roomId (to_String v) = true.
Proof.
  unfold missing_identifier. intros Hm Hid. rewrite Hid in Hm.
  destruct Hm as [->|[->|[->| ->]]]; reflexivity.
Qed.

(** C7. The identifier of a join is the payload itself when it is a string
    or a number, and [roomId || room] of an object payload. A join whose
    identifier is missing, "undefined" or "null" leaves the whole state as it
    was (no entry in the room tracker, no subscription) and emits nothing.
    A join that is let through uses [String(identifier)] and nothing else as
    the room: the subscription is stored under it, it is the only key of the
    tracker that can change, the participant is stored under it, and every
    event goes to it. *)
Theorem join_room_identifier (sid : socket_id) (data : join_data) (s : state) :
  (missing_identifier data →
     final_state (join_room sid data) s = s ∧ outputs (join_room sid data) s = [])
  ∧ (∀ v, join_identifier data = Some v → invalid_roomId (to_String v) = false →
       let s' := final_state (join_room sid data) s in
       subscriptions s' = {[ (sid, to_String v) ]} ∪ subscriptions s
       ∧ (∀ room, room ≠ to_String v →
            jm_get room (roomParticipants s') = jm_get room (roomParticipants s))
       ∧ (∀ to e, Emit to e ∈ outputs (join_room sid data) s →
            to = ToRoom (to_String v)
            ∧ ∃ count, e = active_student_count (to_String v) count)
       ∧ (full_identity data = true →
            participantsOf (to_String v) s' !! sid = Some (join_participant data))).
Proof.
  split.
  - intros Hm. destruct (join_identifier data) as [v|] eqn:Hid.
    + pose proof (missing_identifier_invalid _ _ Hm Hid) as Hinv.
      unfold final_state, outputs. by rewrite (join_room_invalid _ _ _ _ Hid Hinv).
    + unfold final_state, outputs. by rewrite (join_room_throw _ _ _ Hid).
  - intros v Hid Hinv s'. subst s'. unfold final_state, outputs.
    destruct (full_identity data) eqn:Hfull.
    + rewrite (join_room_full _ _ _ _ Hid Hinv Hfull). simpl. split_and!.
      * done.
      * intros room Hne. by rewrite jm_get_set_ne.
      * intros to e [= -> ->]%list_elem_of_singleton. eauto.
      * intros _. unfold participantsOf at 1. simpl.
        rewrite jm_get_set_eq. simpl. apply lookup_insert_eq.
    + rewrite (join_room_anonymous _ _ _ _ Hid Hinv Hfull). simpl. split_and!.
      * done.
      * done.
      * by intros to e ?%elem_of_nil.
      * done.
Qed.

Lemma participantsOf_join_full sid data v s room :
  join_identifier data = Some v → invalid_roomId (to_String v) = false →
  full_identity data = true →
  participantsOf room (final_state (join_room sid data) s) =
    if decide (room = to_String v)
    then <[sid := join_participant data]> (participantsOf (to_String v) s)
    else participantsOf room s.
Proof.
  intros Hid Hinv Hfull. unfold final_state.
  rewrite (join_room_full _ _ _ _ Hid Hinv Hfull). simpl.
  unfold participantsOf at 1. simpl. case_decide as Hroom.
  - subst room. by rewrite jm_get_set_eq.
  - by rewrite jm_get_set_ne.
Qed.

Lemma join_room_twice sid data s :
  join_room sid data (final_state (join_room sid data) s)
  = (match join_identifier data with Some _ => Done () | None => Thrown end,
     final_state (join_room sid data) s,
     outputs (join_room sid data) s).
Proof.
  destruct (join_identifier data) as [v|] eqn:Hid.
  - destruct (invalid_roomId (to_String v)) eqn:Hinv.
    + unfold final_state, outputs.
      by rewrite !(join_room_invalid _ _ _ _ Hid Hinv).
    + assert (∀ subs : gset (socket_id * jsstring),
                {[ (sid, to_String v) ]} ∪ ({[ (sid, to_String v) ]} ∪ subs)
                = {[ (sid, to_String v) ]} ∪ subs) as Hsubs.
      { intros subs. apply set_eq. intros x. rewrite !elem_of_union. tauto. }
      destruct (full_identity data) eqn:Hfull.
      * rewrite (join_room_full _ _ _ (final_state _ _) Hid Hinv Hfull).
        rewrite (participantsOf_join_full _ _ _ _ _ Hid Hinv Hfull).
        rewrite decide_True by done. rewrite insert_insert_eq.
        unfold final_state, outputs.
        rewrite (join_room_full _ _ _ s Hid Hinv Hfull).
        destruct s as [cu rp rm ts subs]. simpl.
        unfold set_roomParticipants, set_subscriptions. simpl.
        by rewrite jm_set_set, Hsubs.
      * unfold final_state, outputs.
        rewrite !(join_room_anonymous _ _ _ _ Hid Hinv Hfull). simpl.
        destruct s as [cu rp rm ts subs].
        unfold set_subscriptions. simpl. by rewrite Hsubs.
  - unfold final_state, outputs. by rewrite !(join_room_throw _ _ _ Hid).
Qed.

Lemma filter_key_absent {K V} `{EqDecision K} (l : list (K * V)) (k : K) :
  k ∉ l.*1 → filter (λ kv, kv.1 = k) l = [].
Proof.
  induction l as [|[k0 x] l IH]; csimpl; [done|].
  rewrite not_elem_of_cons. intros [Hne Hl].
  rewrite filter_cons. simpl. rewrite decide_False by congruence. by apply IH.
Qed.

Lemma gmap_one_entry_per_key {V} (m : gmap socket_id V) (sid : socket_id) :
  (length (filter (λ kv, kv.1 = sid) (map_to_list m)) ≤ 1)%nat.
Proof.
  pose proof (NoDup_fst_map_to_list m) as Hnd.
  induction (map_to_list m) as [|[k x] l IH]; csimpl; [lia|].
  csimpl in Hnd. apply NoDup_cons in Hnd as [Hk Hnd].
  rewrite filter_cons. simpl. case_decide as Heq; [|by apply IH].
  subst k. rewrite filter_key_absent by done. simpl. lia.
Qed.

(** C9. Joining again with the payload already sent changes nothing: the
    state after the second join is the state after the first, and the second
    join publishes exactly what the first published. Joining the same room
    again with full identity, whatever identity it is, overwrites the entry
    kept under the connection's id: the entry is the latest identity, no room
    gains an entry, and a room's map holds at most one entry of a
    connection. *)
Theorem repeated_join_idempotent (sid : socket_id) (data : join_data) (s : state) :
  final_state (join_room sid data) (final_state (join_room sid data) s)
  = final_state (join_room sid data) s
  ∧ outputs (join_room sid data) (final_state (join_room sid data) s)
    = outputs (join_room sid data) s
  ∧ (∀ data' v,
       full_identity data = true → full_identity data' = true →
       join_identifier data = Some v → invalid_roomId (to_String v) = false →
       (∃ v', join_identifier data' = Some v' ∧ to_String v' = to_String v) →
       let s1 := final_state (join_room sid data) s in
       let s2 := final_state (join_room sid data') s1 in
       participantsOf (to_String v) s2 !! sid = Some (join_participant data')
       ∧ ∀ room,
           size (participantsOf room s2) = size (participantsOf room s1)
           ∧ (length (filter (λ kv, kv.1 = sid) (map_to_list (participantsOf room s2)))
              ≤ 1)%nat).
Proof.
  split_and!.
  - unfold final_state at 1. by rewrite join_room_twice.
  - unfold outputs at 1. by rewrite join_room_twice.
  - intros data' v Hfull Hfull' Hid Hinv (v' & Hid' & Hv') s1 s2. subst s1 s2.
    assert (invalid_roomId (to_String v') = false) as Hinv' by by rewrite Hv'.
    split.
    + rewrite (participantsOf_join_full _ _ _ _ _ Hid' Hinv' Hfull').
      rewrite decide_True by done. apply lookup_insert_eq.
    + intros room. split; [|apply gmap_one_entry_per_key].
      rewrite (participantsOf_join_full _ _ _ _ _ Hid' Hinv' Hfull').
      case_decide as Hroom; [|done]. subst room. rewrite Hv'.
      rewrite (participantsOf_join_full _ _ _ _ _ Hid Hinv Hfull).
      rewrite decide_True by done.
      rewrite insert_insert_eq, !map_size_insert. done.
Qed.

(** ** Computations that leave the room tracker alone *)

Section Quiet.
Context (Q : output → Prop).

Lemma quiet_ret {A} (a : A) : quiet Q (mret a).
Proof. intros s. split; [done | constructor]. Qed.

Lemma quiet_throw {A} : quiet Q (@throw A).
Proof. intros s. split; [done | constructor]. Qed.

Lemma quiet_get_state : quiet Q get_state.
Proof. intros s. split; [done | constructor]. Qed.

Lemma quiet_tell o : Q o → quiet Q (tell o).
Proof. intros Ho s. split; [done | by repeat constructor]. Qed.

Lemma quiet_modify f :
  (∀ s, roomParticipants (f s) = roomParticipants s) → quiet Q (modify f).
Proof. intros Hf s. split; [apply Hf | constructor]. Qed.

Lemma quiet_bind {A B} (m : M A) (f : A → M B) :
  quiet Q m → (∀ a, quiet Q (f a)) → quiet Q (m ≫= f).
Proof.
  intros Hm Hf s. specialize (Hm s). unfold final_state, outputs in *.
  rewrite bind_run. destruct (m s) as [[[a|] s'] o]; simpl in *; [|done].
  specialize (Hf a s'). unfold final_state, outputs in Hf.
  destruct (f a s') as [[r s''] o']; simpl in *.
  destruct Hm as [Hm1 Hm2], Hf as [Hf1 Hf2].
  split; [congruence | by apply Forall_app].
Qed.

Lemma quiet_foldM {A K V} (f : A → V → K → M A) (a : A) (m : jsmap K V) :
  (∀ a v k, quiet Q (f a v k)) → quiet Q (foldM f a m).
Proof.
  intros Hf. revert a. induction m as [|[k v] m IH]; intros a; simpl.
  - apply quiet_ret.
  - apply quiet_bind; [apply Hf | intros a'; apply IH].
Qed.

Lemma quiet_from_option {A} (o : option A) : quiet Q (from_option o).
Proof. destruct o; [apply quiet_ret | apply quiet_throw]. Qed.

Lemma quiet_from_option_bind {A B} (o : option A) (k : A → M B) :
  (∀ a, o = Some a → quiet Q (k a)) → quiet Q (from_option o ≫= k).
Proof.
  intros Hk s. unfold final_state, outputs. destruct o as [a|]; unfold from_option.
  - rewrite bind_ret. by apply Hk.
  - rewrite bind_throw. split; [done | constructor].
Qed.
End Quiet.

Ltac quiet_step :=
  first
    [ apply quiet_ret | apply quiet_throw | apply quiet_get_state
    | apply quiet_from_option
    | apply quiet_tell; simpl; tauto
    | apply quiet_modify; intros []; reflexivity
    | apply quiet_foldM; intros
    | apply quiet_bind; [|intros]
    | match goal with
      | |- quiet _ (if ?b then _ else _) => destruct b
      | |- quiet _ (match ?x with _ => _ end) => destruct x
      end ].

Ltac solve_quiet := repeat quiet_step.

Lemma quiet_register_user sid userData : quiet (λ o, ¬ is_count o) (register_user sid userData).
Proof. unfold register_user. solve_quiet. Qed.

Lemma quiet_send_message now messageData : quiet (λ o, ¬ is_count o) (send_message now messageData).
Proof. unfold send_message, setTimeout_delete, db_run. solve_quiet. Qed.

Lemma quiet_run_timers now : quiet (λ o, ¬ is_count o) (run_timers now).
Proof. unfold run_timers. solve_quiet. Qed.

Lemma quiet_run_callback cb res : quiet (λ o, ¬ is_count o) (run_callback cb res).
Proof. unfold run_callback, emit. destruct cb, res; solve_quiet. Qed.

Lemma quiet_normalized_studyType Q v : quiet Q (normalized_studyType v).
Proof. unfold normalized_studyType, toLowerCase. solve_quiet. Qed.

Lemma quiet_send_notification sid data : quiet (λ o, ¬ is_count o) (send_notification sid data).
Proof.
  unfold send_notification, forEach, db_run.
  solve_quiet; try apply quiet_normalized_studyType; solve_quiet.
Qed.

Lemma quiet_lecture_update_notify id st ed title body :
  quiet (λ o, ¬ is_count o) (lecture_update_notify id st ed title body).
Proof.
  unfold lecture_update_notify, forEach, db_run.
  solve_quiet; try apply quiet_normalized_studyType; solve_quiet.
Qed.

Lemma quiet_pin_notify message body :
  quiet (λ o, ¬ is_count o) (pin_notify message body).
Proof.
  unfold pin_notify, db_run.
  solve_quiet; try apply quiet_normalized_studyType; solve_quiet.
Qed.

Lemma quiet_pin_updated id is_pinned message :
  quiet (λ o, ¬ is_count o) (pin_updated id is_pinned message).
Proof.
  unfold pin_updated, db_run, emit.
  apply quiet_bind; [|intros; solve_quiet].
  destruct (truthy is_pinned); [|apply quiet_ret].
  apply quiet_bind; [apply quiet_from_option|]. intros body.
  apply quiet_bind; [apply quiet_pin_notify | intros; solve_quiet].
Qed.

(** ** Counting students *)

Lemma NoDup_fst_filter {K V} (P : K * V → Prop) `{∀ x, Decision (P x)}
    (l : list (K * V)) :
  NoDup l.*1 → NoDup (filter P l).*1.
Proof.
  induction l as [|[k x] l IH]; csimpl; [done|].
  rewrite NoDup_cons. intros [Hk Hnd]. rewrite filter_cons.
  case_decide; csimpl; [|by apply IH].
  apply NoDup_cons. split; [|by apply IH].
  intros ([k' x'] & -> & Hin%list_elem_of_filter)%list_elem_of_fmap.
  apply Hk, list_elem_of_fmap. exists (k', x'). tauto.
Qed.

Lemma length_filter_snd {K V} (P : V → Prop) `{∀ x, Decision (P x)}
    (l : list (K * V)) :
  length (filter P l.*2) = length (filter (λ kv, P kv.2) l).
Proof.
  induction l as [|[k x] l IH]; csimpl; [done|].
  rewrite !filter_cons. simpl. case_decide; simpl; by rewrite IH.
Qed.

(** The count the code computes from the values of the map is the number of
    entries of the map whose role is student. *)
Lemma studentCount_spec (participants : gmap socket_id participant) :
  studentCount participants
  = size (filter (λ kv : socket_id * participant, is_student kv.2) participants).
Proof.
  unfold studentCount. rewrite length_filter_snd, map_filter_alt.
  rewrite map_size_list_to_map; [done|].
  apply NoDup_fst_filter, NoDup_fst_map_to_list.
Qed.

(** ** Disconnect *)

Section JsMapApp.
Context {K V : Type} `{EqDecision K}.
Implicit Types (m pre l : jsmap K V).

Lemma jm_get_app_fresh pre l k v :
  k ∉ jm_keys pre → jm_get k (pre ++ (k, v) :: l) = Some v.
Proof.
  unfold jm_keys. induction pre as [|[k0 v0] pre IH]; csimpl.
  - intros _. by rewrite decide_True.
  - rewrite not_elem_of_cons. intros [Hne Hpre].
    rewrite decide_False by done. by apply IH.
Qed.

Lemma jm_set_app_fresh pre l k v v' :
  k ∉ jm_keys pre → jm_set k v' (pre ++ (k, v) :: l) = pre ++ (k, v') :: l.
Proof.
  unfold jm_keys. induction pre as [|[k0 v0] pre IH]; csimpl.
  - intros _. by rewrite decide_True.
  - rewrite not_elem_of_cons. intros [Hne Hpre].
    rewrite decide_False by done. by rewrite IH.
Qed.
End JsMapApp.

Lemma jm_keys_remove_everywhere sid rp :
  jm_keys (remove_everywhere sid rp) = jm_keys rp.
Proof.
  unfold jm_keys, remove_everywhere. rewrite <- list_fmap_compose.
  by apply list_fmap_ext.
Qed.

Lemma jm_get_remove_everywhere sid rp room :
  jm_get room (remove_everywhere sid rp) = delete sid <$> jm_get room rp.
Proof.
  unfold remove_everywhere. induction rp as [|[r ps] rp IH]; csimpl; [done|].
  case_decide; [done | apply IH].
Qed.

Lemma elem_of_recounts sid rp o :
  o ∈ recounts sid rp ↔
  ∃ room participants, (room, participants) ∈ rp
    ∧ is_Some (participants !! sid)
    ∧ o = Emit (ToRoom room)
            (active_student_count room (studentCount (delete sid participants))).
Proof.
  unfold recounts. rewrite list_elem_of_bind. split.
  - intros ([room ps] & Ho & Hin). simpl in Ho. case_decide as Hs.
    + apply list_elem_of_singleton in Ho. eauto.
    + by apply elem_of_nil in Ho.
  - intros (room & ps & Hin & Hs & ->). exists (room, ps). simpl.
    rewrite decide_True by done. split; [apply list_elem_of_singleton; done | done].
Qed.

Lemma disconnect_loop sid l : ∀ pre s,
  roomParticipants s = pre ++ l →
  NoDup (jm_keys (pre ++ l)) →
  forEach (λ participants room,
    if decide (is_Some (participants !! sid)) then
      modify (set_roomParticipants (jm_set room (delete sid participants)));;
      emitActiveStudentCount room
    else mret ()) l s
  = (Done (),
     set_roomParticipants (λ _, pre ++ remove_everywhere sid l) s,
     recounts sid l).
Proof.
  unfold forEach.
  induction l as [|[room ps] l IH]; intros pre s Hrp Hnd.
  - simpl. rewrite <- Hrp. by destruct s.
  - assert (room ∉ jm_keys pre) as Hfresh.
    { unfold jm_keys in *. rewrite fmap_app in Hnd.
      apply NoDup_app in Hnd as (_ & Hdisj & _).
      intros Hin. apply (Hdisj _ Hin). csimpl. left. }
    assert (pre ++ (room, ps) :: l = (pre ++ [(room, ps)]) ++ l) as Hsplit
      by by rewrite <- app_assoc.
    cbn [foldM]. rewrite bind_run. case_decide as Hs.
    + unfold emitActiveStudentCount. unfold_M. simpl.
      rewrite Hrp, jm_set_app_fresh, jm_get_app_fresh by done.
      rewrite (IH (pre ++ [(room, delete sid ps)])).
      * unfold recounts. csimpl. rewrite decide_True by done.
        unfold set_roomParticipants. simpl. by rewrite <- app_assoc.
      * simpl. by rewrite Hrp, jm_set_app_fresh, <- app_assoc.
      * rewrite <- app_assoc. simpl. unfold jm_keys in *.
        rewrite fmap_app in *. done.
    + unfold mret at 1, M_ret. simpl.
      rewrite (IH (pre ++ [(room, ps)])) by (by rewrite <- Hsplit).
      unfold recounts. csimpl. rewrite decide_False by done. simpl.
      rewrite delete_id; [|by apply eq_None_not_Some].
      by rewrite <- app_assoc.
Qed.

Lemma disconnect_run sid s :
  rooms_wf s →
  disconnect sid s
  = (Done (),
     State (jm_delete sid (connectedUsers s))
           (remove_everywhere sid (roomParticipants s))
           (recentMessages s) (timers s)
           (filter (λ sr, sr.1 ≠ sid) (subscriptions s)),
     recounts sid (roomParticipants s)).
Proof.
  intros Hwf. unfold disconnect.
  rewrite !bind_modify, bind_get_state.
  rewrite (disconnect_loop sid _ []); [by destruct s | done | exact Hwf].
Qed.

(** ** Leaving a room *)

Lemma leave_room_present sid room participants s :
  jm_get room (roomParticipants s) = Some participants →
  leave_room sid (VStr room) s
  = (Done (),
     set_roomParticipants (jm_set room (delete sid participants))
       (set_subscriptions (λ subs, subs ∖ {[ (sid, room) ]}) s),
     [Emit (ToRoom room)
        (active_student_count room (studentCount (delete sid participants)))]).
Proof.
  intros Hg. unfold leave_room, emitActiveStudentCount.
  rewrite bind_modify, bind_get_state. simpl. rewrite Hg.
  rewrite bind_modify, bind_get_state. simpl. by rewrite jm_get_set_eq.
Qed.

Lemma leave_room_absent sid room s :
  jm_get room (roomParticipants s) = None →
  leave_room sid (VStr room) s
  = (Done (), set_subscriptions (λ subs, subs ∖ {[ (sid, room) ]}) s, []).
Proof.
  intros Hg. unfold leave_room.
  rewrite bind_modify, bind_get_state. simpl. by rewrite Hg.
Qed.

Lemma leave_room_not_a_name sid roomId s :
  (∀ room, roomId ≠ VStr room) → leave_room sid roomId s = (Done (), s, []).
Proof. intros Hne. destruct roomId; try done. by destruct (Hne s0). Qed.

(** ** The rooms stay well formed *)

Lemma quiet_handle i :
  match i with
  | on_disconnect _ | on_join_room _ _ | on_leave_room _ _ => True
  | _ => quiet (λ o, ¬ is_count o) (handle i)
  end.
Proof.
  destruct i; simpl;
    [ apply quiet_register_user | exact I | exact I | exact I
    | apply quiet_send_message | apply quiet_send_notification
    | apply quiet_run_timers | apply quiet_run_callback
    | apply quiet_pin_updated | apply quiet_lecture_update_notify ].
Qed.

Lemma rooms_wf_handle i s : rooms_wf s → rooms_wf (final_state (handle i) s).
Proof.
  intros Hwf. unfold rooms_wf in *.
  pose proof (quiet_handle i) as Hq.
  destruct i as [| sid | sid data | sid roomId | | | | | |];
    try (destruct (Hq s) as [-> _]; exact Hwf); simpl; unfold final_state.
  - rewrite disconnect_run by done. simpl. by rewrite jm_keys_remove_everywhere.
  - destruct (join_identifier data) as [v|] eqn:Hid;
      [|by rewrite (join_room_throw _ _ _ Hid)].
    destruct (invalid_roomId (to_String v)) eqn:Hinv;
      [by rewrite (join_room_invalid _ _ _ _ Hid Hinv)|].
    destruct (full_identity data) eqn:Hfull.
    + rewrite (join_room_full _ _ _ _ Hid Hinv Hfull). simpl.
      by apply jm_keys_NoDup_set.
    + by rewrite (join_room_anonymous _ _ _ _ Hid Hinv Hfull).
  - destruct roomId as [| | b | n | room]; try exact Hwf.
    destruct (jm_get room (roomParticipants s)) as [ps|] eqn:Hg.
    + rewrite (leave_room_present _ _ _ _ Hg). simpl. by apply jm_keys_NoDup_set.
    + by rewrite (leave_room_absent _ _ _ Hg).
Qed.

Lemma rooms_wf_run history s : rooms_wf s → rooms_wf (run history s).
Proof.
  revert s. induction history as [|i history IH]; intros s Hwf; simpl; [done|].
  apply IH. by apply rooms_wf_handle.
Qed.

Lemma rooms_wf_initial : rooms_wf initial_state.
Proof. apply NoDup_nil_2. Qed.

(** ** The active count *)

Lemma activeCount_participantsOf room s participants :
  participantsOf room s = participants →
  studentCount participants = activeCount room s.
Proof. intros <-. apply studentCount_spec. Qed.

Lemma participantsOf_disconnect sid s room :
  rooms_wf s →
  participantsOf room (final_state (disconnect sid) s)
  = delete sid (participantsOf room s).
Proof.
  intros Hwf. unfold final_state. rewrite disconnect_run by done.
  unfold participantsOf. simpl. rewrite jm_get_remove_everywhere.
  destruct (jm_get room (roomParticipants s)); simpl; [done|].
  by rewrite delete_empty.
Qed.

Lemma active_count_step (i : input) (s : state) :
  rooms_wf s →
  (∀ to room count,
     Emit to (active_student_count room count) ∈ outputs (handle i) s →
     to = ToRoom room ∧ count = activeCount room (final_state (handle i) s))
  ∧ (∀ room,
       participantsOf room (final_state (handle i) s) ≠ participantsOf room s →
       Emit (ToRoom room)
         (active_student_count room (activeCount room (final_state (handle i) s)))
       ∈ outputs (handle i) s).
Proof.
  intros Hwf. pose proof (quiet_handle i) as Hq.
  destruct i as [| sid | sid data | sid roomId | | | | | |];
    try (destruct (Hq s) as [Hrp Hout]; split;
         [ intros to room count Hin;
           by destruct (proj1 (Forall_forall _ _) Hout _ Hin)
         | intros room Hne; destruct Hne; unfold participantsOf; by rewrite Hrp ]).
  - (* disconnect *)
    simpl. split.
    + intros to room count Hin. unfold outputs in Hin.
      rewrite disconnect_run in Hin by done. simpl in Hin.
      apply elem_of_recounts in Hin as (room' & ps & Hin & Hs & [= -> -> ->]).
      split; [done|]. apply activeCount_participantsOf.
      rewrite participantsOf_disconnect by done.
      unfold participantsOf. by rewrite (jm_elem_get _ _ _ Hwf Hin).
    + intros room Hne. rewrite participantsOf_disconnect in Hne by done.
      unfold outputs. rewrite disconnect_run by done. simpl.
      apply elem_of_recounts. exists room, (participantsOf room s).
      assert (is_Some (participantsOf room s !! sid)) as Hs.
      { apply not_eq_None_Some. intros Hn. apply Hne. by apply delete_id. }
      split_and!; [|done|].
      * unfold participantsOf in *.
        destruct (jm_get room (roomParticipants s)) as [ps|] eqn:Hg; simpl in *.
        -- by apply jm_get_Some_elem.
        -- rewrite lookup_empty in Hs. by destruct Hs.
      * f_equal. f_equal. symmetry. apply activeCount_participantsOf.
        by rewrite participantsOf_disconnect.
  - (* join_room *)
    simpl. unfold final_state, outputs.
    destruct (join_identifier data) as [v|] eqn:Hid;
      [|rewrite (join_room_throw _ _ _ Hid); simpl; split;
        [by intros ??? ?%elem_of_nil | by intros ? []]].
    destruct (invalid_roomId (to_String v)) eqn:Hinv;
      [rewrite (join_room_invalid _ _ _ _ Hid Hinv); simpl; split;
        [by intros ??? ?%elem_of_nil | by intros ? []]|].
    destruct (full_identity data) eqn:Hfull.
    + pose proof (participantsOf_join_full sid data v s) as Hp.
      unfold final_state in Hp.
      specialize (λ room, Hp room Hid Hinv Hfull).
      rewrite (join_room_full _ _ _ _ Hid Hinv Hfull) in *. simpl in *. split.
      * intros to room count [= -> -> ->]%list_elem_of_singleton.
        split; [done|]. apply activeCount_participantsOf.
        rewrite Hp. by rewrite decide_True.
      * intros room Hne. rewrite Hp in Hne. case_decide as Hroom; [|done].
        subst room. apply list_elem_of_singleton. f_equal. f_equal.
        symmetry. apply activeCount_participantsOf. rewrite Hp. by rewrite decide_True.
    + rewrite (join_room_anonymous _ _ _ _ Hid Hinv Hfull). simpl. split;
        [by intros ??? ?%elem_of_nil | by intros ? []].
  - (* leave_room *)
    simpl. unfold final_state, outputs.
    destruct roomId as [| | b | n | room0];
      try (simpl; split; [by intros ??? ?%elem_of_nil | by intros ? []]).
    destruct (jm_get room0 (roomParticipants s)) as [ps|] eqn:Hg.
    + rewrite (leave_room_present _ _ _ _ Hg). simpl.
        assert (∀ room, participantsOf room
                  (set_roomParticipants (jm_set room0 (delete sid ps))
                     (set_subscriptions (λ subs, subs ∖ {[ (sid, room0) ]}) s))
                = if decide (room = room0) then delete sid ps
                  else participantsOf room s) as Hp.
        { intros room. unfold participantsOf. simpl. case_decide as Hroom.
          - subst room. by rewrite jm_get_set_eq.
          - by rewrite jm_get_set_ne. }
        split.
        -- intros to room count [= -> -> ->]%list_elem_of_singleton.
           split; [done|]. apply activeCount_participantsOf.
           rewrite Hp. by rewrite decide_True.
        -- intros room Hne. rewrite Hp in Hne. case_decide as Hroom; [|done].
           subst room. apply list_elem_of_singleton. f_equal. f_equal.
           symmetry. apply activeCount_participantsOf. rewrite Hp. by rewrite decide_True.
    + rewrite (leave_room_absent _ _ _ Hg). simpl. split;
        [by intros ??? ?%elem_of_nil | by intros ? []].
Qed.

Lemma participantsOf_same s s' room :
  roomParticipants s' = roomParticipants s → participantsOf room s' = participantsOf room s.
Proof. unfold participantsOf. by intros ->. Qed.

(** One input moves the tracker as the events say, when a leave names its
    room by a string. *)
Lemma participantsOf_handle (i : input) (s : state) (room : jsstring) :
  rooms_wf s → leaves_by_name i →
  participantsOf room (final_state (handle i) s)
  = joined_step room (participantsOf room s) i.
Proof.
  intros Hwf Hname. pose proof (quiet_handle i) as Hq.
  destruct i as [| sid | sid data | sid roomId | | | | | |];
    try (destruct (Hq s) as [Hrp _]; by apply participantsOf_same).
  - by apply participantsOf_disconnect.
  - cbn [handle joined_step].
    destruct (join_identifier data) as [v|] eqn:Hid.
    2:{ unfold final_state. by rewrite (join_room_throw _ _ _ Hid). }
    destruct (invalid_roomId (to_String v)) eqn:Hinv.
    { unfold final_state. by rewrite (join_room_invalid _ _ _ _ Hid Hinv). }
    destruct (full_identity data) eqn:Hfull; cbn [negb andb].
    + rewrite (participantsOf_join_full _ _ _ _ _ Hid Hinv Hfull).
      destruct (decide (room = to_String v)) as [->|Hne].
      * by rewrite bool_decide_eq_true_2.
      * by rewrite bool_decide_eq_false_2.
    + unfold final_state. by rewrite (join_room_anonymous _ _ _ _ Hid Hinv Hfull).
  - destruct roomId as [| | b | n | room0]; try done.
    cbn [handle joined_step to_String]. unfold final_state.
    destruct (jm_get room0 (roomParticipants s)) as [ps|] eqn:Hg.
    + rewrite (leave_room_present _ _ _ _ Hg). unfold participantsOf. simpl.
      destruct (decide (room0 = room)) as [->|Hne].
      * rewrite bool_decide_eq_true_2 by done. by rewrite jm_get_set_eq, Hg.
      * rewrite bool_decide_eq_false_2 by done. by rewrite jm_get_set_ne.
    + rewrite (leave_room_absent _ _ _ Hg). unfold participantsOf. simpl.
      destruct (decide (room0 = room)) as [->|Hne].
      * rewrite bool_decide_eq_true_2 by done. rewrite Hg. simpl.
        by rewrite delete_empty.
      * by rewrite bool_decide_eq_false_2.
Qed.

Lemma tracker_follows_events (history : list input) (s : state) (room : jsstring) :
  rooms_wf s → Forall leaves_by_name history →
  participantsOf room (run history s)
  = foldl (joined_step room) (participantsOf room s) history.
Proof.
  revert s. induction history as [|i history IH]; intros s Hwf Hnames; [done|].
  apply Forall_cons in Hnames as [Hi Hnames]. simpl.
  rewrite IH by (by try apply rooms_wf_handle).
  by rewrite participantsOf_handle.
Qed.

Lemma currently_joined_snoc history i room :
  currently_joined (history ++ [i]) room
  = joined_step room (currently_joined history room) i.
Proof. unfold currently_joined. by rewrite foldl_app. Qed.

(** C3 on the code. As long as every leave names its room by a string, the
    tracker holds, after any history, exactly the participants that the
    events say are currently joined; every [active_student_count] goes to the
    room it names and carries the number of currently joined participants of
    that room whose role is student; and every input that changes who is
    joined to a room publishes that number to the room. A leave that names
    its room by a number does nothing, although the join stored the room
    under the number's string form: after a join with the number [n] the
    leave with [n] changes no state and publishes no count, the connection
    stays a participant, and by the events it is joined no more. *)
Theorem active_count_published (history : list input) (i : input) :
  let s := run history initial_state in
  let s' := final_state (handle i) s in
  (Forall leaves_by_name (history ++ [i]) →
     (∀ room, participantsOf room s' = currently_joined (history ++ [i]) room)
     ∧ (∀ to room count,
          Emit to (active_student_count room count) ∈ outputs (handle i) s →
          to = ToRoom room
          ∧ count = students (currently_joined (history ++ [i]) room))
     ∧ (∀ room,
          currently_joined (history ++ [i]) room ≠ currently_joined history room →
          Emit (ToRoom room)
            (active_student_count room
               (students (currently_joined (history ++ [i]) room)))
          ∈ outputs (handle i) s))
  ∧ (∀ sid data n,
       i = on_join_room sid data →
       join_identifier data = Some (VNum n) →
       invalid_roomId (to_String (VNum n)) = false → full_identity data = true →
       let room := to_String (VNum n) in
       let leave := on_leave_room sid (VNum n) in
       handle leave s' = (Done (), s', [])
       ∧ participantsOf room (final_state (handle leave) s') !! sid
         = Some (join_participant data)
       ∧ currently_joined (history ++ [i; leave]) room !! sid = None).
Proof.
  intros s s'.
  assert (rooms_wf s) as Hwf by apply rooms_wf_run, rooms_wf_initial.
  split.
  - intros [Hnames Hi%Forall_inv]%Forall_app.
    assert (∀ room, participantsOf room s = currently_joined history room) as Hs.
    { intros room. unfold s. by rewrite tracker_follows_events by apply rooms_wf_initial || done. }
    assert (∀ room, participantsOf room s' = currently_joined (history ++ [i]) room) as Hs'.
    { intros room. unfold s'. rewrite participantsOf_handle by done.
      by rewrite currently_joined_snoc, Hs. }
    destruct (active_count_step i s Hwf) as [Hcount Hchange]. fold s' in Hcount, Hchange.
    split_and!.
    + exact Hs'.
    + intros to room count Hin. destruct (Hcount to room count Hin) as [-> ->].
      split; [done|]. unfold activeCount, students. by rewrite Hs'.
    + intros room Hne. rewrite <- Hs'. apply Hchange. by rewrite Hs, Hs'.
  - intros sid data n -> Hid Hinv Hfull room leave. split_and!.
    + done.
    + unfold s'. cbn [handle]. unfold final_state at 1. simpl.
      fold (final_state (join_room sid data) s).
      rewrite (participantsOf_join_full _ _ _ _ _ Hid Hinv Hfull).
      rewrite decide_True by done. apply lookup_insert_eq.
    + replace (history ++ [on_join_room sid data; leave])
        with ((history ++ [on_join_room sid data]) ++ [leave])
        by by rewrite <- app_assoc.
      rewrite currently_joined_snoc. unfold leave. cbn [joined_step].
      rewrite bool_decide_eq_true_2 by done. apply lookup_delete_eq.
Qed.

(** ** Cleanup on disconnect *)

(** C2, amended. After any history, once the disconnect of a connection has
    been processed: the connection is in the registry no more, no room holds
    it, every room that held it has been sent its new active count, and if
    all the other participants of all rooms were registered before, then
    every participant of every room is registered. *)
Theorem disconnect_cleanup (history : list input) (sid : socket_id) :
  let s := run history initial_state in
  let s' := final_state (disconnect sid) s in
  jm_get sid (connectedUsers s') = None
  ∧ (∀ room, participantsOf room s' !! sid = None)
  ∧ (∀ room, is_Some (participantsOf room s !! sid) →
       Emit (ToRoom room) (active_student_count room (activeCount room s'))
       ∈ outputs (disconnect sid) s)
  ∧ (consistent_but sid s → consistent s').
Proof.
  intros s s'.
  assert (rooms_wf s) as Hwf by apply rooms_wf_run, rooms_wf_initial.
  assert (∀ room, participantsOf room s' = delete sid (participantsOf room s)) as Hp.
  { intros room. by apply participantsOf_disconnect. }
  split_and!.
  - subst s'. unfold final_state. rewrite disconnect_run by done. simpl.
    apply jm_get_delete_eq.
  - intros room. rewrite Hp. apply lookup_delete_eq.
  - intros room Hs.
    apply (proj2 (active_count_step (on_disconnect sid) s Hwf) room).
    simpl. fold s'. rewrite Hp. intros Heq.
    rewrite <- Heq, lookup_delete_eq in Hs. by destruct Hs.
  - unfold consistent_but, consistent. subst s'. unfold final_state.
    rewrite disconnect_run by done. simpl.
    unfold remove_everywhere. rewrite Forall_fmap.
    intros Hc. eapply Forall_impl; [exact Hc|].
    intros [room ps] Hall sid' p. simpl in *.
    intros [Hne Hl]%lookup_delete_Some.
    rewrite jm_get_delete_ne by done. by apply (Hall sid' p).
Qed.

(** ** Eviction timers *)

Lemma run_timers_run now s :
  run_timers now s
  = (Done (),
     State (connectedUsers s) (roomParticipants s)
       (foldr (λ t, delete t.2) (recentMessages s)
          (filter (λ t, t.1 ≤ now) (timers s)))
       (filter (λ t, ¬ t.1 ≤ now) (timers s))
       (subscriptions s),
     []).
Proof. unfold run_timers. by rewrite bind_get_state, !bind_modify. Qed.

Lemma lookup_foldr_delete (rm : gmap jsval Z) (l : list (Z * jsval)) (k : jsval) :
  foldr (λ t, delete t.2) rm l !! k = if decide (k ∈ l.*2) then None else rm !! k.
Proof.
  induction l as [|[d k'] l IH].
  - simpl. by destruct (decide (k ∈ [])) as [?%elem_of_nil|].
  - csimpl. destruct (decide (k' = k)) as [->|Hne].
    + rewrite lookup_delete_eq, decide_True; [done | left].
    + rewrite lookup_delete_ne, IH by done.
      destruct (decide (k ∈ l.*2)) as [Hin|Hnin].
      * rewrite decide_True; [done | by right].
      * rewrite decide_False; [done|].
        intros [?|?]%elem_of_cons; congruence.
Qed.

Lemma accepted_final_state s now messageData :
  truthy (md_tempId messageData) = true →
  accepted now messageData s →
  final_state (send_message now messageData) s =
    set_timers (λ ts, ts ++ [(now + 10000, md_tempId messageData)])
      (set_recentMessages (<[md_tempId messageData := now]>) s).
Proof.
  intros Ht [row Hacc]. apply send_message_fresh; [done|].
  destruct (recentMessages s !! md_tempId messageData) as [lastSeen|] eqn:Hl; [|done].
  destruct (decide (now - lastSeen < 5000)) as [Hlt|Hge]; [|lia].
  pose proof (send_message_duplicate _ _ _ _ Ht Hl Hlt) as Hrej.
  unfold rejected in Hrej. unfold outputs in Hacc. by rewrite Hrej in Hacc.
Qed.

(** C10. A token is accepted at [t0], and again at [t1], 5 to 10 seconds
    later, which records [t1] and sets a second timer. At a time [t2] that
    is 10 seconds or more after [t0] and less than 5 seconds after [t1], the
    timer set at [t0] has run and has deleted the record of [t1], while the
    timer set at [t1] is still pending: a third send with the token at [t2]
    is accepted, although the same send is rejected as long as the timer of
    [t0] has not run. *)
Theorem eviction_timer_of_first_acceptance
    (s : state) (messageData : message_data) (t0 t1 t2 : Z) :
  truthy (md_tempId messageData) = true →
  accepted t0 messageData s →
  t0 + 5000 ≤ t1 → t1 < t0 + 10000 → t0 + 10000 ≤ t2 → t2 < t1 + 5000 →
  let tempId := md_tempId messageData in
  let s1 := run [on_send_message t0 messageData; on_timers t1] s in
  let s2 := final_state (send_message t1 messageData) s1 in
  let s3 := final_state (run_timers t2) s2 in
  accepted t1 messageData s1
  ∧ recentMessages s2 !! tempId = Some t1
  ∧ rejected t2 messageData s2
  ∧ recentMessages s3 !! tempId = None
  ∧ (t1 + 10000, tempId) ∈ timers s3
  ∧ accepted t2 messageData s3.
Proof.
  intros Ht Hacc0 H01 H01' H02 H12 tempId s1 s2 s3.
  assert (timers s1 = filter (λ t, ¬ t.1 ≤ t1) (timers s ++ [(t0 + 10000, tempId)])
          ∧ (recentMessages s1 !! tempId = None
             ∨ recentMessages s1 !! tempId = Some t0)) as [Hts1 Hrm1].
  { subst s1. unfold run. cbn [foldl handle].
    rewrite (accepted_final_state _ _ _ Ht Hacc0).
    unfold final_state. rewrite run_timers_run. simpl. split; [done|].
    rewrite lookup_foldr_delete. case_decide; [by left|].
    right. apply lookup_insert_eq. }
  clearbody s1.
  assert (accepted t1 messageData s1) as Hacc1.
  { apply send_message_fresh; [done|]. fold tempId.
    destruct Hrm1 as [-> | ->]; [done | lia]. }
  assert (s2 = set_timers (λ ts, ts ++ [(t1 + 10000, tempId)])
                 (set_recentMessages (<[tempId := t1]>) s1)) as Hs2.
  { by apply accepted_final_state. }
  clearbody s2.
  assert (recentMessages s2 !! tempId = Some t1) as Hrm2.
  { rewrite Hs2. simpl. apply lookup_insert_eq. }
  assert ((t0 + 10000, tempId) ∈ timers s2) as Hold.
  { rewrite Hs2. simpl. rewrite Hts1, filter_app, <- app_assoc.
    apply elem_of_app. right. apply elem_of_app. left.
    apply list_elem_of_filter. simpl. split; [lia | by apply list_elem_of_singleton]. }
  assert ((t1 + 10000, tempId) ∈ timers s2) as Hnew.
  { rewrite Hs2. simpl. apply elem_of_app. right. by apply list_elem_of_singleton. }
  assert (recentMessages s3 !! tempId = None) as Hrm3.
  { subst s3. unfold final_state. rewrite run_timers_run. simpl.
    rewrite lookup_foldr_delete, decide_True; [done|].
    apply list_elem_of_fmap. exists (t0 + 10000, tempId). split; [done|].
    apply list_elem_of_filter. simpl. split; [lia | done]. }
  split_and!; try done.
  - eapply send_message_duplicate; [done | exact Hrm2 | lia].
  - subst s3. unfold final_state. rewrite run_timers_run. simpl.
    apply list_elem_of_filter. simpl. split; [lia | done].
  - apply send_message_fresh; [done|]. fold tempId. by rewrite Hrm3.
Qed.

(** ** The pinned-message notification *)

Lemma quiet_pin_updated_body id is_pinned message :
  quiet (λ o, is_notification_row o →
              ∃ body, pin_notificationBody message = Some body ∧ carries_body body o)
        (pin_updated id is_pinned message).
Proof.
  unfold pin_updated, db_run, emit.
  apply quiet_bind; [|intros; apply quiet_tell; by intros []].
  destruct (truthy is_pinned); [|apply quiet_ret].
  apply quiet_from_option_bind. intros body Hbody.
  apply quiet_bind; [|intros; apply quiet_tell; by intros []].
  unfold pin_notify, db_run. apply quiet_bind; [apply quiet_get_state|]. intros s.
  apply quiet_foldM. intros notified userData socketId.
  apply quiet_bind; [apply quiet_normalized_studyType|]. intros userStudyType.
  apply quiet_bind; [apply quiet_normalized_studyType|]. intros targetStudy.
  destruct (_ && _); [|apply quiet_ret].
  apply quiet_bind; [|intros; apply quiet_ret].
  apply quiet_tell. intros _. exists body. split; [done|]. simpl. split; [done|].
  intros notificationId s0. eexists _, _. split; [reflexivity | done].
Qed.

(** C8. The body of the pin notification is "من ", the sender's name, ": "
    and the preview; the preview is the content itself when the content has
    at most 50 code units, and its first 50 code units followed by "..."
    when it has more. Every notification row the pin route asks to store has
    that body as its message, and the [new_notification] its closure emits
    has that body. (A stored sender name that is a string is its own string
    form. For a message whose content is [NULL] there is no body, and then
    the route has asked for no row.) *)
Theorem pin_notification_body (id is_pinned : jsval) (message : message_row) (s : state) :
  (∀ content, r_content message = VStr content →
     ∃ preview,
       pin_notificationBody message
       = Some ([1605; 1606; 32]%N ++ to_String (r_sender_name message)
               ++ [58; 32]%N ++ preview)
       ∧ ((length content ≤ 50)%nat → preview = content)
       ∧ ((50 < length content)%nat → preview = take 50 content ++ [46; 46; 46]%N))
  ∧ (∀ user_id title stored sender_id sender_name cb,
       DbRun (NotificationsRow user_id title stored sender_id sender_name) cb
       ∈ outputs (pin_updated id is_pinned message) s →
       ∃ body,
         pin_notificationBody message = Some body
         ∧ stored = VStr body
         ∧ ∀ notificationId s', ∃ socketId n,
             run_callback cb (DbOk notificationId) s'
             = (Done (), s', [Emit (ToRoom socketId) (new_notification n)])
             ∧ n_body n = VStr body).
Proof.
  split.
  - intros content Hcontent. unfold pin_notificationBody, messagePreview.
    rewrite Hcontent. simpl. eexists. split; [reflexivity|]. split.
    + intros Hle. by rewrite bool_decide_eq_false_2 by lia.
    + intros Hlt. by rewrite bool_decide_eq_true_2 by lia.
  - intros user_id title stored sender_id sender_name cb Hin.
    destruct (quiet_pin_updated_body id is_pinned message s) as [_ Hall].
    destruct (proj1 (Forall_forall _ _) Hall _ Hin I) as (body & Hbody & Hstored & Hcb).
    by exists body.
Qed.

(** ** Notification fan-out *)

Lemma normalized_studyType_cohort v : normalized_studyType v = from_option (cohort v).
Proof.
  unfold normalized_studyType, cohort, toLowerCase.
  by destruct (js_or v (VStr (js "morning"))).
Qed.

Lemma cohort_js_or v : cohort (js_or v (VStr (js "morning"))) = cohort v.
Proof.
  unfold cohort. f_equal. unfold js_or at 2 3.
  destruct (truthy v) eqn:Hv; [|done]. unfold js_or. by rewrite Hv.
Qed.

(** Two spellings of a cohort that differ in case only select alike. *)
Lemma cohort_case_insensitive (c1 c2 : jsstring) :
  lower c1 = lower c2 → c1 ≠ [] → c2 ≠ [] → cohort (VStr c1) = cohort (VStr c2).
Proof.
  intros Hl H1 H2. unfold cohort, js_or. simpl.
  rewrite !bool_decide_eq_false_2 by done. simpl. by rewrite Hl.
Qed.

Lemma foldM_pure {A K V} (f : A → V → K → M A) (g : A → K * V → A)
    (h : A → K * V → list output) (m : jsmap K V) :
  Forall (λ e, ∀ a s, f a e.2 e.1 s = (Done (g a e), s, h a e)) m →
  ∀ a s, foldM f a m s = (Done (foldl g a m), s, fold_outputs g h a m).
Proof.
  induction 1 as [|[k v] m Hf Hm IH]; intros a s; simpl; [done|].
  rewrite bind_run, Hf. simpl. by rewrite IH.
Qed.

Lemma forEach_pure {K V} (f : V → K → M unit) (h : K * V → list output)
    (m : jsmap K V) (s : state) :
  Forall (λ e, ∀ s, f e.2 e.1 s = (Done (), s, h e)) m →
  forEach f m s = (Done (), s, m ≫= h).
Proof.
  unfold forEach. induction 1 as [|[k v] m Hf Hm IH]; simpl; [done|].
  rewrite bind_run, Hf. simpl. by rewrite IH.
Qed.

Lemma requests_app o1 o2 : requests (o1 ++ o2) = requests o1 ++ requests o2.
Proof. unfold requests. apply bind_app. Qed.

Lemma requests_select c P `{∀ u, Decision (P u)} mk l :
  (∀ e, requests [mk e] = [request_of e]) →
  requests (l ≫= select c P mk) = request_of <$> filter (λ e, cohort (u_studyType e.2) = Some c ∧ P e.2) l.
Proof.
  intros Hmk. induction l as [|e l IH]; [done|].
  rewrite bind_cons, requests_app, IH, filter_cons. unfold select at 1.
  case_decide; [by rewrite Hmk | done].
Qed.

Lemma select_run c (P : user_data → Prop) `{∀ u, Decision (P u)}
    (mk : socket_id * user_data → output) (e : socket_id * user_data) (s : state) :
  is_Some (cohort (u_studyType e.2)) →
  (userStudy ← normalized_studyType (u_studyType e.2);
   if bool_decide (userStudy = c) && bool_decide (P e.2)
   then tell (mk e) else mret ()) s
  = (Done (), s, select c P mk e).
Proof.
  intros [c' Hc]. rewrite normalized_studyType_cohort, Hc.
  unfold from_option. rewrite bind_ret. unfold select. rewrite Hc.
  destruct (decide (c' = c)) as [->|Hne].
  - rewrite bool_decide_eq_true_2 by done. simpl.
    destruct (decide (P e.2)) as [HP|HP].
    + rewrite bool_decide_eq_true_2, decide_True by done. done.
    + rewrite bool_decide_eq_false_2, decide_False by tauto. done.
  - rewrite bool_decide_eq_false_2 by done. simpl.
    rewrite decide_False; [done|]. intros [[= ?] _]. done.
Qed.

Lemma send_notification_run sid data c s :
  strings_registry s → cohort (sender_studyType sid s) = Some c →
  send_notification sid data s
  = (Done (), s,
     connectedUsers s ≫= select c (λ u, u_id u ≠ nr_professor_id data) (manual_request data)).
Proof.
  intros Hreg Hc. unfold send_notification. rewrite bind_get_state.
  fold (sender_studyType sid s). rewrite normalized_studyType_cohort, Hc.
  unfold from_option. rewrite bind_ret. apply forEach_pure.
  eapply Forall_impl; [exact Hreg|]. intros e He s'.
  by rewrite <- (select_run c _ (manual_request data) e s' He).
Qed.


Lemma select_target_run c tv (P : user_data → Prop) `{∀ u, Decision (P u)}
    (mk : socket_id * user_data → output) (e : socket_id * user_data) (s : state) :
  is_Some (cohort (u_studyType e.2)) → cohort tv = Some c →
  (userStudyType ← normalized_studyType (u_studyType e.2);
   target ← normalized_studyType tv;
   if bool_decide (userStudyType = target) && bool_decide (P e.2)
   then tell (mk e) else mret ()) s
  = (Done (), s, select c P mk e).
Proof.
  intros He Hc. rewrite <- (select_run c P mk e s He).
  destruct He as [c' Hc']. rewrite !normalized_studyType_cohort, Hc', Hc.
  unfold from_option. by rewrite !bind_ret.
Qed.

Lemma fold_outputs_nil {A E} (g : A → E → A) (a : A) (l : list E) :
  fold_outputs g (λ _ _, []) a l = [].
Proof. revert a. induction l as [|e l IH]; intros a; simpl; [done | apply IH]. Qed.

Lemma lecture_update_notify_run id st ed title body c s :
  strings_registry s → cohort st = Some c →
  lecture_update_notify id st ed title body s
  = (Done (), s,
     connectedUsers s ≫= select c (λ u, u_id u ≠ ed) (lecture_request id title body)).
Proof.
  intros Hreg Hc. unfold lecture_update_notify. rewrite bind_get_state.
  assert (cohort (js_or st (VStr (js "morning"))) = Some c) as Htarget
    by by rewrite cohort_js_or.
  rewrite bind_run.
  rewrite (foldM_pure _
    (λ acc e, if bool_decide (cohort (u_studyType e.2) = Some c)
                 && bool_decide (u_id e.2 ≠ ed)
              then acc ++ [e.1] else acc)
    (λ _ _, [])).
  - rewrite fold_outputs_nil.
    rewrite (forEach_pure _ (select c (λ u, u_id u ≠ ed) (lecture_request id title body))).
    + done.
    + eapply Forall_impl; [exact Hreg|]. intros e He s'.
      by rewrite <- (select_target_run c _ _ (lecture_request id title body) e s' He Htarget).
  - eapply Forall_impl; [exact Hreg|]. intros e [c' Hc'] acc s'.
    rewrite !normalized_studyType_cohort, Hc', Htarget.
    unfold from_option. rewrite !bind_ret.
    destruct (decide (c' = c)) as [->|Hne].
    + rewrite (bool_decide_eq_true_2 (c = c)) by done.
      rewrite (bool_decide_eq_true_2 (Some c = Some c)) by done.
      simpl. by destruct (bool_decide _).
    + rewrite (bool_decide_eq_false_2 (c' = c)) by done.
      rewrite (bool_decide_eq_false_2 (Some c' = Some c)) by congruence. done.
Qed.

Lemma pin_notify_run message body c s :
  strings_registry s →
  cohort (js_or (r_roomStudyType message) (r_senderStudyType message)) = Some c →
  pin_notify message body s
  = (Done (foldl (pin_seen c) ∅ (connectedUsers s)), s,
     fold_outputs (pin_seen c) (pin_select c message body) ∅ (connectedUsers s)).
Proof.
  intros Hreg Hc. unfold pin_notify. rewrite bind_get_state.
  apply foldM_pure. eapply Forall_impl; [exact Hreg|]. intros e [c' Hc'] seen s'.
  rewrite !normalized_studyType_cohort, cohort_js_or, Hc', Hc.
  unfold from_option. rewrite !bind_ret. unfold pin_seen, pin_select. rewrite Hc'.
  destruct (decide (c' = c)) as [->|Hne].
  - rewrite bool_decide_eq_true_2 by done. simpl.
    destruct (decide (u_id e.2 ∉ seen)) as [Hs|Hs].
    + rewrite bool_decide_eq_true_2 by done. rewrite !decide_True by done.
      unfold db_run. by rewrite bind_tell.
    + rewrite bool_decide_eq_false_2 by tauto. rewrite !decide_False by tauto. done.
  - rewrite bool_decide_eq_false_2 by done. simpl.
    rewrite !decide_False; [done | |]; intros [[= ?] _]; done.
Qed.

Lemma pin_updated_run id is_pinned message body c s :
  strings_registry s → truthy is_pinned = true →
  pin_notificationBody message = Some body →
  cohort (js_or (r_roomStudyType message) (r_senderStudyType message)) = Some c →
  requests (outputs (pin_updated id is_pinned message) s)
  = requests (fold_outputs (pin_seen c) (pin_select c message body) ∅ (connectedUsers s)).
Proof.
  intros Hreg Hp Hbody Hc. unfold outputs, pin_updated. rewrite Hp, Hbody.
  unfold from_option. rewrite bind_run, bind_ret, bind_run, (pin_notify_run _ _ c) by done.
  unfold db_run, emit, tell. simpl. rewrite !requests_app. simpl.
  by rewrite !app_nil_r.
Qed.

Lemma pin_updated_no_body id is_pinned message s :
  truthy is_pinned = true → pin_notificationBody message = None →
  pin_updated id is_pinned message s = (Thrown, s, []).
Proof.
  intros Hp Hbody. unfold pin_updated. rewrite Hp, Hbody.
  unfold from_option. by rewrite bind_run, bind_throw.
Qed.

Lemma requests_pin c message body seen l :
  requests (fold_outputs (pin_seen c) (pin_select c message body) seen l)
  = request_of <$> first_per_user seen
      (filter (λ e, cohort (u_studyType e.2) = Some c ∧ True) l).
Proof.
  revert seen. induction l as [|e l IH]; intros seen; [done|].
  simpl. rewrite requests_app, IH, filter_cons. unfold pin_select, pin_seen.
  destruct (decide (cohort (u_studyType e.2) = Some c)) as [Hc|Hc].
  - rewrite (decide_True (P := _ ∧ True)) by done. simpl.
    destruct (decide (u_id e.2 ∈ seen)) as [Hs|Hs].
    + rewrite !decide_False by tauto. done.
    + rewrite !decide_True by done. done.
  - rewrite !decide_False by tauto. done.
Qed.

Lemma rows_for_requests uid l :
  rows_for uid (request_of <$> l) = length (filter (λ e, u_id e.2 = uid) l).
Proof.
  unfold rows_for. induction l as [|e l IH]; [done|].
  csimpl. rewrite !filter_cons. simpl. case_decide; simpl; by rewrite IH.
Qed.

Lemma rows_for_first_per_user uid seen l :
  rows_for uid (request_of <$> first_per_user seen l)
  = if decide ((uid ∉ seen) ∧ uid ∈ user_ids l) then 1%nat else 0%nat.
Proof.
  unfold user_ids, rows_for.
  revert seen. induction l as [|e l IH]; intros seen.
  - simpl. rewrite decide_False; [done|]. intros [_ ?%elem_of_nil]. done.
  - cbn [first_per_user]. rewrite fmap_cons.
    destruct (decide (u_id e.2 ∈ seen)) as [Hs|Hs].
    + rewrite IH. apply decide_ext. rewrite elem_of_cons.
      split; [tauto|]. intros [Hn [->|Hin]]; [done | tauto].
    + rewrite fmap_cons, filter_cons.
      destruct (decide ((request_of e).1 = uid)) as [Heq|Hne];
        cbn [length]; rewrite IH; unfold request_of in *; simpl in *.
      * destruct (decide ((uid ∉ {[u_id e.2]} ∪ seen) ∧ _)) as [[Hn _]|_].
        { exfalso. apply Hn. rewrite elem_of_union, elem_of_singleton. left. done. }
        destruct (decide ((uid ∉ seen) ∧ _)) as [_|Hn]; [done|].
        exfalso. apply Hn. subst uid. split; [done | left].
      * apply decide_ext. rewrite elem_of_cons, elem_of_union, elem_of_singleton.
        split; [intros [Hn Hin]; split; [tauto | by right] |].
        intros [Hn [->|Hin]]; [done|]. split; [|done]. intros [->|?]; done.
Qed.

Lemma first_per_user_first seen l e :
  e ∈ first_per_user seen l →
  (u_id e.2 ∉ seen)
  ∧ ∃ pre post, l = pre ++ e :: post ∧ u_id e.2 ∉ user_ids pre.
Proof.
  unfold user_ids.
  revert seen. induction l as [|e0 l IH]; intros seen; cbn [first_per_user].
  - by intros ?%elem_of_nil.
  - destruct (decide (u_id e0.2 ∈ seen)) as [Hs|Hs].
    + intros [Hn (pre & post & -> & Hpre)]%IH. split; [done|].
      exists (e0 :: pre), post. split; [done|].
      rewrite fmap_cons, not_elem_of_cons. split; [congruence | done].
    + intros [->|Hin]%elem_of_cons.
      * split; [done|]. exists [], l. split; [done | apply not_elem_of_nil].
      * apply IH in Hin as [Hn (pre & post & -> & Hpre)].
        rewrite elem_of_union, elem_of_singleton in Hn. split; [tauto|].
        exists (e0 :: pre), post. split; [done|].
        rewrite fmap_cons, not_elem_of_cons. split; [tauto | done].
Qed.

Lemma notified_spec cb notificationId s :
  omap (λ o, match o with
             | Emit (ToRoom socketId) (new_notification _) => Some socketId
             | _ => None
             end)
       (outputs (run_callback cb (DbOk notificationId)) s)
  = notified cb
  ∧ outputs (run_callback cb DbError) s = [].
Proof. by destruct cb. Qed.

Lemma manual_request_requests data e : requests [manual_request data e] = [request_of e].
Proof. done. Qed.

Lemma lecture_request_requests id title body e :
  requests [lecture_request id title body e] = [request_of e].
Proof. done. Qed.

Lemma length_filter_two {A} (P : A → Prop) `{∀ x, Decision (P x)}
    (l : list A) (x y : A) :
  x ∈ l → y ∈ l → x ≠ y → P x → P y → (2 ≤ length (filter P l))%nat.
Proof.
  intros Hx Hy Hne Px Py.
  assert (x ∈ filter P l) as Hx' by by apply list_elem_of_filter.
  assert (y ∈ filter P l) as Hy' by by apply list_elem_of_filter.
  destruct (filter P l) as [|a [|b l']]; simpl; [|exfalso|lia].
  - by apply elem_of_nil in Hx'.
  - apply list_elem_of_singleton in Hx', Hy'. congruence.
Qed.

(** C4 on the code. In a registry whose study types are strings: the manual
    notification and the lecture update ask, for each connection of the
    cohort whose user is not the sender (the editor), in the order of the
    registry, for one row for that connection's user, followed, once stored,
    by one [new_notification] to that connection; so a user gets as many rows
    as connections, and with a user on two connections the rows are not one
    per user. The pin route asks for exactly one row for each user who has a
    connection of the cohort, and its [new_notification] goes to the first
    such connection of the user only; so with a user on two connections not
    every connection is notified. (For a message without content the pin
    route throws before the loop and asks for nothing.) *)
Theorem notification_fanout (s : state) :
  strings_registry s →
  (∀ sid data c, cohort (sender_studyType sid s) = Some c →
     let aud := audience c (λ u, u_id u ≠ nr_professor_id data) s in
     let reqs := requests (outputs (send_notification sid data) s) in
     reqs = request_of <$> aud
     ∧ (∀ userId, rows_for userId reqs = length (filter (λ e, u_id e.2 = userId) aud))
     ∧ (∀ e1 e2, e1 ∈ aud → e2 ∈ aud → e1 ≠ e2 → u_id e1.2 = u_id e2.2 →
          (2 ≤ rows_for (u_id e1.2) reqs)%nat ∧ ¬ one_row_all_devices aud reqs))
  ∧ (∀ id lecture_studyType editingUserId title body c,
       cohort lecture_studyType = Some c →
       let aud := audience c (λ u, u_id u ≠ editingUserId) s in
       let reqs := requests (outputs (lecture_update_notify id lecture_studyType
                                        editingUserId title body) s) in
       reqs = request_of <$> aud
       ∧ (∀ userId, rows_for userId reqs = length (filter (λ e, u_id e.2 = userId) aud))
       ∧ (∀ e1 e2, e1 ∈ aud → e2 ∈ aud → e1 ≠ e2 → u_id e1.2 = u_id e2.2 →
            (2 ≤ rows_for (u_id e1.2) reqs)%nat ∧ ¬ one_row_all_devices aud reqs))
  ∧ (∀ id is_pinned message c,
       truthy is_pinned = true →
       cohort (js_or (r_roomStudyType message) (r_senderStudyType message)) = Some c →
       let aud := audience c (λ _, True) s in
       let reqs := requests (outputs (pin_updated id is_pinned message) s) in
       (pin_notificationBody message = None →
          pin_updated id is_pinned message s = (Thrown, s, []))
       ∧ (is_Some (pin_notificationBody message) →
            (∀ userId, rows_for userId reqs
                       = if decide (userId ∈ user_ids aud) then 1%nat else 0%nat)
            ∧ (∀ userId socketId, (userId, socketId) ∈ reqs →
                 ∃ pre u post, aud = pre ++ (socketId, u) :: post
                               ∧ u_id u = userId ∧ userId ∉ user_ids pre)
            ∧ (∀ e1 e2, e1 ∈ aud → e2 ∈ aud → e1.1 ≠ e2.1 → u_id e1.2 = u_id e2.2 →
                 ¬ one_row_all_devices aud reqs))).
Proof.
  intros Hreg.
  assert (∀ aud, ∀ e1 e2 : socket_id * user_data,
            e1 ∈ aud → e2 ∈ aud → e1 ≠ e2 → u_id e1.2 = u_id e2.2 →
            (2 ≤ rows_for (u_id e1.2) (request_of <$> aud))%nat
            ∧ ¬ one_row_all_devices aud (request_of <$> aud)) as Htwo.
  { intros aud e1 e2 H1 H2 Hne Hid.
    assert (2 ≤ rows_for (u_id e1.2) (request_of <$> aud))%nat as Hrows.
    { rewrite rows_for_requests.
      by apply (length_filter_two (λ e, u_id e.2 = u_id e1.2) aud e1 e2). }
    split; [done|]. intros Hone.
    apply (proj1 (Forall_forall _ _) Hone) in H1 as [H1 _]. lia. }
  split_and!.
  - intros sid data c Hc aud reqs.
    assert (reqs = request_of <$> aud) as ->.
    { subst reqs aud. unfold outputs. rewrite (send_notification_run _ _ c) by done.
      simpl. apply requests_select, manual_request_requests. }
    split_and!; [done | intros; apply rows_for_requests | apply Htwo].
  - intros id st ed title body c Hc aud reqs.
    assert (reqs = request_of <$> aud) as ->.
    { subst reqs aud. unfold outputs. rewrite (lecture_update_notify_run _ _ _ _ _ c) by done.
      simpl. apply requests_select, lecture_request_requests. }
    split_and!; [done | intros; apply rows_for_requests | apply Htwo].
  - intros id is_pinned message c Hp Hc aud reqs. split.
    { by apply pin_updated_no_body. }
    intros [body Hbody].
    assert (reqs = request_of <$> first_per_user ∅ aud) as Hreqs.
    { subst reqs aud. rewrite (pin_updated_run _ _ _ body c) by done. apply requests_pin. }
    assert (∀ userId, rows_for userId reqs
                      = if decide (userId ∈ user_ids aud) then 1%nat else 0%nat) as Hrows.
    { intros userId. rewrite Hreqs, rows_for_first_per_user. apply decide_ext.
      split; [tauto|]. intros Hin. split; [apply not_elem_of_empty | done]. }
    split_and!.
    + exact Hrows.
    + intros userId socketId. rewrite Hreqs.
      intros ([sid u] & [= -> ->] & Hin)%list_elem_of_fmap.
      apply first_per_user_first in Hin as [_ (pre & post & Haud & Hpre)].
      by exists pre, u, post.
    + intros e1 e2 H1 H2 Hne Hid Hone.
      pose proof (proj1 (Forall_forall _ _) Hone _ H1) as [Hone1 Hin1].
      pose proof (proj1 (Forall_forall _ _) Hone _ H2) as [_ Hin2].
      assert (2 ≤ rows_for (u_id e1.2) reqs)%nat; [|lia].
      unfold rows_for.
      apply (length_filter_two _ reqs (request_of e1) (request_of e2));
        [done | done | | done | unfold request_of; simpl; congruence].
      unfold request_of. intros [= _ ?]. done.
Qed.

(** * Further properties of the handlers *)

(** ** Computations that keep a relation *)

Section Steps.
Context (R : relation state) `{!PreOrder R}.

Lemma steps_ret {A} (a : A) : steps R (mret a).
Proof. intros s. reflexivity. Qed.

Lemma steps_throw {A} : steps R (@throw A).
Proof. intros s. reflexivity. Qed.

Lemma steps_get_state : steps R get_state.
Proof. intros s. reflexivity. Qed.

Lemma steps_tell o : steps R (tell o).
Proof. intros s. reflexivity. Qed.

Lemma steps_from_option {A} (o : option A) : steps R (from_option o).
Proof. destruct o; intros s; reflexivity. Qed.

Lemma steps_modify f : (∀ s, R s (f s)) → steps R (modify f).
Proof. intros Hf s. apply Hf. Qed.

Lemma steps_bind {A B} (m : M A) (f : A → M B) :
  steps R m → (∀ a, steps R (f a)) → steps R (m ≫= f).
Proof.
  intros Hm Hf s. specialize (Hm s). unfold final_state in *.
  rewrite bind_run. destruct (m s) as [[[a|] s'] o]; simpl in *; [|done].
  specialize (Hf a s'). unfold final_state in Hf.
  destruct (f a s') as [[r s''] o']; simpl in *. by etrans.
Qed.

Lemma steps_foldM {A K V} (f : A → V → K → M A) (a : A) (m : jsmap K V) :
  (∀ a v k, steps R (f a v k)) → steps R (foldM f a m).
Proof.
  intros Hf. revert a. induction m as [|[k v] m IH]; intros a; simpl.
  - apply steps_ret.
  - apply steps_bind; [apply Hf | intros a'; apply IH].
Qed.
End Steps.

Global Instance same_preorder {B} (proj : state → B) : PreOrder (same proj).
Proof. split; [by intros s | intros s1 s2 s3; unfold same; congruence]. Qed.

Global Instance rooms_grow_preorder : PreOrder rooms_grow.
Proof.
  split; [intros s; unfold rooms_grow; reflexivity|].
  intros s1 s2 s3. unfold rooms_grow. by etrans.
Qed.

Ltac steps_step :=
  first
    [ apply (steps_ret _) | apply (steps_throw _) | apply (steps_get_state _)
    | apply (steps_from_option _) | apply (steps_tell _)
    | apply (steps_modify _); intros []; unfold same; simpl; reflexivity
    | apply (steps_foldM _); intros
    | apply (steps_bind _); [|intros]
    | match goal with
      | |- steps _ (if ?b then _ else _) => destruct b
      | |- steps _ (match ?x with _ => _ end) => destruct x
      end ].

Ltac solve_steps := repeat steps_step.

Ltac unfold_handlers :=
  unfold register_user, disconnect, join_room, leave_room, send_message,
    send_notification, run_timers, run_callback, pin_updated, pin_notify,
    lecture_update_notify, emitActiveStudentCount, normalized_studyType,
    toLowerCase, setTimeout_delete, forEach, db_run, emit.

(** What a handler other than [send_message] and the timers leaves alone:
    the window and its timers. *)
Lemma handle_keeps_window i :
  match i with
  | on_send_message _ _ | on_timers _ => True
  | _ => steps (same (λ s, (recentMessages s, timers s))) (handle i)
  end.
Proof. destruct i; simpl; try exact I; unfold_handlers; solve_steps. Qed.

(** What a handler other than [register_user] and [disconnect] leaves alone:
    the registry. *)
Lemma handle_keeps_registry i :
  match i with
  | on_register_user _ _ | on_disconnect _ => True
  | _ => steps (same connectedUsers) (handle i)
  end.
Proof. destruct i; simpl; try exact I; unfold_handlers; solve_steps. Qed.

(** What a handler other than the three room events leaves alone: the
    tracker and the subscriptions. *)
Lemma handle_keeps_rooms i :
  match i with
  | on_disconnect _ | on_join_room _ _ | on_leave_room _ _ => True
  | _ => steps (same (λ s, (roomParticipants s, subscriptions s))) (handle i)
  end.
Proof. destruct i; simpl; try exact I; unfold_handlers; solve_steps. Qed.

Lemma run_app h1 h2 s : run (h1 ++ h2) s = run h2 (run h1 s).
Proof. unfold run. apply foldl_app. Qed.

Lemma run_snoc h i s : run (h ++ [i]) s = final_state (handle i) (run h s).
Proof. by rewrite run_app. Qed.

(** ** The window of [send_message] *)

Lemma rejected_not_accepted now messageData s :
  rejected now messageData s → accepted now messageData s → False.
Proof.
  unfold rejected, accepted, outputs. intros -> [row Hrow]. discriminate.
Qed.

(** X1. For a send carrying a token that the window holds with the time
    [lastSeen]: the send is rejected exactly when [now - lastSeen] is below
    5000 (also when the clock went back), and accepted exactly when it is
    5000 or more, so the window closes after 5 seconds although the record
    stays for 10. *)
Theorem rejection_window_exact (s : state) (now : Z) (messageData : message_data)
    (lastSeen : Z) :
  truthy (md_tempId messageData) = true →
  recentMessages s !! md_tempId messageData = Some lastSeen →
  (rejected now messageData s ↔ now - lastSeen < 5000)
  ∧ (accepted now messageData s ↔ 5000 ≤ now - lastSeen).
Proof.
  intros Ht Hl.
  assert (now - lastSeen < 5000 → rejected now messageData s) as Hrej
    by (intros; by eapply send_message_duplicate).
  assert (5000 ≤ now - lastSeen → accepted now messageData s) as Hacc.
  { intros Hge. apply send_message_fresh; [done|]. by rewrite Hl. }
  split; split; try done.
  - intros Hr. destruct (decide (now - lastSeen < 5000)) as [|Hge]; [done|].
    exfalso. apply (rejected_not_accepted now messageData s Hr). apply Hacc. lia.
  - intros Ha. destruct (decide (5000 ≤ now - lastSeen)) as [|Hlt]; [done|].
    exfalso. apply (rejected_not_accepted now messageData s); [|done].
    apply Hrej. lia.
Qed.

(** X2. Sends without a token ([tempId] absent, 0 or the empty string) never
    touch the window: however many are handled in a row and whatever the
    state, the state stays as it was and every one of them reaches the
    database, one request each. *)
Theorem tokenless_sends_bypass_window (history : list input) (s : state) :
  Forall tokenless history →
  run history s = s
  ∧ Forall is_db_run (trace history s)
  ∧ length (trace history s) = length history.
Proof.
  induction 1 as [|i history Hi Hrest IH]; [done|].
  destruct i as [| | | | now messageData | | | | |]; try (by destruct Hi). simpl in Hi.
  destruct (send_message_no_token s now messageData Hi) as [[row Hrow] Hs].
  simpl. rewrite Hs, Hrow. destruct IH as (IH1 & IH2 & IH3).
  split_and!; [done | by constructor | simpl; by rewrite IH3].
Qed.

(** ** Eviction *)

Lemma same_window s s' :
  same (λ s, (recentMessages s, timers s)) s s' →
  recentMessages s' = recentMessages s ∧ timers s' = timers s.
Proof.
  unfold same. intros Heq.
  split; [exact (eq_sym (f_equal fst Heq)) | exact (eq_sym (f_equal snd Heq))].
Qed.

Lemma timers_cover_handle i s :
  timers_cover s → timers_cover (final_state (handle i) s).
Proof.
  intros Hc. pose proof (handle_keeps_window i) as Hk.
  destruct i as [| | | | now messageData | | now | | |];
    try (cbn [handle] in *; destruct (same_window _ _ (Hk s)) as [Hrm Hts];
         unfold timers_cover; rewrite Hrm, Hts; exact Hc).
  - (* send_message *)
    simpl. destruct (send_message_cases s now messageData) as [Hrej|Hacc].
    + unfold final_state. by rewrite Hrej.
    + destruct (truthy (md_tempId messageData)) eqn:Ht.
      * rewrite (accepted_final_state _ _ _ Ht Hacc). unfold timers_cover. simpl.
        apply map_Forall_insert_2.
        -- apply elem_of_app. right. by apply list_elem_of_singleton.
        -- intros k x Hkx. apply elem_of_app. left. by apply (Hc k x).
      * by destruct (send_message_no_token s now messageData Ht) as [_ ->].
  - (* timers *)
    simpl. unfold final_state. rewrite run_timers_run. unfold timers_cover. simpl.
    intros k x Hkx. rewrite lookup_foldr_delete in Hkx.
    case_decide as Hdue; [done|].
    apply list_elem_of_filter. split; [|by apply (Hc k x)].
    simpl. intros Hle. apply Hdue. apply list_elem_of_fmap.
    exists (x + 10000, k). split; [done|].
    apply list_elem_of_filter. split; [done | by apply (Hc k x)].
Qed.

Lemma timers_cover_run history s : timers_cover s → timers_cover (run history s).
Proof.
  revert s. induction history as [|i history IH]; intros s Hc; simpl; [done|].
  apply IH. by apply timers_cover_handle.
Qed.

(** X3. After any history, when the timers that are due at [now] have run,
    every record left in the window is less than 10 seconds old at [now],
    and its own timer, due 10 seconds after the time recorded, is pending:
    no record outlives its retention, whether or not the token is ever sent
    again. *)
Theorem records_evicted_after_retention (history : list input) (now : Z) :
  let s := run (history ++ [on_timers now]) initial_state in
  ∀ tempId lastSeen,
    recentMessages s !! tempId = Some lastSeen →
    now < lastSeen + 10000 ∧ (lastSeen + 10000, tempId) ∈ timers s.
Proof.
  intros s tempId lastSeen Hl.
  assert (timers_cover s) as Hc.
  { apply timers_cover_run. unfold timers_cover. simpl. apply map_Forall_empty. }
  specialize (Hc tempId lastSeen Hl). cbv beta in Hc. split; [|done].
  subst s. rewrite run_snoc in Hc. cbn [handle] in Hc. unfold final_state in Hc.
  rewrite run_timers_run in Hc. cbn [timers fst snd] in Hc.
  apply list_elem_of_filter in Hc as [Hdue _]. simpl in Hdue. lia.
Qed.

(** ** The registry *)

Section JsMapInvariants.
Context {K V : Type} `{EqDecision K}.
Implicit Types (m : jsmap K V) (k : K) (v : V).

Lemma jm_set_Forall (P : K * V → Prop) m k v :
  Forall P m → P (k, v) → Forall P (jm_set k v m).
Proof.
  intros Hm Hv. induction Hm as [|[k0 v0] m H0 Hm IH]; simpl.
  - by constructor.
  - case_decide; constructor; done.
Qed.

Lemma jm_delete_Forall (P : K * V → Prop) m k :
  Forall P m → Forall P (jm_delete k m).
Proof.
  induction 1 as [|[k0 v0] m H0 Hm IH]; simpl; [constructor|].
  case_decide; [done | by constructor].
Qed.

Lemma jm_keys_delete_elem m k k' :
  k' ∈ jm_keys (jm_delete k m) → k' ∈ jm_keys m.
Proof.
  unfold jm_keys. induction m as [|[k0 v0] m IH]; csimpl; [done|].
  case_decide; csimpl; rewrite ?elem_of_cons; [by right; apply IH | ].
  intros [->|Hin]; [by left | right; by apply IH].
Qed.

Lemma jm_keys_NoDup_delete m k : NoDup (jm_keys m) → NoDup (jm_keys (jm_delete k m)).
Proof.
  unfold jm_keys. induction m as [|[k0 v0] m IH]; csimpl; [done|].
  rewrite NoDup_cons. intros [Hk Hnd]. case_decide; [by apply IH|].
  csimpl. apply NoDup_cons. split; [|by apply IH].
  intros Hin. apply Hk. by eapply jm_keys_delete_elem.
Qed.

Lemma jm_keys_set_prefix m k v : jm_keys m `prefix_of` jm_keys (jm_set k v m).
Proof.
  destruct (jm_get k m) as [v0|] eqn:Hg.
  - rewrite jm_keys_set_present by eauto. reflexivity.
  - rewrite jm_keys_set_absent by done. by apply prefix_app_r.
Qed.
End JsMapInvariants.

Lemma truthy_js_or_morning v : truthy (js_or v (VStr (js "morning"))) = true.
Proof. unfold js_or. by destruct (truthy v) eqn:Hv. Qed.

Lemma disconnect_registry sid s :
  connectedUsers (final_state (disconnect sid) s) = jm_delete sid (connectedUsers s).
Proof.
  unfold disconnect, final_state. rewrite !bind_modify, bind_get_state.
  match goal with
  | |- context [forEach ?f ?l ?s2] =>
      assert (steps (same connectedUsers) (forEach f l)) as Hloop;
      [ unfold forEach, emitActiveStudentCount, emit; solve_steps
      | specialize (Hloop s2); unfold same, final_state in Hloop;
        rewrite <- Hloop ]
  end.
  by destruct s.
Qed.

Lemma registry_wf_handle i s : registry_wf s → registry_wf (final_state (handle i) s).
Proof.
  intros [Hnd Hall]. pose proof (handle_keeps_registry i) as Hk.
  destruct i as [sid userData | sid | | | | | | | |];
    try (cbn [handle] in *; specialize (Hk s); unfold same in Hk;
         unfold registry_wf; rewrite <- Hk; by split).
  - simpl. unfold registry_wf, final_state, register_user, modify. simpl. split.
    + by apply jm_keys_NoDup_set.
    + apply jm_set_Forall; [done|]. simpl. apply truthy_js_or_morning.
  - pose proof (disconnect_registry sid s) as Hcu. cbn [handle].
    unfold registry_wf. rewrite Hcu. split.
    + by apply jm_keys_NoDup_delete.
    + by apply jm_delete_Forall.
Qed.

Lemma registry_wf_run history s : registry_wf s → registry_wf (run history s).
Proof.
  revert s. induction history as [|i history IH]; intros s Hwf; simpl; [done|].
  apply IH. by apply registry_wf_handle.
Qed.

Lemma registry_wf_initial : registry_wf initial_state.
Proof. split; [apply NoDup_nil_2 | constructor]. Qed.

(** X4. After any history the registry holds at most one entry for a
    connection, so looking a connection up finds the entry the loops visit,
    and every entry has a truthy study type: registration replaces an absent or
    empty one by "morning", and registering again overwrites in place. *)
Theorem registry_one_entry_truthy_studyType (history : list input) :
  let s := run history initial_state in
  NoDup (jm_keys (connectedUsers s))
  ∧ (∀ sid userData,
       (sid, userData) ∈ connectedUsers s ↔ jm_get sid (connectedUsers s) = Some userData)
  ∧ (∀ sid userData,
       jm_get sid (connectedUsers s) = Some userData →
       truthy (u_studyType userData) = true
       ∧ js_or (u_studyType userData) (VStr (js "morning")) = u_studyType userData).
Proof.
  intros s.
  destruct (registry_wf_run history initial_state registry_wf_initial) as [Hnd Hall].
  fold s in Hnd, Hall. split_and!; [done | |].
  - intros sid userData. split; [by apply jm_elem_get | apply jm_get_Some_elem].
  - intros sid userData Hin%jm_get_Some_elem.
    pose proof (proj1 (Forall_forall _ _) Hall _ Hin) as Ht. simpl in Ht.
    split; [done|]. unfold js_or. by rewrite Ht.
Qed.

(** ** Rooms *)

Ltac grow_step :=
  first
    [ apply (steps_ret _) | apply (steps_throw _) | apply (steps_get_state _)
    | apply (steps_from_option _) | apply (steps_tell _)
    | apply (steps_modify _); intros []; unfold rooms_grow; simpl;
      first [reflexivity | apply jm_keys_set_prefix]
    | apply (steps_foldM _); intros
    | apply (steps_bind _); [|intros]
    | match goal with
      | |- steps _ (if ?b then _ else _) => destruct b
      | |- steps _ (match ?x with _ => _ end) => destruct x
      end ].

Lemma handle_rooms_grow i : steps rooms_grow (handle i).
Proof. destruct i; simpl; unfold_handlers; repeat grow_step. Qed.

(** X5. No handler ever removes a room from the tracker or moves it: after
    any history, from any state, the room names the tracker had are still
    there, in the same order, and new ones come after them. A room that every
    participant has left stays, with an empty map. *)
Theorem rooms_never_removed (history : list input) (s : state) :
  jm_keys (roomParticipants s) `prefix_of` jm_keys (roomParticipants (run history s))
  ∧ ∀ room, jm_has room (roomParticipants s) = true →
            jm_has room (roomParticipants (run history s)) = true.
Proof.
  assert (rooms_grow s (run history s)) as Hgrow.
  { revert s. induction history as [|i history IH]; intros s; simpl; [reflexivity|].
    etrans; [apply (handle_rooms_grow i s) | apply IH]. }
  split; [exact Hgrow|].
  intros room Hhas. unfold jm_has in *.
  destruct (jm_get room (roomParticipants (run history s))) eqn:Hg; [done|].
  apply jm_get_None_keys in Hg. destruct Hgrow as [k Hk]. rewrite Hk in Hg.
  destruct (jm_get room (roomParticipants s)) eqn:Hg0; [|done].
  exfalso. apply Hg. apply elem_of_app. left.
  destruct (decide (room ∈ jm_keys (roomParticipants s))) as [|Hn]; [done|].
  apply jm_get_None_keys in Hn. congruence.
Qed.

Lemma same_rooms s s' :
  same (λ s, (roomParticipants s, subscriptions s)) s s' →
  roomParticipants s' = roomParticipants s ∧ subscriptions s' = subscriptions s.
Proof.
  unfold same. intros Heq.
  split; [exact (eq_sym (f_equal fst Heq)) | exact (eq_sym (f_equal snd Heq))].
Qed.

Lemma participants_subscribed_handle i s :
  rooms_wf s → participants_subscribed s →
  participants_subscribed (final_state (handle i) s).
Proof.
  intros Hwf Hps. pose proof (handle_keeps_rooms i) as Hk.
  destruct i as [| sid | sid data | sid roomId | | | | | |];
    try (cbn [handle] in *; destruct (same_rooms _ _ (Hk s)) as [Hrp Hsubs];
         intros room sid0; unfold participantsOf;
         rewrite Hrp, Hsubs; apply Hps).
  - (* disconnect *)
    intros room sid0. cbn [handle]. rewrite participantsOf_disconnect by done.
    unfold final_state. rewrite disconnect_run by done. simpl.
    intros [p [Hne Hl]%lookup_delete_Some].
    apply elem_of_filter. split; [simpl; congruence|]. apply Hps. by exists p.
  - (* join_room *)
    cbn [handle]. intros room sid0.
    destruct (join_identifier data) as [v|] eqn:Hid;
      [|unfold final_state; rewrite (join_room_throw _ _ _ Hid); apply Hps].
    destruct (invalid_roomId (to_String v)) eqn:Hinv;
      [unfold final_state; rewrite (join_room_invalid _ _ _ _ Hid Hinv); apply Hps|].
    destruct (full_identity data) eqn:Hfull.
    + rewrite (participantsOf_join_full _ _ _ _ _ Hid Hinv Hfull).
      unfold final_state. rewrite (join_room_full _ _ _ _ Hid Hinv Hfull). simpl.
      rewrite elem_of_union, elem_of_singleton. case_decide as Hroom.
      * subst room. destruct (decide (sid0 = sid)) as [->|Hne]; [by left|].
        rewrite lookup_insert_ne by done. right. by apply Hps.
      * right. by apply Hps.
    + unfold final_state. rewrite (join_room_anonymous _ _ _ _ Hid Hinv Hfull).
      unfold participantsOf. simpl. rewrite elem_of_union. right. by apply Hps.
  - (* leave_room *)
    cbn [handle]. intros room sid0.
    destruct roomId as [| | b | n | room0]; try apply Hps.
    unfold final_state.
    destruct (jm_get room0 (roomParticipants s)) as [ps|] eqn:Hg.
    + rewrite (leave_room_present _ _ _ _ Hg). unfold participantsOf. simpl.
      rewrite elem_of_difference, elem_of_singleton.
      destruct (decide (room = room0)) as [->|Hroom].
      * rewrite jm_get_set_eq. simpl. intros [p [Hne Hl]%lookup_delete_Some].
        split; [|congruence]. apply Hps. unfold participantsOf. rewrite Hg. by exists p.
      * rewrite jm_get_set_ne by done. intros Hs. split; [by apply Hps | congruence].
    + rewrite (leave_room_absent _ _ _ Hg). unfold participantsOf. simpl.
      rewrite elem_of_difference, elem_of_singleton. intros Hs.
      split; [by apply Hps|]. intros [= -> ->]. rewrite Hg in Hs. simpl in Hs.
      rewrite lookup_empty in Hs. by destruct Hs.
Qed.

Lemma participants_subscribed_initial : participants_subscribed initial_state.
Proof.
  intros room sid [p Hp]. unfold participantsOf in Hp. simpl in Hp.
  by rewrite lookup_empty in Hp.
Qed.

Lemma participants_subscribed_run history s :
  rooms_wf s → participants_subscribed s → participants_subscribed (run history s).
Proof.
  revert s. induction history as [|i history IH]; intros s Hwf Hps; [done|].
  simpl. apply IH; [by apply rooms_wf_handle | by apply participants_subscribed_handle].
Qed.

(** X6. After any history, every participant recorded for a room is
    subscribed to the room's channel: whoever is counted in the active count
    of a room also receives what is sent to the room. *)
Theorem participants_are_subscribed (history : list input) (room : jsstring)
    (sid : socket_id) :
  let s := run history initial_state in
  is_Some (participantsOf room s !! sid) → (sid, room) ∈ subscriptions s.
Proof.
  intros s. apply participants_subscribed_run;
    [apply rooms_wf_initial | apply participants_subscribed_initial].
Qed.

(** X7. A connection that is not a participant of a room joins it with full
    identity and then leaves it by the room's name: every room has the
    participants it had before, the leave publishes for the room the active
    count it had before the join, and a subscription that was not there
    before is gone again. *)
Theorem join_then_leave_restores (sid : socket_id) (data : join_data) (v : jsval)
    (s : state) :
  join_identifier data = Some v → invalid_roomId (to_String v) = false →
  full_identity data = true →
  participantsOf (to_String v) s !! sid = None →
  let roomId := to_String v in
  let s1 := final_state (join_room sid data) s in
  let s2 := final_state (leave_room sid (VStr roomId)) s1 in
  (∀ room, participantsOf room s2 = participantsOf room s)
  ∧ outputs (leave_room sid (VStr roomId)) s1
    = [Emit (ToRoom roomId) (active_student_count roomId (activeCount roomId s))]
  ∧ ((sid, roomId) ∉ subscriptions s → subscriptions s2 = subscriptions s).
Proof.
  intros Hid Hinv Hfull Hnew roomId s1 s2.
  assert (jm_get roomId (roomParticipants s1)
          = Some (<[sid := join_participant data]> (participantsOf roomId s))) as Hg.
  { subst s1. unfold final_state. rewrite (join_room_full _ _ _ _ Hid Hinv Hfull).
    simpl. apply jm_get_set_eq. }
  assert (delete sid (<[sid := join_participant data]> (participantsOf roomId s))
          = participantsOf roomId s) as Hdel.
  { rewrite delete_insert_eq. by apply delete_id. }
  subst s2. unfold final_state, outputs.
  rewrite (leave_room_present _ _ _ _ Hg), Hdel. simpl. split_and!.
  - intros room. unfold participantsOf at 1. simpl.
    destruct (decide (room = roomId)) as [->|Hne].
    + by rewrite jm_get_set_eq.
    + rewrite jm_get_set_ne by done. fold (participantsOf room s1). subst s1.
      rewrite (participantsOf_join_full _ _ _ _ _ Hid Hinv Hfull).
      by rewrite decide_False.
  - do 3 f_equal. apply studentCount_spec.
  - intros Hsub. subst s1. unfold final_state.
    rewrite (join_room_full _ _ _ _ Hid Hinv Hfull). simpl.
    apply set_eq. intros x. fold roomId.
    rewrite elem_of_difference, elem_of_union, !elem_of_singleton.
    split; [intros [[->|?] ?]; done|]. intros Hx. split; [by right | congruence].
Qed.

(** X8. [leave_room] does not coerce its room id as [join_room] does: after
    a join whose room id is a number, a leave with the same number finds
    nothing to leave. The state stays as the join left it, nothing is
    emitted, and the connection is still a participant of, and subscribed
    to, the room named by the number's numeral; only a leave with that
    numeral as a string removes it. *)
Theorem numeric_leave_does_not_undo_join (sid : socket_id) (data : join_data)
    (n : Z) (s : state) :
  join_identifier data = Some (VNum n) →
  invalid_roomId (to_String (VNum n)) = false →
  full_identity data = true →
  let s1 := final_state (join_room sid data) s in
  leave_room sid (VNum n) s1 = (Done (), s1, [])
  ∧ participantsOf (to_String (VNum n)) s1 !! sid = Some (join_participant data)
  ∧ (sid, to_String (VNum n)) ∈ subscriptions s1
  ∧ participantsOf (to_String (VNum n))
      (final_state (leave_room sid (VStr (to_String (VNum n)))) s1) !! sid = None.
Proof.
  intros Hid Hinv Hfull s1. split_and!.
  - reflexivity.
  - subst s1. rewrite (participantsOf_join_full _ _ _ _ _ Hid Hinv Hfull).
    rewrite decide_True by done. apply lookup_insert_eq.
  - subst s1. unfold final_state. rewrite (join_room_full _ _ _ _ Hid Hinv Hfull).
    simpl. apply elem_of_union. left. by apply elem_of_singleton.
  - assert (is_Some (jm_get (to_String (VNum n)) (roomParticipants s1))) as [ps Hg].
    { subst s1. unfold final_state. rewrite (join_room_full _ _ _ _ Hid Hinv Hfull).
      simpl. rewrite jm_get_set_eq. eauto. }
    unfold final_state. rewrite (leave_room_present _ _ _ _ Hg).
    unfold participantsOf. simpl. rewrite jm_get_set_eq. simpl.
    apply lookup_delete_eq.
Qed.

(** ** Disconnect *)

Lemma jm_delete_idem {K V} `{EqDecision K} (m : jsmap K V) (k : K) :
  jm_delete k (jm_delete k m) = jm_delete k m.
Proof.
  induction m as [|[k0 v0] m IH]; simpl; [done|].
  case_decide; [done|]. simpl. rewrite decide_False by done. by rewrite IH.
Qed.

Lemma remove_everywhere_idem sid rp :
  remove_everywhere sid (remove_everywhere sid rp) = remove_everywhere sid rp.
Proof.
  unfold remove_everywhere. rewrite <- list_fmap_compose.
  apply list_fmap_ext. intros i [room ps] _. simpl.
  f_equal. apply delete_id, lookup_delete_eq.
Qed.

Lemma recounts_removed sid rp : recounts sid (remove_everywhere sid rp) = [].
Proof.
  unfold recounts, remove_everywhere.
  induction rp as [|[room ps] l IH]; [done|].
  csimpl. rewrite decide_False; [exact IH|].
  rewrite lookup_delete_eq. by intros [? ?].
Qed.

Lemma disconnect_twice sid s :
  rooms_wf s →
  disconnect sid (final_state (disconnect sid) s)
  = (Done (), final_state (disconnect sid) s, []).
Proof.
  intros Hwf.
  assert (rooms_wf (final_state (disconnect sid) s)) as Hwf'
    by apply (rooms_wf_handle (on_disconnect sid)), Hwf.
  rewrite (disconnect_run sid (final_state _ _)) by done.
  unfold final_state. rewrite disconnect_run by done. simpl.
  rewrite jm_delete_idem, remove_everywhere_idem, recounts_removed.
  do 3 f_equal. apply set_eq. intros x. rewrite !elem_of_filter. tauto.
Qed.

(** X9. After any history, the disconnect of a connection touches nothing
    of any other connection: their registry entries, their participations
    and their subscriptions are as before; it emits nothing but the recounts
    of the rooms that held the connection; and handling it once more changes
    nothing and emits nothing. *)
Theorem disconnect_isolated_idempotent (history : list input) (sid : socket_id) :
  let s := run history initial_state in
  let s' := final_state (disconnect sid) s in
  (∀ sid', sid' ≠ sid →
     jm_get sid' (connectedUsers s') = jm_get sid' (connectedUsers s)
     ∧ (∀ room, participantsOf room s' !! sid' = participantsOf room s !! sid')
     ∧ (∀ room, (sid', room) ∈ subscriptions s' ↔ (sid', room) ∈ subscriptions s))
  ∧ (∀ o, o ∈ outputs (disconnect sid) s →
       ∃ room count, o = Emit (ToRoom room) (active_student_count room count)
                     ∧ is_Some (participantsOf room s !! sid))
  ∧ disconnect sid s' = (Done (), s', []).
Proof.
  intros s s'.
  assert (rooms_wf s) as Hwf by apply rooms_wf_run, rooms_wf_initial.
  assert (rooms_wf s') as Hwf' by apply (rooms_wf_handle (on_disconnect sid)), Hwf.
  assert (s' = State (jm_delete sid (connectedUsers s))
                 (remove_everywhere sid (roomParticipants s))
                 (recentMessages s) (timers s)
                 (filter (λ sr, sr.1 ≠ sid) (subscriptions s))) as Hs'.
  { subst s'. unfold final_state. by rewrite disconnect_run. }
  split_and!.
  - intros sid' Hne. split_and!.
    + rewrite Hs'. simpl. by apply jm_get_delete_ne.
    + intros room. subst s'. rewrite participantsOf_disconnect by done.
      by apply lookup_delete_ne.
    + intros room. rewrite Hs'. simpl. rewrite elem_of_filter. simpl. tauto.
  - intros o Ho. unfold outputs in Ho. rewrite disconnect_run in Ho by done.
    simpl in Ho. apply elem_of_recounts in Ho as (room & ps & Hin & Hs & ->).
    exists room, (studentCount (delete sid ps)). split; [done|].
    unfold participantsOf. by rewrite (jm_elem_get _ _ _ Hwf Hin).
  - by apply disconnect_twice.
Qed.

(** ** A study type that is no string *)

Lemma forEach_throw {K V} (f : V → K → M unit) (h : K * V → list output)
    (pre post : jsmap K V) (e : K * V) (s : state) :
  Forall (λ e, ∀ s, f e.2 e.1 s = (Done (), s, h e)) pre →
  (∀ s, f e.2 e.1 s = (Thrown, s, [])) →
  forEach f (pre ++ e :: post) s = (Thrown, s, pre ≫= h).
Proof.
  unfold forEach. intros Hpre He.
  induction Hpre as [|[k v] pre Hf Hpre IH]; simpl.
  - destruct e as [k v]. simpl in *. by rewrite bind_run, He.
  - rewrite bind_run, Hf. simpl. by rewrite IH.
Qed.

(** X10. A registered study type that is no string (a number, [true]) makes
    [toLowerCase] throw inside the loop of [send_notification]: the handler
    stops there, having asked rows only for the matching connections that
    registered before that entry; no connection registered after it is
    served. When the sender's own study type is such a value, nothing is asked
    at all. *)
Theorem manual_fanout_stops_at_malformed_entry (sid : socket_id)
    (data : notification_request) (c : jsstring)
    (pre post : jsmap socket_id user_data) (k : socket_id) (u : user_data) (s : state) :
  connectedUsers s = pre ++ (k, u) :: post →
  Forall (λ e, is_Some (cohort (u_studyType e.2))) pre →
  cohort (u_studyType u) = None →
  (cohort (sender_studyType sid s) = Some c →
     send_notification sid data s
     = (Thrown, s, pre ≫= select c (λ u, u_id u ≠ nr_professor_id data) (manual_request data))
     ∧ requests (outputs (send_notification sid data) s)
       = request_of <$> filter (λ e, cohort (u_studyType e.2) = Some c
                                     ∧ u_id e.2 ≠ nr_professor_id data) pre)
  ∧ (cohort (sender_studyType sid s) = None →
     send_notification sid data s = (Thrown, s, [])).
Proof.
  intros Hcu Hpre Hu. split.
  - intros Hc.
    assert (send_notification sid data s
            = (Thrown, s, pre ≫= select c (λ u, u_id u ≠ nr_professor_id data)
                                   (manual_request data))) as Hrun.
    { unfold send_notification. rewrite bind_get_state.
      fold (sender_studyType sid s). rewrite normalized_studyType_cohort, Hc.
      unfold from_option. rewrite bind_ret, Hcu. apply forEach_throw.
      - eapply Forall_impl; [exact Hpre|]. intros e He s'.
        by rewrite <- (select_run c _ (manual_request data) e s' He).
      - intros s'. simpl. rewrite normalized_studyType_cohort, Hu. apply bind_throw. }
    split; [done|]. unfold outputs. rewrite Hrun. simpl.
    apply requests_select, manual_request_requests.
  - intros Hc. unfold send_notification. rewrite bind_get_state.
    fold (sender_studyType sid s). rewrite normalized_studyType_cohort, Hc.
    apply bind_throw.
Qed.

(** ** The pin route after the update *)

Lemma quiet_pin_notify_rows message body :
  quiet is_notification_row (pin_notify message body).
Proof.
  unfold pin_notify, db_run. apply quiet_bind; [apply quiet_get_state|]. intros s.
  apply quiet_foldM. intros notified userData socketId.
  apply quiet_bind; [apply quiet_normalized_studyType|]. intros userStudyType.
  apply quiet_bind; [apply quiet_normalized_studyType|]. intros targetStudy.
  destruct (_ && _); [|apply quiet_ret].
  apply quiet_bind; [|intros; apply quiet_ret]. by apply quiet_tell.
Qed.

Lemma pin_notificationBody_None message :
  pin_notificationBody message = None
  ↔ r_content message = VNull ∨ r_content message = VUndefined.
Proof.
  unfold pin_notificationBody, messagePreview.
  destruct (r_content message); simpl; split; try done; try tauto;
    by intros [|].
Qed.

(** X11. What the pin route does once the update has succeeded. Unpinning
    emits [message_pin_updated] to the message's room and nothing else: no
    row, no notification, nothing is retracted. Pinning a message whose
    stored content is [NULL] throws when the preview is made, before the
    loop: no row, no system message and no [message_pin_updated]. Pinning a
    message that has a content, in a registry of string study types, asks
    for the notification rows, then for one system message in the room, sent
    by the system sender, with the pinned content and the numeral of the
    pinned id as its file path, and then emits [message_pin_updated],
    whatever the database later answers. Whenever the callback throws, only
    notification rows have been asked: no system message and no
    [message_pin_updated] follow. *)
Theorem pin_route_sequence (id is_pinned : jsval) (message : message_row) (s : state) :
  (truthy is_pinned = false →
     pin_updated id is_pinned message s
     = (Done (), s,
        [Emit (ToRoom (r_room message))
           (message_pin_updated id is_pinned (r_room message))]))
  ∧ (truthy is_pinned = true →
     r_content message = VNull ∨ r_content message = VUndefined →
     pin_updated id is_pinned message s = (Thrown, s, []))
  ∧ (∀ c, truthy is_pinned = true →
       r_content message ≠ VNull → r_content message ≠ VUndefined →
       strings_registry s →
       cohort (js_or (r_roomStudyType message) (r_senderStudyType message)) = Some c →
       ∃ rows, Forall is_notification_row rows
         ∧ pin_updated id is_pinned message s
           = (Done (), s,
              rows ++
              [ DbRun (MessagesRow (r_room message) (VNum (-1)) (VStr systemSenderName)
                         (r_content message) (VStr (js "system"))
                         (VStr (to_String (VNum (r_id message)))))
                      (system_message_saved (r_room message) (r_content message)
                         (to_String (VNum (r_id message))));
                Emit (ToRoom (r_room message))
                  (message_pin_updated id is_pinned (r_room message)) ]))
  ∧ (throws (pin_updated id is_pinned message) s = true →
       Forall is_notification_row (outputs (pin_updated id is_pinned message) s)).
Proof.
  split_and!.
  - intros Hp. unfold pin_updated. rewrite Hp. by rewrite bind_ret.
  - intros Hp Hnull. apply pin_updated_no_body; [done|].
    by apply pin_notificationBody_None.
  - intros c Hp Hn Hu Hreg Hc.
    destruct (pin_notificationBody message) as [body|] eqn:Hbody.
    2:{ apply pin_notificationBody_None in Hbody as [?|?]; done. }
    exists (fold_outputs (pin_seen c) (pin_select c message body) ∅ (connectedUsers s)).
    split.
    + destruct (quiet_pin_notify_rows message body s) as [_ Hall].
      unfold outputs in Hall. by rewrite (pin_notify_run _ _ c) in Hall.
    + unfold pin_updated. rewrite Hp, Hbody. unfold from_option.
      rewrite bind_run, bind_ret, bind_run, (pin_notify_run _ _ c) by done.
      unfold db_run, emit, tell. simpl. by rewrite <- app_assoc.
  - unfold throws, outputs, pin_updated.
    destruct (truthy is_pinned); [|by rewrite bind_ret].
    destruct (pin_notificationBody message) as [body|]; unfold from_option.
    2:{ by rewrite bind_run, bind_throw. }
    destruct (quiet_pin_notify_rows message body s) as [_ Hall]. unfold outputs in Hall.
    rewrite bind_run, bind_ret, bind_run.
    destruct (pin_notify message body s) as [[[seen|] s1] o]; simpl in *; [done|].
    by intros _.
Qed.

(** * Properties of the routes *)

(** ** The active-count route *)

Lemma length_filter_mono {A} (P Q : A → Prop)
    `{∀ x, Decision (P x)} `{∀ x, Decision (Q x)} (l : list A) :
  (∀ x, P x → Q x) → (length (filter P l) ≤ length (filter Q l))%nat.
Proof.
  intros HPQ. induction l as [|x l IH]; [done|].
  rewrite (filter_cons P), (filter_cons Q).
  destruct (decide (P x)) as [HP|HP].
  - rewrite decide_True by auto. simpl. lia.
  - case_decide; simpl; lia.
Qed.

Lemma counted_bool studyType (e : socket_id * user_data) :
  bool_decide (student_user e.2)
  && (bool_decide (studyType = []) || bool_decide (u_studyType e.2 = VStr studyType))
  = bool_decide (counted studyType e).
Proof.
  unfold counted.
  destruct (decide (student_user e.2)) as [Hs|Hs];
    [rewrite (bool_decide_eq_true_2 _ Hs) | rewrite (bool_decide_eq_false_2 _ Hs)];
    simpl; [|by rewrite bool_decide_eq_false_2 by tauto].
  destruct (decide (studyType = [])) as [He|He];
    [rewrite (bool_decide_eq_true_2 _ He) | rewrite (bool_decide_eq_false_2 _ He)];
    simpl; [by rewrite bool_decide_eq_true_2 by tauto|].
  apply bool_decide_ext. tauto.
Qed.

Lemma active_count_fold studyType (l : list (socket_id * user_data)) (acc : nat * list jsval) :
  foldl (λ acc e,
           if bool_decide (student_user e.2)
              && (bool_decide (studyType = [])
                  || bool_decide (u_studyType e.2 = VStr studyType))
           then (S acc.1, acc.2 ++ [u_id e.2]) else acc) acc l
  = ((acc.1 + length (filter (counted studyType) l))%nat,
     acc.2 ++ user_ids (filter (counted studyType) l)).
Proof.
  unfold user_ids. revert acc. induction l as [|e l IH]; intros [n ids]; simpl.
  - by rewrite Nat.add_0_r, app_nil_r.
  - rewrite IH, filter_cons, counted_bool.
    destruct (decide (counted studyType e)) as [Hc|Hc].
    + rewrite bool_decide_eq_true_2 by done. csimpl.
      rewrite <- app_assoc. f_equal. lia.
    + by rewrite bool_decide_eq_false_2.
Qed.

(** X12. The active-count route counts connections, not users: the count is
    the length of the ids returned, one id per connection of role student
    whose stored study type is exactly the route's parameter (case included),
    a user on two devices being listed twice. For a parameter that is not
    empty, the connections counted are among those the notifications of that
    cohort select, so the count is at most the number of student connections
    of the cohort. *)
Theorem active_count_counts_connections (studyType : jsstring) (s : state) :
  (active_count_route studyType s).1 = length (active_count_route studyType s).2
  ∧ (active_count_route studyType s).2
    = user_ids (filter (counted studyType) (connectedUsers s))
  ∧ (studyType ≠ [] →
     ((active_count_route studyType s).1
      ≤ length (audience (lower studyType) student_user s))%nat).
Proof.
  unfold active_count_route. rewrite active_count_fold. simpl.
  unfold user_ids. split_and!.
  - by rewrite length_fmap.
  - done.
  - intros Hne. unfold audience. apply length_filter_mono.
    intros e [Hs [He|Hu]]; [done|]. split; [|done].
    rewrite Hu. unfold cohort, js_or. simpl. by rewrite bool_decide_eq_false_2.
Qed.

(** ** The cohort broadcasts of the routes *)

Lemma collect_sockets_filter (test : user_data → option bool)
    (P : socket_id * user_data → Prop) `{∀ e, Decision (P e)}
    (l : list (socket_id * user_data)) :
  Forall (λ e, test e.2 = Some (bool_decide (P e))) l →
  collect_sockets test l = Some (filter P l).*1.
Proof.
  induction 1 as [|[k u] l He Hl IH]; [done|].
  cbn [collect_sockets]. cbn [snd] in He. rewrite He, IH.
  destruct (decide (P (k, u))) as [HP|HP].
  - rewrite bool_decide_eq_true_2 by done. by rewrite filter_cons_True.
  - rewrite bool_decide_eq_false_2 by done. by rewrite filter_cons_False.
Qed.

Lemma toLowerCase_opt_cohort v :
  toLowerCase_opt (js_or v (VStr (js "morning"))) = cohort v.
Proof. unfold cohort, toLowerCase_opt. by destruct (js_or v _). Qed.

(** X13. After any history in which the registered study types are
    strings, the [room_created] broadcast of a new room reaches exactly the
    connections that the notification bursts select for the room's cohort
    (the study type compared without case, "morning" when absent), in the
    order of the registry, after the response: the loop's own default, the
    empty string, never applies, because registration leaves no study type
    falsy. A requester who is no representative gets 403 and nothing is
    stored or emitted; a failed insert gives 500 and no event. *)
Theorem room_created_reaches_cohort (history : list input)
    (name icon description created_by role studyType : jsval) (c : jsstring)
    (inserted : db_result) :
  let s := run history initial_state in
  strings_registry s → cohort studyType = Some c →
  room_created_targets studyType s = Some (audience c (λ _, True) s).*1
  ∧ (role ≠ VStr (js "representative") →
     post_rooms_route name icon description created_by role studyType inserted s
     = (Done (), [Respond 403]))
  ∧ (role = VStr (js "representative") →
     match inserted with
     | DbError =>
         ∃ q, post_rooms_route name icon description created_by role studyType inserted s
              = (Done (), [RouteDb q; Respond 500])
     | DbOk lastID =>
         ∃ q room,
           post_rooms_route name icon description created_by role studyType inserted s
           = (Done (),
              [RouteDb q; Respond 200]
              ++ ((λ socketId, RouteEmit (ToRoom socketId) (room_created room))
                  <$> (audience c (λ _, True) s).*1))
           ∧ rp_id room = lastID
           ∧ rp_studyType room = js_or studyType (VStr (js "morning"))
     end).
Proof.
  intros s Hreg Hc.
  assert (room_created_targets studyType s = Some (audience c (λ _, True) s).*1) as Ht.
  { unfold room_created_targets. rewrite toLowerCase_opt_cohort, Hc. simpl.
    apply collect_sockets_filter.
    destruct (registry_wf_run history initial_state registry_wf_initial) as [_ Htruthy].
    fold s in Htruthy. unfold strings_registry in Hreg.
    apply Forall_forall. intros e He.
    pose proof (proj1 (Forall_forall _ _) Htruthy _ He) as Ht. simpl in Ht.
    destruct (proj1 (Forall_forall _ _) Hreg _ He) as [c' Hc'].
    assert (js_or (u_studyType e.2) (VStr []) = js_or (u_studyType e.2) (VStr (js "morning")))
      as -> by (unfold js_or; by rewrite Ht).
    rewrite toLowerCase_opt_cohort, Hc'. simpl. f_equal.
    apply bool_decide_ext. split; [by intros -> | by intros [[= ->] _]]. }
  split_and!; [done | |].
  - intros Hrole. unfold post_rooms_route. by rewrite bool_decide_eq_true_2.
  - intros ->. unfold post_rooms_route.
    rewrite bool_decide_eq_false_2 by (by intros ?). destruct inserted as [|lastID].
    + by eexists.
    + rewrite Ht. by eexists _, _.
Qed.

Lemma bind_lookup_registry {B} (cu : jsmap socket_id user_data)
    (f : socket_id * user_data → B) (l : list (socket_id * user_data)) :
  Forall (λ e, jm_get e.1 cu = Some e.2) l →
  (socketId ← l.*1;
   match jm_get socketId cu with
   | Some userData => [f (socketId, userData)]
   | None => []
   end) = f <$> l.
Proof.
  induction 1 as [|[k u] l He Hl IH]; [done|].
  csimpl in *. by rewrite He, IH.
Qed.

(** X14. After any history in which the registered study types are
    strings, a new story is emitted to every connection of the story's cohort
    and then one notification row is asked for each of those connections,
    under that connection's own user id, in the order of the registry, before
    the response: the author is not left out, and a user on two devices gets
    two rows. The closure of a row emits the notification to that row's
    connection when the row is stored, and nothing when it is not. *)
Theorem story_reaches_cohort (history : list input) (story : story_row) (c : jsstring) :
  let s := run history initial_state in
  strings_registry s → cohort (st_studyType story) = Some c →
  story_created_route story s
  = (Done (),
     ((λ e, RouteEmit (ToRoom e.1) (new_story story)) <$> audience c (λ _, True) s)
     ++ (story_request story <$> audience c (λ _, True) s)
     ++ [Respond 200])
  ∧ ∀ (socketId : socket_id) notificationId,
      story_notification_saved story socketId (DbOk notificationId)
      = [RouteEmit (ToRoom socketId)
           (story_notification notificationId (story_notificationTitle story)
              (story_notificationBody story) (st_id story))]
      ∧ story_notification_saved story socketId DbError = [].
Proof.
  intros s Hreg Hc. split; [|done].
  assert (story_targets story s = Some (audience c (λ _, True) s).*1) as Ht.
  { unfold story_targets. apply collect_sockets_filter.
    eapply Forall_impl; [exact Hreg|]. intros e [c' Hc'].
    rewrite !toLowerCase_opt_cohort, Hc', Hc. simpl. f_equal.
    apply bool_decide_ext. split; [by intros -> | by intros [[= ->] _]]. }
  unfold story_created_route. rewrite Ht. do 2 f_equal.
  - by rewrite <- list_fmap_compose.
  - f_equal. apply bind_lookup_registry.
    destruct (registry_wf_run history initial_state registry_wf_initial) as [Hnd _].
    fold s in Hnd. apply Forall_forall. intros [k u] Hin. simpl.
    apply jm_elem_get; [done|]. unfold audience in Hin.
    by apply list_elem_of_filter in Hin as [_ Hin].
Qed.

(** ** The delete routes *)

Lemma unlink_file_no_response file_path unlinked :
  unlink_file file_path = Some unlinked →
  Forall (λ o, ∃ p, o = Unlink p) unlinked.
Proof.
  unfold unlink_file. destruct (truthy file_path); [|by intros [= <-]].
  destruct file_path; try done. intros [= <-]. repeat constructor. by eexists.
Qed.

Lemma filter_none {A} (P : A → Prop) `{∀ x, Decision (P x)} (l : list A) :
  Forall (λ x, ¬ P x) l → filter P l = [].
Proof.
  induction 1 as [|x l Hx Hl IH]; [done|]. by rewrite filter_cons_False.
Qed.

(** X15. The single-message delete route answers exactly once on every
    path that does not throw, and not at all when it throws. It asks for the
    [DELETE] only when the row was found and the requester is a
    representative or is, under strict equality, the stored sender; it emits
    [message_deleted], to the room of the stored row, only when in addition
    the [DELETE] succeeded. *)
Theorem delete_message_authorised (id : jsstring) (user_id role : jsval)
    (found : fetched stored_message) (deleted : bool) :
  let r := delete_message_route id user_id role found deleted in
  responses r.2 = (match r.1 with Done _ => 1 | Thrown => 0 end)%nat
  ∧ (RouteDb (DeleteMessage id) ∈ r.2 ↔
     ∃ message, found = Fetched message
       ∧ (role = VStr (js "representative") ∨ sto_sender_id message = user_id)
       ∧ r.1 = Done ())
  ∧ ∀ room, RouteEmit (ToRoom room) (message_deleted id) ∈ r.2 ↔
      RouteDb (DeleteMessage id) ∈ r.2 ∧ deleted = true
      ∧ ∃ message, found = Fetched message ∧ sto_room message = room.
Proof.
  assert (∀ l q, Forall (λ o, ∃ p, o = Unlink p) l → RouteDb q ∉ l) as Hq.
  { intros l q Hl Hin. eapply Forall_forall in Hl as [p Hp]; [|exact Hin]. done. }
  assert (∀ l to e, Forall (λ o, ∃ p, o = Unlink p) l → RouteEmit to e ∉ l) as He.
  { intros l to e Hl Hin. eapply Forall_forall in Hl as [p Hp]; [|exact Hin]. done. }
  assert (∀ l, Forall (λ o, ∃ p, o = Unlink p) l → filter is_respond l = []) as Hr.
  { intros l Hl. apply filter_none. eapply Forall_impl; [exact Hl|].
    intros o [p ->] []. }
  unfold delete_message_route. destruct found as [| |message]; simpl.
  - split; [done|]. split.
    + split; [by intros ?%list_elem_of_singleton | by intros (? & ? & _)].
    + intros room. split; [by intros ?%list_elem_of_singleton | by intros (_ & _ & ? & ? & _)].
  - split; [done|]. split.
    + split; [by intros ?%list_elem_of_singleton | by intros (? & ? & _)].
    + intros room. split; [by intros ?%list_elem_of_singleton | by intros (_ & _ & ? & ? & _)].
  - destruct (decide (role = VStr (js "representative"))) as [Hrole|Hrole];
      destruct (decide (sto_sender_id message = user_id)) as [Hsender|Hsender];
      rewrite ?(bool_decide_eq_false_2 (role ≠ _)) by (by intros ?);
      rewrite ?(bool_decide_eq_true_2 (role ≠ _)) by done;
      rewrite ?(bool_decide_eq_false_2 (sto_sender_id message ≠ _)) by (by intros ?);
      rewrite ?(bool_decide_eq_true_2 (sto_sender_id message ≠ _)) by done;
      cbn [andb].
    4:{ simpl. split; [done|]. split.
        - split; [by intros ?%list_elem_of_singleton|].
          intros (m & [= <-] & [?|?] & _); done.
        - intros room. split; [by intros ?%list_elem_of_singleton|].
          by intros (?%list_elem_of_singleton & _). }
    all: destruct (unlink_file (sto_file_path message)) as [unlinked|] eqn:Hu; simpl.
    all: try (split; [done|]; split;
              [ split; [by intros ?%elem_of_nil | by intros (? & _ & _ & ?)]
              | intros room; split; [by intros ?%elem_of_nil | by intros (?%elem_of_nil & _)] ]).
    all: apply unlink_file_no_response in Hu.
    all: unfold responses; rewrite filter_app, (Hr _ Hu).
    all: split; [by destruct deleted|]; split.
    all: try (split; [intros _; exists message; by eauto
                     | intros _; apply elem_of_app; right; by left]).
    all: intros room; rewrite !elem_of_app, !elem_of_cons.
    all: destruct deleted; rewrite ?elem_of_cons, ?list_elem_of_singleton; split.
    all: try (by intros (_ & [=] & _)).
    all: try (intros (_ & _ & m & [= <-] & <-); right; right; by left).
    all: intros [Hin|[?|Hin]]; [by apply He in Hin|done|].
    all: repeat match goal with
           | H : _ ∨ _ |- _ => destruct H
           | H : _ ∈ [] |- _ => by apply elem_of_nil in H
           end; try done.
    all: simplify_eq; split; [by right; left|]; split; [done|]; by exists message.
Qed.

Lemma set_values_elem {A} `{EqDecision A} (seen l : list A) (x : A) :
  x ∈ set_values seen l ↔ x ∈ l ∧ x ∉ seen.
Proof.
  revert seen. induction l as [|y l IH]; intros seen; cbn [set_values].
  - rewrite elem_of_nil. split; [done|by intros [? _]].
  - destruct (decide (y ∈ seen)) as [Hy|Hy].
    + rewrite IH, elem_of_cons. split; [by intros [? ?]; auto|].
      intros [[->|?] ?]; done.
    + rewrite !elem_of_cons, IH, elem_of_cons. split.
      * intros [->|[? ?]]; [by auto|]. split; [by right|]. by intros ?; auto.
      * intros [[->|?] ?]; [by left|]. destruct (decide (x = y)) as [->|?]; [by left|].
        right. split; [done|]. by intros [?|?].
Qed.

Lemma set_values_NoDup {A} `{EqDecision A} (seen l : list A) :
  NoDup (set_values seen l).
Proof.
  revert seen. induction l as [|y l IH]; intros seen; cbn [set_values].
  - constructor.
  - destruct (decide (y ∈ seen)); [by apply IH|]. constructor; [|by apply IH].
    rewrite set_values_elem. intros [_ Hy]. apply Hy. by left.
Qed.

Lemma deleteFiles_unlinks (rows : list (jsstring * jsval)) :
  Forall (λ o, ∃ p, o = Unlink p) (deleteFiles rows).2.
Proof.
  induction rows as [|row rows IH]; cbn [deleteFiles]; [constructor|].
  destruct (unlink_file row.2) as [unlinked|] eqn:Hu; [|constructor].
  apply unlink_file_no_response in Hu.
  destruct (deleteFiles rows) as [o outs]. by apply Forall_app.
Qed.

Lemma length_filter_eq_NoDup {A} `{EqDecision A} (l : list A) (a : A) :
  NoDup l →
  length (filter (λ x, x = a) l) = if bool_decide (a ∈ l) then 1%nat else 0%nat.
Proof.
  induction 1 as [|x l Hx Hl IH]; [done|].
  destruct (decide (x = a)) as [->|Hne].
  - rewrite filter_cons_True by done. rewrite bool_decide_eq_true_2 by (by left).
    rewrite bool_decide_eq_false_2 in IH by done. simpl. by rewrite IH.
  - rewrite filter_cons_False by done. rewrite IH.
    assert (bool_decide (a ∈ x :: l) = bool_decide (a ∈ l)) as ->; [|done].
    apply bool_decide_ext. rewrite elem_of_cons. split; [|by auto]. by intros [->|?].
Qed.

(** X16. A bulk delete of a non-empty array of ids that all have a
    [toString], whose selected rows carry usable file paths and whose
    [DELETE] succeeds, answers once and emits [messages_bulk_deleted] exactly
    once to every room among the selected rows, however many rows the room
    has, and to no other room; every such event carries all the requested
    ids as strings, also those of rows the requester could not delete. *)
Theorem bulk_delete_one_event_per_room (ids : list jsval) (role user_id : jsval)
    (rows : list (jsstring * jsval)) (strings : list jsstring) :
  ids ≠ [] → (deleteFiles rows).1 = Done () →
  mapM toString_method ids = Some strings →
  let r := bulk_delete_route (Some ids) role user_id (Some rows) true in
  r.1 = Done ()
  ∧ responses r.2 = 1%nat
  ∧ (∀ room, length (filter (is_bulk_event_to room) r.2)
             = if bool_decide (room ∈ rows.*1) then 1%nat else 0%nat)
  ∧ ∀ room ids', RouteEmit (ToRoom room) (messages_bulk_deleted ids') ∈ r.2 →
      ids' = strings.
Proof.
  intros Hids Hfiles Hstr. unfold bulk_delete_route.
  destruct ids as [|id0 ids0]; [done|]. set (ids := id0 :: ids0) in *.
  pose proof (deleteFiles_unlinks rows) as Hu.
  destruct (deleteFiles rows) as [[[]|] unlinked]; [|done]. cbn [fst snd] in *.
  set (sender := if bool_decide (role = VStr (js "representative")) then None
                 else Some user_id).
  set (asked := [RouteDb (SelectRooms ids sender)] ++ unlinked
                ++ [RouteDb (DeleteMessages ids sender)]).
  assert (filter is_respond asked = []) as Hresp.
  { apply filter_none. unfold asked. repeat apply Forall_app_2.
    - by repeat constructor; intros [].
    - eapply Forall_impl; [exact Hu|]. intros o [p ->] [].
    - by repeat constructor; intros []. }
  assert (∀ room, filter (is_bulk_event_to room) asked = []) as Hbulk.
  { intros room. apply filter_none. unfold asked. repeat apply Forall_app_2.
    - by repeat constructor; intros [].
    - eapply Forall_impl; [exact Hu|]. intros o [p ->] [].
    - by repeat constructor; intros []. }
  assert (∀ room ids', RouteEmit (ToRoom room) (messages_bulk_deleted ids') ∉ asked)
    as Hnone.
  { intros room ids'. unfold asked. rewrite !elem_of_app, !list_elem_of_singleton.
    intros [?|[Hin|?]]; try done.
    eapply Forall_forall in Hu as [p Hp]; [|exact Hin]. done. }
  pose proof (set_values_NoDup [] rows.*1) as Hnd.
  pose proof (λ room, set_values_elem [] rows.*1 room) as Hel.
  destruct (set_values [] rows.*1) as [|room0 rooms0] eqn:Hrooms.
  - cbn [fst snd]. split; [done|]. split.
    { unfold responses. by rewrite filter_app, Hresp. }
    split.
    + intros room. rewrite filter_app, Hbulk. simpl.
      rewrite bool_decide_eq_false_2; [done|].
      intros Hin. apply (elem_of_nil room). apply Hel. split; [done|].
      by intros ?%elem_of_nil.
    + intros room ids'. rewrite elem_of_app, list_elem_of_singleton.
      intros [Hin|?]; [by apply Hnone in Hin|done].
  - rewrite Hstr. cbn [fst snd]. rewrite <- Hrooms in *. clear Hrooms.
    set (rooms := set_values [] rows.*1) in *.
    set (ev := λ room, RouteEmit (ToRoom room) (messages_bulk_deleted strings)).
    split; [done|]. split.
    { unfold responses. rewrite !filter_app, Hresp.
      rewrite (filter_none is_respond (ev <$> rooms)); [done|].
      apply Forall_fmap, Forall_true. by intros room []. }
    split.
    + intros room. rewrite !filter_app, Hbulk, !length_app.
      replace (filter (is_bulk_event_to room) [Respond 200]) with (@nil route_output)
        by done.
      simpl. rewrite Nat.add_0_r.
      assert (filter (is_bulk_event_to room) (ev <$> rooms)
              = ev <$> filter (λ x, x = room) rooms) as ->.
      { clear. induction rooms as [|x l IH]; [done|]. csimpl.
        destruct (decide (x = room)) as [->|Hne].
        - rewrite !filter_cons_True by done. csimpl. by rewrite IH.
        - rewrite !filter_cons_False by done. exact IH. }
      rewrite length_fmap, length_filter_eq_NoDup by done.
      assert (bool_decide (room ∈ rooms) = bool_decide (room ∈ rows.*1)) as ->; [|done].
      apply bool_decide_ext. rewrite Hel. split; [by intros [? _]|].
      intros ?. split; [done|]. by intros ?%elem_of_nil.
    + intros room ids'. rewrite !elem_of_app, list_elem_of_singleton.
      intros [Hin|[Hin|?]]; [by apply Hnone in Hin| |done].
      apply list_elem_of_fmap in Hin as (x & [= _ ->] & _). done.
Qed.

(** X17. When one of the requested ids is [undefined] or [null] and the
    select finds a row, the bulk delete has already unlinked the files and
    asked for the [DELETE] when it throws: the rows go, and there is neither
    an event nor a response. *)
Theorem bulk_delete_bad_id_is_silent (ids : list jsval) (role user_id : jsval)
    (rows : list (jsstring * jsval)) :
  mapM toString_method ids = None → rows ≠ [] → (deleteFiles rows).1 = Done () →
  let r := bulk_delete_route (Some ids) role user_id (Some rows) true in
  r.1 = Thrown
  ∧ (∃ sender, RouteDb (DeleteMessages ids sender) ∈ r.2)
  ∧ Forall (λ o, match o with RouteEmit _ _ | Respond _ => False | _ => True end) r.2.
Proof.
  intros Hstr Hrows Hfiles. unfold bulk_delete_route.
  destruct ids as [|id0 ids0]; [done|]. set (ids := id0 :: ids0) in *.
  pose proof (deleteFiles_unlinks rows) as Hu.
  destruct (deleteFiles rows) as [[[]|] unlinked]; [|done]. cbn [fst snd] in *.
  destruct rows as [|[room0 path0] rows0]; [done|].
  cbn [set_values fmap list_fmap fst]. rewrite decide_False by (by intros ?%elem_of_nil).
  rewrite Hstr. cbn [fst snd]. split; [done|]. split.
  - eexists. rewrite !elem_of_app, !list_elem_of_singleton. right. by right.
  - repeat apply Forall_app_2; try by repeat constructor.
    eapply Forall_impl; [exact Hu|]. by intros o [p ->].
Qed.

(** ** Lecture updates *)

Lemma split_on_two (sep : N) (s : jsstring) (a b : jsstring) (rest : list jsstring) :
  split_on sep s = a :: b :: rest → truthy (VStr s) = true.
Proof. by destruct s. Qed.

Lemma rem_12_clock (h : Z) :
  0 ≤ h < 24 → Z.rem h 12 = if bool_decide (12 ≤ h) then h - 12 else h.
Proof.
  intros Hh. destruct (decide (12 ≤ h)) as [Hpm|Ham].
  - rewrite bool_decide_eq_true_2 by done.
    rewrite Z.rem_mod_nonneg by lia. symmetry. apply (Z.mod_unique h 12 1); lia.
  - rewrite bool_decide_eq_false_2 by done. apply Z.rem_small. lia.
Qed.

(** X18. On a time string whose first part [parseInt] reads as an hour of
    the day, [convertTo12Hour] gives the hour on the twelve-hour clock, the
    second part unchanged, and the marker of the half of the day: the hour
    shown is between 1 and 12, the marker is the evening one exactly from
    noon on, and the two determine the hour read. Parts after the second,
    the seconds, are dropped. *)
Theorem convertTo12Hour_clock (parseInt : jsstring → option Z)
    (s hh mm : jsstring) (rest : list jsstring) (h : Z) :
  split_on 58 s = hh :: mm :: rest → parseInt hh = Some h → 0 ≤ h < 24 →
  ∃ h12 marker,
    convertTo12Hour parseInt (VStr s)
    = Some (VStr (to_String (VNum h12) ++ js ":" ++ mm ++ js " " ++ marker))
    ∧ 1 ≤ h12 ≤ 12
    ∧ marker = (if bool_decide (12 ≤ h) then [1605]%N else [1589]%N)
    ∧ h = Z.rem h12 12 + (if bool_decide (12 ≤ h) then 12 else 0).
Proof.
  intros Hsplit Hparse Hh. exists (hour12 (Some h)), (ampm (Some h)).
  unfold convertTo12Hour. rewrite (split_on_two _ _ _ _ _ Hsplit), Hsplit.
  change ((hh :: mm :: rest) !! 0%nat) with (Some hh).
  change ((hh :: mm :: rest) !! 1%nat) with (Some mm).
  cbn [negb default id]. rewrite Hparse.
  split; [done|]. unfold hour12, ampm. rewrite rem_12_clock by done.
  destruct (decide (12 ≤ h)) as [Hpm|Ham].
  - rewrite !bool_decide_eq_true_2 by done.
    rewrite (proj2 (Z.leb_le 12 h)) by done.
    destruct (decide (h = 12)) as [->|Hne]; [done|].
    rewrite (proj2 (Z.eqb_neq (h - 12) 0)) by lia.
    split; [lia|]. split; [done|]. rewrite Z.rem_small by lia. lia.
  - rewrite !bool_decide_eq_false_2 by done.
    rewrite (proj2 (Z.leb_gt 12 h)) by lia.
    destruct (decide (h = 0)) as [->|Hne]; [done|].
    rewrite (proj2 (Z.eqb_neq h 0)) by lia.
    split; [lia|]. split; [done|]. rewrite Z.rem_small by lia. lia.
Qed.

(** X19. A duration under an hour is shown in minutes alone, and so is
    every negative one: when the new end is before the new start the text is
    the remainder [durationMinutes % 60] with its sign, the hours being
    dropped, so that a lecture ending ninety minutes before it starts is
    announced as lasting minus thirty minutes. *)
Theorem durationText_under_an_hour (d : Z) :
  d < 60 →
  durationText (Some d)
  = to_String (VNum (Z.rem d 60)) ++ [32; 1583; 1602; 1610; 1602; 1577]%N.
Proof.
  intros Hd. unfold durationText.
  assert (d `div` 60 ≤ 0) as Hh.
  { apply Z.lt_succ_r. apply Z.div_lt_upper_bound; lia. }
  by rewrite (proj2 (Z.ltb_ge 0 (d `div` 60))) by done.
Qed.

Section LectureRoute.
Variable parseInt : jsstring → option Z.
Variable Number_ : jsstring → option Z.

(** X20. The route finds no change exactly when the stored date, start,
    end and location are strictly equal to the requested ones; title,
    description and professor are not looked at. With no change it emits
    and stores nothing, in every state. *)
Theorem lecture_unchanged_is_silent (id : jsval) (old : lecture_times)
    (lecture_studyType created_by title date time_start time_end room_name : jsval) :
  (lecture_changes parseInt Number_ old date time_start time_end room_name = Some []
   ↔ l_date old = date ∧ l_time_start old = time_start
     ∧ l_time_end old = time_end ∧ l_location old = room_name)
  ∧ (lecture_changes parseInt Number_ old date time_start time_end room_name = Some [] →
     ∀ s, lecture_route_notify parseInt Number_ id old lecture_studyType created_by
            title date time_start time_end room_name s
          = (Done (), s, [])).
Proof.
  split.
  - unfold lecture_changes. split.
    + destruct (decide (l_date old = date)) as [Hd|Hd].
      2:{ rewrite (bool_decide_eq_true_2 (l_date old ≠ date)) by done.
          destruct (if _ || _ then _ else _); done. }
      destruct (decide (l_time_start old = time_start)) as [Hs|Hs];
        destruct (decide (l_time_end old = time_end)) as [He|He];
        rewrite ?(bool_decide_eq_false_2 (l_time_start old ≠ _)) by (by intros ?);
        rewrite ?(bool_decide_eq_true_2 (l_time_start old ≠ _)) by done;
        rewrite ?(bool_decide_eq_false_2 (l_time_end old ≠ _)) by (by intros ?);
        rewrite ?(bool_decide_eq_true_2 (l_time_end old ≠ _)) by done;
        cbn [orb].
      2-4: destruct (convertTo12Hour parseInt time_start); [|done];
           destruct (convertTo12Hour parseInt time_end); [|done];
           destruct (minutes_of_day Number_ time_start); [|done];
           destruct (minutes_of_day Number_ time_end); [|done];
           cbn [mbind option_bind]; intros [= Hnil];
           by apply app_eq_nil in Hnil as [_ Hnil].
      destruct (decide (l_location old = room_name)) as [Hl|Hl]; [done|].
      rewrite (bool_decide_eq_true_2 (l_location old ≠ room_name)) by done.
      cbn [mbind option_bind]. intros Hnil. exfalso. revert Hnil.
      by destruct (bool_decide (l_date old ≠ date)).
    + intros (<- & <- & <- & <-).
      by rewrite !bool_decide_eq_false_2 by (by intros ?).
  - intros Hc s. unfold lecture_route_notify. by rewrite Hc.
Qed.

End LectureRoute.

End Server.

(** * Examples

    The statements above at concrete inputs, with the two built-ins as they
    are on ASCII strings and on small integers. *)

#[local] Existing Instance example_builtins.

Lemma duplicate_send_rejected_witness :
  recentMessages s_sent_t1 !! VStr (js "t1") = Some 1000
  ∧ send_message 3000 (md_example (VStr (js "t1"))) s_sent_t1
    = (Done (), s_sent_t1, []).
Proof.
  destruct (duplicate_send_rejected initial_state 1000 (md_example (VStr (js "t1"))))
    as [Hrec Hdup].
  - reflexivity.
  - eexists. reflexivity.
  - split; [exact Hrec|].
    apply (Hdup s_sent_t1 3000 (md_example (VStr (js "t1"))));
      [reflexivity | exact Hrec | lia].
Defined.

Lemma join_room_identifier_witness :
  final_state
    (join_room (js "A") (JoinObj VUndefined VUndefined (VNum 1) (VStr (js "ann"))
                           (VStr (js "student")))) initial_state
  = initial_state.
Proof.
  apply (join_room_identifier (js "A")
           (JoinObj VUndefined VUndefined (VNum 1) (VStr (js "ann"))
              (VStr (js "student"))) initial_state).
  vm_compute. tauto.
Defined.

Example join_bare_number :
  join_room (js "A") (JoinPrim (VNum 5)) initial_state
  = (Done (), set_subscriptions (λ _, {[ (js "A", js "5") ]}) initial_state, []).
Proof. vm_compute. reflexivity. Qed.

Example join_null_payload_throws :
  throws (join_room (js "A") (JoinPrim VNull)) initial_state = true.
Proof. reflexivity. Qed.

Example join_zero_roomId_dropped :
  join_room (js "A") (JoinObj (VNum 0) VUndefined (VNum 1) (VStr (js "ann"))
                        (VStr (js "student"))) initial_state
  = (Done (), initial_state, []).
Proof. reflexivity. Qed.

Lemma repeated_join_idempotent_witness :
  participantsOf (js "5")
    (final_state (join_room (js "A") (join_ann "representative"))
       (final_state (join_room (js "A") (join_ann "student")) initial_state))
  !! js "A" = Some (join_participant (join_ann "representative")).
Proof.
  change (js "5") with (to_String (VNum 5)).
  apply (proj2 (proj2 (repeated_join_idempotent (js "A") (join_ann "student")
                         initial_state))
           (join_ann "representative") (VNum 5));
    [reflexivity | reflexivity | reflexivity | reflexivity |].
  exists (VNum 5). split; reflexivity.
Defined.

Lemma active_count_published_witness :
  let history := [on_join_room (js "A") (join_ann "student");
                  on_leave_room (js "A") (VNum 5)] in
  published (trace history initial_state) = [(js "5", 1%nat)]
  ∧ students (currently_joined history (js "5")) = 0%nat
  ∧ participantsOf (js "5") (run history initial_state) !! js "A"
    = Some (join_participant (join_ann "student"))
  ∧ Emit (ToRoom (js "5")) (active_student_count (js "5") 1)
    ∈ outputs (handle (on_leave_room (js "A") (VStr (js "5"))))
              (run history_two_in_room initial_state).
Proof.
  intros history. split; [reflexivity|]. split; [reflexivity|]. split.
  - change (js "5") with (to_String (VNum 5)).
    apply (proj2 (active_count_published [] (on_join_room (js "A") (join_ann "student")))
             (js "A") (join_ann "student") 5); reflexivity.
  - destruct (proj1 (active_count_published history_two_in_room
                       (on_leave_room (js "A") (VStr (js "5")))))
      as (_ & _ & Hchange).
    + apply (bool_decide_unpack (Forall _ _)). vm_compute. exact I.
    + apply (Hchange (js "5")).
      apply (bool_decide_unpack (_ ≠ _)). vm_compute. exact I.
Defined.

Example disconnect_of_two_publishes_one :
  outputs (handle (on_disconnect (js "A"))) (run history_two_in_room initial_state)
  = [Emit (ToRoom (js "5")) (active_student_count (js "5") 1)].
Proof. vm_compute. reflexivity. Qed.

(** C2, as stated, fails: after the disconnect of "B" has been processed,
    room "5" still holds connection "A", which joined without registering
    and is in no registry. *)
Lemma disconnect_leaves_unregistered_participant :
  ¬ consistent (run history_unregistered_joiner initial_state)
  ∧ is_Some (participantsOf (js "5") (run history_unregistered_joiner initial_state)
             !! js "A")
  ∧ jm_get (js "A") (connectedUsers (run history_unregistered_joiner initial_state))
    = None.
Proof.
  split_and!.
  - apply (bool_decide_eq_false_1 (consistent _)). vm_compute. reflexivity.
  - apply (bool_decide_unpack (is_Some _)). vm_compute. exact I.
  - vm_compute. reflexivity.
Qed.

Lemma disconnect_cleanup_witness :
  consistent (final_state (disconnect (js "A")) (run history_two_in_room initial_state)).
Proof.
  apply (disconnect_cleanup history_two_in_room (js "A")).
  apply (bool_decide_unpack (consistent_but _ _)). vm_compute. exact I.
Defined.

Lemma eviction_timer_of_first_acceptance_witness :
  accepted 10500 (md_example (VStr (js "t1")))
    (final_state (run_timers 10500)
       (final_state (send_message 6000 (md_example (VStr (js "t1"))))
          (run [on_send_message 0 (md_example (VStr (js "t1"))); on_timers 6000]
               initial_state))).
Proof.
  apply (eviction_timer_of_first_acceptance initial_state
           (md_example (VStr (js "t1"))) 0 6000 10500);
    [reflexivity | eexists; reflexivity | lia | lia | lia | lia].
Defined.

Lemma pin_notification_body_witness :
  pin_notificationBody exam_message
  = Some ([1605; 1606; 32]%N ++ js "X: Exam moved to Monday")
  ∧ ∃ body,
      pin_notificationBody exam_message = Some body
      ∧ ∃ socketId n,
          run_callback
            (pin_notification_saved (js "B") (pin_notificationTitle exam_message)
               ([1605; 1606; 32]%N ++ js "X: Exam moved to Monday") 41 (js "R1"))
            (DbOk 9) initial_state
          = (Done (), initial_state, [Emit (ToRoom socketId) (new_notification n)])
          ∧ n_body n = VStr body.
Proof.
  split; [reflexivity|].
  destruct (proj2 (pin_notification_body (VStr (js "41")) (VBool true) exam_message
                     s_morning_pair)
              (VNum 2) (pin_notificationTitle exam_message)
              (VStr ([1605; 1606; 32]%N ++ js "X: Exam moved to Monday")) VNull VNull
              (pin_notification_saved (js "B") (pin_notificationTitle exam_message)
                 ([1605; 1606; 32]%N ++ js "X: Exam moved to Monday") 41 (js "R1")))
    as (body & Hbody & _ & Hcb).
  - apply (bool_decide_unpack (_ ∈ _)). vm_compute. exact I.
  - exists body. split; [exact Hbody | apply Hcb].
Defined.

(** The three fan-outs at the input where C4 fails. With one user on two
    connections of the sender's cohort, the manual notification and the
    lecture update ask for two rows for that user, one per connection; the
    pin route asks for one row and notifies the first connection only. *)
Lemma fanout_not_one_row_all_devices :
  ¬ one_row_all_devices
      (audience (js "morning") (λ u, u_id u ≠ VNum 1) s_two_devices)
      (requests (outputs (send_notification (js "P") alert) s_two_devices))
  ∧ ¬ one_row_all_devices
      (audience (js "morning") (λ u, u_id u ≠ VNum 1) s_two_devices)
      (requests (outputs (lecture_update_notify (VNum 3) VUndefined (VNum 1)
                            (js "update") (js "changes")) s_two_devices))
  ∧ ¬ one_row_all_devices
      (audience (js "morning") (λ _, True) s_two_devices)
      (requests (outputs (pin_updated (VStr (js "41")) (VBool true) exam_message)
                   s_two_devices)).
Proof.
  split_and!; apply (bool_decide_eq_false_1 (one_row_all_devices _ _));
    vm_compute; reflexivity.
Qed.

Lemma notification_fanout_witness :
  let aud := audience (js "morning") (λ u, u_id u ≠ VNum 1) s_two_devices in
  let reqs := requests (outputs (send_notification (js "P") alert) s_two_devices) in
  reqs = [(VNum 7, js "D1"); (VNum 7, js "D2")]
  ∧ (2 ≤ rows_for (VNum 7) reqs)%nat
  ∧ ¬ one_row_all_devices aud reqs.
Proof.
  assert (strings_registry s_two_devices) as Hreg.
  { apply (bool_decide_unpack (strings_registry _)). vm_compute. exact I. }
  destruct (notification_fanout s_two_devices Hreg) as (Hmanual & _ & _).
  destruct (Hmanual (js "P") alert (js "morning")) as (Hreqs & _ & Htwo);
    [reflexivity|].
  split; [rewrite Hreqs; reflexivity|].
  apply (Htwo (js "D1", UserData (VNum 7) (VStr (js "dana")) (VStr (js "student"))
                          (VStr (js "Morning")))
              (js "D2", UserData (VNum 7) (VStr (js "dana")) (VStr (js "student"))
                          (VStr (js "morning")))).
  - apply (bool_decide_unpack (_ ∈ _)). vm_compute. exact I.
  - apply (bool_decide_unpack (_ ∈ _)). vm_compute. exact I.
  - discriminate.
  - reflexivity.
Defined.

(** C6 at the failing input. A message sent without a study type and
    stored under id 1 is broadcast with study type "evening", while a user
    registered without a study type is of study type "morning" and is
    selected as cohort "morning"; that selection is blind to case. *)
Theorem message_default_studyType_evening :
  outputs (run_callback (send_message_saved (js "R1") (md_example VUndefined)) (DbOk 1))
          initial_state
  = [ Emit (ToRoom (js "R1"))
        (receive_message (Chat (messageToSend 1 (md_example VUndefined))));
      Emit ToAll
        (dashboard_update (js "R1") (Chat (messageToSend 1 (md_example VUndefined)))) ]
  ∧ m_studyType (messageToSend 1 (md_example VUndefined)) = VStr (js "evening")
  ∧ VStr (js "evening") ≠ VStr (js "morning")
  ∧ jm_get (js "B") (connectedUsers (final_state (register_user (js "B") user_bob)
                                                 initial_state))
    = Some (UserData (VNum 2) (VStr (js "bob")) (VStr (js "student"))
                     (VStr (js "morning")))
  ∧ cohort VUndefined = Some (js "morning")
  ∧ cohort (VStr (js "Evening")) = cohort (VStr (js "evening")).
Proof. split_and!; try reflexivity. discriminate. Qed.

Lemma rejection_window_exact_witness :
  rejected 5999 (md_example (VStr (js "t1"))) s_sent_t1
  ∧ accepted 6000 (md_example (VStr (js "t1"))) s_sent_t1.
Proof.
  destruct (rejection_window_exact s_sent_t1 5999 (md_example (VStr (js "t1"))) 1000)
    as [Hr _]; [reflexivity | reflexivity |].
  destruct (rejection_window_exact s_sent_t1 6000 (md_example (VStr (js "t1"))) 1000)
    as [_ Ha]; [reflexivity | reflexivity |].
  split; [apply Hr; lia | apply Ha; lia].
Defined.

Lemma tokenless_sends_bypass_window_witness :
  run [on_send_message 10 (md_example (VNum 0)); on_send_message 11 (md_example (VStr []))]
      s_sent_t1
  = s_sent_t1.
Proof.
  apply (tokenless_sends_bypass_window
           [on_send_message 10 (md_example (VNum 0));
            on_send_message 11 (md_example (VStr []))] s_sent_t1).
  apply (bool_decide_unpack (Forall tokenless _)). vm_compute. exact I.
Defined.

Lemma records_evicted_after_retention_witness :
  9000 < 6000 + 10000
  ∧ (6000 + 10000, VStr (js "t1"))
    ∈ timers (run ([on_send_message 0 (md_example (VStr (js "t1")));
                    on_send_message 6000 (md_example (VStr (js "t1")))]
                   ++ [on_timers 9000]) initial_state).
Proof.
  apply (records_evicted_after_retention
           [on_send_message 0 (md_example (VStr (js "t1")));
            on_send_message 6000 (md_example (VStr (js "t1")))] 9000
           (VStr (js "t1")) 6000).
  vm_compute. reflexivity.
Defined.

Lemma registry_one_entry_truthy_studyType_witness :
  truthy (VStr (js "Evening")) = true
  ∧ js_or (VStr (js "Evening")) (VStr (js "morning")) = VStr (js "Evening").
Proof.
  apply (proj2 (proj2 (registry_one_entry_truthy_studyType history_reregister))
           (js "A")
           (UserData (VNum 1) (VStr (js "ann")) (VStr (js "student"))
                     (VStr (js "Evening")))).
  vm_compute. reflexivity.
Defined.

Lemma rooms_never_removed_witness :
  jm_has (js "5")
    (roomParticipants
       (run [on_leave_room (js "A") (VStr (js "5")); on_disconnect (js "B")]
            (run history_two_in_room initial_state)))
  = true.
Proof.
  apply (rooms_never_removed
           [on_leave_room (js "A") (VStr (js "5")); on_disconnect (js "B")]
           (run history_two_in_room initial_state)).
  vm_compute. reflexivity.
Defined.

Lemma participants_are_subscribed_witness :
  (js "B", js "5") ∈ subscriptions (run history_two_in_room initial_state).
Proof.
  apply (participants_are_subscribed history_two_in_room (js "5") (js "B")).
  apply (bool_decide_unpack (is_Some _)). vm_compute. exact I.
Defined.

Lemma join_then_leave_restores_witness :
  outputs (leave_room (js "C") (VStr (js "5")))
    (final_state (join_room (js "C")
                    (JoinObj (VStr (js "5")) VUndefined (VNum 3) (VStr (js "cy"))
                             (VStr (js "student"))))
       (run history_two_in_room initial_state))
  = [Emit (ToRoom (js "5"))
       (active_student_count (js "5")
          (activeCount (js "5") (run history_two_in_room initial_state)))].
Proof.
  apply (join_then_leave_restores (js "C")
           (JoinObj (VStr (js "5")) VUndefined (VNum 3) (VStr (js "cy"))
                    (VStr (js "student")))
           (VStr (js "5")) (run history_two_in_room initial_state));
    vm_compute; reflexivity.
Defined.

Lemma numeric_leave_does_not_undo_join_witness :
  participantsOf (js "5") (final_state (join_room (js "A") (join_ann "student")) initial_state)
  !! js "A" = Some (join_participant (join_ann "student")).
Proof.
  change (js "5") with (to_String (VNum 5)).
  apply (numeric_leave_does_not_undo_join (js "A") (join_ann "student") 5 initial_state);
    reflexivity.
Defined.

Lemma manual_fanout_stops_at_malformed_entry_witness :
  requests (outputs (send_notification (js "P") alert) s_malformed)
  = [(VNum 7, js "X")].
Proof.
  destruct (manual_fanout_stops_at_malformed_entry (js "P") alert (js "morning")
              [(js "P", UserData (VNum 1) (VStr (js "prof")) (VStr (js "representative")) (VStr (js "morning")));
               (js "X", UserData (VNum 7) (VStr (js "dana")) (VStr (js "student")) (VStr (js "morning")))]
              [(js "C", UserData (VNum 9) (VStr (js "cy")) (VStr (js "student")) (VStr (js "morning")))]
              (js "B") (UserData (VNum 8) (VStr (js "bo")) (VStr (js "student")) (VNum 5))
              s_malformed) as [Hsome _].
  - vm_compute. reflexivity.
  - apply (bool_decide_unpack (Forall _ _)). vm_compute. exact I.
  - reflexivity.
  - destruct Hsome as [_ ->]; [reflexivity|]. vm_compute. reflexivity.
Defined.

Lemma pin_route_sequence_witness :
  pin_updated (VStr (js "42")) (VBool true) blank_message s_morning_pair
  = (Thrown, s_morning_pair, [])
  ∧ Forall is_notification_row
      (outputs (pin_updated (VStr (js "41")) (VBool true) exam_message) s_malformed)
  ∧ pin_updated (VStr (js "41")) VNull exam_message s_malformed
    = (Done (), s_malformed,
       [Emit (ToRoom (js "R1")) (message_pin_updated (VStr (js "41")) VNull (js "R1"))]).
Proof.
  destruct (pin_route_sequence (VStr (js "42")) (VBool true) blank_message s_morning_pair)
    as (_ & Hblank & _).
  destruct (pin_route_sequence (VStr (js "41")) (VBool true) exam_message s_malformed)
    as (_ & _ & _ & Hthrow).
  destruct (pin_route_sequence (VStr (js "41")) VNull exam_message s_malformed)
    as (Hunpin & _).
  split_and!;
    [ apply Hblank; [reflexivity | by left]
    | apply Hthrow; vm_compute; reflexivity
    | apply Hunpin; reflexivity ].
Defined.

Lemma active_count_counts_connections_witness :
  ((active_count_route (js "morning") s_two_devices).1
   ≤ length (audience (lower (js "morning")) student_user s_two_devices))%nat.
Proof.
  apply (active_count_counts_connections (js "morning") s_two_devices). discriminate.
Defined.

Lemma room_created_reaches_cohort_witness :
  room_created_targets (VStr (js "MORNING"))
    (run [ on_register_user (js "D1") (UserData (VNum 7) (VStr (js "dana")) (VStr (js "student")) (VStr (js "Morning")));
           on_register_user (js "E") (UserData (VNum 8) (VStr (js "eve")) (VStr (js "student")) (VStr (js "evening")));
           on_register_user (js "D2") (UserData (VNum 7) (VStr (js "dana")) (VStr (js "student")) VUndefined) ]
         initial_state)
  = Some [js "D1"; js "D2"].
Proof.
  destruct (room_created_reaches_cohort
    [ on_register_user (js "D1") (UserData (VNum 7) (VStr (js "dana")) (VStr (js "student")) (VStr (js "Morning")));
      on_register_user (js "E") (UserData (VNum 8) (VStr (js "eve")) (VStr (js "student")) (VStr (js "evening")));
      on_register_user (js "D2") (UserData (VNum 7) (VStr (js "dana")) (VStr (js "student")) VUndefined) ]
    VNull VNull VNull VNull VNull (VStr (js "MORNING")) (js "morning") DbError)
    as [Ht _].
  - apply (bool_decide_unpack (strings_registry _)). vm_compute. exact I.
  - reflexivity.
  - rewrite Ht. vm_compute. reflexivity.
Defined.

Lemma story_reaches_cohort_witness :
  story_created_route story_example s_two_devices
  = (Done (),
     ((λ e, RouteEmit (ToRoom e.1) (new_story story_example))
        <$> audience (js "morning") (λ _, True) s_two_devices)
     ++ (story_request story_example <$> audience (js "morning") (λ _, True) s_two_devices)
     ++ [Respond 200]).
Proof.
  apply (story_reaches_cohort
    [ on_register_user (js "P") (UserData (VNum 1) (VStr (js "prof")) (VStr (js "representative")) (VStr (js "morning")));
      on_register_user (js "D1") (UserData (VNum 7) (VStr (js "dana")) (VStr (js "student")) (VStr (js "Morning")));
      on_register_user (js "D2") (UserData (VNum 7) (VStr (js "dana")) (VStr (js "student")) VUndefined) ]
    story_example (js "morning")).
  - apply (bool_decide_unpack (strings_registry _)). vm_compute. exact I.
  - reflexivity.
Defined.

Lemma bulk_delete_one_event_per_room_witness :
  let r := bulk_delete_route (Some [VNum 4; VStr (js "5"); VNum 6])
             (VStr (js "student")) (VNum 7)
             (Some [(js "general", VNull); (js "exams", VStr (js "uploads/a.png"));
                    (js "general", VStr (js "uploads/b.png"))]) true in
  length (filter (is_bulk_event_to (js "general")) r.2) = 1%nat
  ∧ length (filter (is_bulk_event_to (js "exams")) r.2) = 1%nat
  ∧ length (filter (is_bulk_event_to (js "lobby")) r.2) = 0%nat.
Proof.
  pose proof (bulk_delete_one_event_per_room
    [VNum 4; VStr (js "5"); VNum 6] (VStr (js "student")) (VNum 7)
    [(js "general", VNull); (js "exams", VStr (js "uploads/a.png"));
     (js "general", VStr (js "uploads/b.png"))]
    [js "4"; js "5"; js "6"]) as H.
  destruct H as (_ & _ & H & _); [done|reflexivity|reflexivity|].
  split; [exact (H (js "general"))|]. split; [exact (H (js "exams"))|exact (H (js "lobby"))].
Defined.

Lemma bulk_delete_bad_id_is_silent_witness :
  (bulk_delete_route (Some [VNum 4; VNull]) (VStr (js "representative")) (VNum 1)
     (Some [(js "general", VNull)]) true).1 = Thrown.
Proof.
  apply (bulk_delete_bad_id_is_silent [VNum 4; VNull] (VStr (js "representative"))
           (VNum 1) [(js "general", VNull)]); [reflexivity|done|reflexivity].
Defined.

Lemma convertTo12Hour_clock_witness :
  ∃ h12 marker,
    convertTo12Hour digits_value (VStr (js "14:05:00"))
    = Some (VStr (to_String (VNum h12) ++ js ":" ++ js "05" ++ js " " ++ marker))
    ∧ 1 ≤ h12 ≤ 12
    ∧ marker = (if bool_decide (12 ≤ 14) then [1605]%N else [1589]%N)
    ∧ 14 = Z.rem h12 12 + (if bool_decide (12 ≤ 14) then 12 else 0).
Proof.
  apply (convertTo12Hour_clock digits_value (js "14:05:00") (js "14") (js "05")
           [js "00"] 14); [reflexivity|reflexivity|lia].
Defined.

Lemma durationText_under_an_hour_witness :
  durationText (Some (-90))
  = to_String (VNum (Z.rem (-90) 60)) ++ [32; 1583; 1602; 1610; 1602; 1577]%N.
Proof. apply (durationText_under_an_hour (-90)). lia. Defined.

